(** * Health tracker: rolling weight average, phase suggestion, week
      records, report tools and the bearer-token check

    A shallow embedding of the calculation and request-handling code of the
    health tracker (the Swift utilities of the iOS client and the TypeScript
    worker), with the properties of its specification stated over it.

    Conventions.
    - A Swift [Double] and a JavaScript [number] are values of IEEE 754
      binary64 ([Binary64.double]). The worker's arithmetic rounds every
      result to the format. The client's weight calculator is written over
      the operations of [Double] ([Number.Arithmetic]) and is read with the
      rounded arithmetic of binary64 or with the unrounded arithmetic of the
      rationals. A REAL column, a JSON number and a threshold hold the
      rational they denote ([Q]); the phase scoring and the metabolic rate
      are written over the rationals.
    - Swift [Int] and SQLite INTEGER columns are [Z].
    - A Swift [Date] is an instant, counted in whole seconds ([Z]); a
      JavaScript [Date] is its time value, in milliseconds.
    - A nullable column, an optional field and a possibly [undefined]
      property are [option]. *)

From Stdlib Require Import String Ascii DecimalString ZArith QArith Qabs Qround List Bool Lia.
From Stdlib Require Import Sorted Permutation.
From Stdlib Require SpecFloat.
Import ListNotations.

Local Open Scope Z_scope.

(** ** Double-precision numbers *)

Module Binary64.

(** A value of IEEE 754 binary64, the format of Swift's [Double] and of a
    JavaScript [number]: a finite value, held as the rational it denotes,
    an infinity or [NaN]. Zero carries no sign. *)
Inductive double := Num (q : Q) | PosInfinity | NegInfinity | NaN.

Definition signedInfinity (negative : bool) : double :=
  if negative then NegInfinity else PosInfinity.

Definition isZero (q : Q) : bool := Qeq_bool q 0.

Definition negative (q : Q) : bool := negb (Qle_bool 0 q).

(** The rational [m * 2^e], in lowest terms. *)
Definition valueOf (negative : bool) (m : positive) (e : Z) : Q :=
  let magnitude :=
    match e with
    | Zneg p => Zpos m # (2 ^ p)
    | _ => inject_Z (Zpos m * 2 ^ e)
    end in
  Qred (if negative then - magnitude else magnitude).

Definition ofFloat (x : SpecFloat.spec_float) : double :=
  match x with
  | SpecFloat.S754_zero _ => Num 0
  | SpecFloat.S754_infinity negative => signedInfinity negative
  | SpecFloat.S754_nan => NaN
  | SpecFloat.S754_finite negative m e => Num (valueOf negative m e)
  end.

(** The quotient [n / d] of two positive integers, rounded to the nearest
    value of the format, to the one with an even mantissa of two equally
    near, and to an infinity beyond the largest finite value: the division
    of the standard library's specification of binary64. *)
Definition quotient (negative : bool) (n d : positive) : double :=
  ofFloat
    (SpecFloat.SFdiv 53 1024
       (SpecFloat.S754_finite negative n 0) (SpecFloat.S754_finite false d 0)).

(** The value of the format that an exact result is rounded to. *)
Definition round (q : Q) : double :=
  match Qnum q with
  | Z0 => Num 0
  | Zpos n => quotient false n (Qden q)
  | Zneg n => quotient true n (Qden q)
  end.

Definition opp (a : double) : double :=
  match a with
  | Num x => Num (- x)
  | PosInfinity => NegInfinity
  | NegInfinity => PosInfinity
  | NaN => NaN
  end.

Definition add (a b : double) : double :=
  match a, b with
  | NaN, _ | _, NaN => NaN
  | PosInfinity, NegInfinity | NegInfinity, PosInfinity => NaN
  | PosInfinity, _ | _, PosInfinity => PosInfinity
  | NegInfinity, _ | _, NegInfinity => NegInfinity
  | Num x, Num y => round (x + y)
  end.

Definition sub (a b : double) : double := add a (opp b).

Definition mul (a b : double) : double :=
  match a, b with
  | NaN, _ | _, NaN => NaN
  | Num x, Num y => round (x * y)
  | Num x, PosInfinity | PosInfinity, Num x =>
      if isZero x then NaN else signedInfinity (negative x)
  | Num x, NegInfinity | NegInfinity, Num x =>
      if isZero x then NaN else signedInfinity (negb (negative x))
  | PosInfinity, PosInfinity | NegInfinity, NegInfinity => PosInfinity
  | PosInfinity, NegInfinity | NegInfinity, PosInfinity => NegInfinity
  end.

Definition div (a b : double) : double :=
  match a, b with
  | NaN, _ | _, NaN => NaN
  | Num x, Num y =>
      if isZero y then
        (if isZero x then NaN else signedInfinity (negative x))
      else round (x / y)
  | Num _, (PosInfinity | NegInfinity) => Num 0
  | PosInfinity, Num y => signedInfinity (negative y)
  | NegInfinity, Num y => signedInfinity (negb (negative y))
  | (PosInfinity | NegInfinity), (PosInfinity | NegInfinity) => NaN
  end.

(** [a <= b] and [a < b]; a comparison with [NaN] is false. *)
Definition leb (a b : double) : bool :=
  match a, b with
  | NaN, _ | _, NaN => false
  | NegInfinity, _ | _, PosInfinity => true
  | PosInfinity, _ | _, NegInfinity => false
  | Num x, Num y => Qle_bool x y
  end.

Definition ltb (a b : double) : bool :=
  match a, b with
  | NaN, _ | _, NaN => false
  | PosInfinity, _ | _, NegInfinity => false
  | NegInfinity, _ | _, PosInfinity => true
  | Num x, Num y => negb (Qle_bool y x)
  end.

Definition abs (a : double) : double :=
  match a with
  | Num x => Num (Qabs x)
  | PosInfinity | NegInfinity => PosInfinity
  | NaN => NaN
  end.

End Binary64.

(** ** The arithmetic of the client's [Double] *)

Module Number.

(** The operations the client applies to a [Double]. *)
Class Arithmetic (R : Type) := {
  ofQ : Q -> R;
  add : R -> R -> R;
  sub : R -> R -> R;
  div : R -> R -> R;
  leb : R -> R -> bool
}.

Section Derived.

Context {R : Type} `{Arithmetic R}.

(** [Double(n)] of an [Int]. *)
Definition ofInt (n : Z) : R := ofQ (inject_Z n).

(** The numbers of a list added one after the other, from [0.0] on. *)
Definition sum (l : list R) : R := fold_left add l (ofQ 0).

(** The sum of a list divided by its length. *)
Definition mean (l : list R) : R := div (sum l) (ofInt (Z.of_nat (length l))).

End Derived.

(** The arithmetic of binary64, each result rounded. *)
#[global] Instance binary64 : Arithmetic Binary64.double := {|
  ofQ := Binary64.round;
  add := Binary64.add;
  sub := Binary64.sub;
  div := Binary64.div;
  leb := Binary64.leb
|}.

(** The arithmetic of the rationals, without rounding. *)
#[global] Instance exact : Arithmetic Q := {|
  ofQ := fun q => q;
  add := Qplus;
  sub := Qminus;
  div := Qdiv;
  leb := Qle_bool
|}.

End Number.

(** ** Rolling weight average (WeightAverageCalculator.swift) *)

Module WeightAverageCalculator.

(** [Calendar]: the one operation the calculator uses,
    [date(byAdding: .day, value:, to:)], which gives the instant [value]
    calendar days after [to], or [nil]. A calendar day lasts 24 hours except
    where the time zone changes its offset. *)
Record Calendar := mkCalendar {
  date_byAdding_day : Z -> Z -> option Z
}.

Definition secondsPerDay : Z := 86400.

(** The calendar of a time zone whose offset never changes: every day lasts
    24 hours. *)
Definition fixedOffset : Calendar :=
  {| date_byAdding_day := fun value to => Some (to + value * secondsPerDay) |}.



(** [calendar.date(byAdding: .day, value: -windowDays + 1, to: targetDate)
     ?? targetDate] *)
Definition startOfWindow (calendar : Calendar) (targetDate windowDays : Z) : Z :=
  match date_byAdding_day calendar (- windowDays + 1) targetDate with
  | Some d => d
  | None => targetDate
  end.

Inductive ConfidenceLevel := high | medium | low.

Section Double.

Context {Double : Type} `{Number.Arithmetic Double}.

(** [struct WeightReading]; the identifier is a UUID, kept as text. *)
Record WeightReading := mkWeightReading {
  id : string;
  date : Z;
  weight : Double;
  bodyFatPercentage : option Double;
  muscleMassPercentage : option Double;
  source : string
}.

(** [struct AverageResult] *)
Record AverageResult := mkAverageResult {
  average : option Double;
  confidence : Double;
  readingCount : Z;
  isValid : bool
}.

(** [var confidenceLevel] *)
Definition confidenceLevel (r : AverageResult) : ConfidenceLevel :=
  if Number.leb (Number.ofQ (7 # 10)) (confidence r) then high
  else if Number.leb (Number.ofQ (4 # 10)) (confidence r) then medium
  else low.

(** The closure passed to [readings.filter]. *)
Definition inRange (windowStart targetDate : Z) (reading : WeightReading) : bool :=
  (windowStart <=? date reading) && (date reading <=? targetDate).

(** [relevantReadings.reduce(0.0) { $0 + $1.weight }] *)
Definition sumWeights (rs : list WeightReading) : Double :=
  fold_left (fun acc r => Number.add acc (weight r)) rs (Number.ofQ 0).

(** [static func calculate7DayAverage(from:targetDate:windowDays:)] with the
    calendar that [Calendar.current] gives. *)
Definition calculate7DayAverage
    (calendar : Calendar) (readings : list WeightReading) (targetDate : Z) (windowDays : Z)
    : AverageResult :=
  let windowStart := startOfWindow calendar targetDate windowDays in
  let relevantReadings := filter (inRange windowStart targetDate) readings in
  let count := Z.of_nat (length relevantReadings) in
  if negb (3 <=? count) then
    {| average := None; confidence := Number.ofQ 0;
       readingCount := count; isValid := false |}
  else
    let sum := sumWeights relevantReadings in
    let average := Number.div sum (Number.ofInt count) in
    let confidence := Number.div (Number.ofInt count) (Number.ofInt windowDays) in
    {| average := Some average; confidence := confidence;
       readingCount := count; isValid := true |}.

(** [static func calculateWeekOverWeekChange]. Each of the two calls takes
    its default target date [Date()], the instant at which it is made:
    [now] for the first and [later] for the second. *)
Definition calculateWeekOverWeekChange
    (calendar : Calendar) (now later : Z)
    (currentWeekReadings previousWeekReadings : list WeightReading)
    : option Double :=
  let currentAvg := calculate7DayAverage calendar currentWeekReadings now 7 in
  let previousAvg := calculate7DayAverage calendar previousWeekReadings later 7 in
  match average currentAvg, average previousAvg with
  | Some current, Some previous =>
      if isValid currentAvg && isValid previousAvg
      then Some (Number.sub current previous) else None
  | _, _ => None
  end.

End Double.

Arguments WeightReading : clear implicits.
Arguments AverageResult : clear implicits.

(** A calendar in which the date a positive number of days after another
    exists and is later. *)
Definition movesForward (calendar : Calendar) : Prop :=
  forall value to, 0 < value ->
    exists d, date_byAdding_day calendar value to = Some d /\ to < d.

End WeightAverageCalculator.

(** ** Phase suggestion *)

(** [type Phase = 'cut' | 'maintenance' | 'bulk'] (calculations.ts) and
    [enum Phase] (Phase.swift). *)
Inductive Phase := cut | maintenance | bulk.

Definition Phase_eqb (a b : Phase) : bool :=
  match a, b with
  | cut, cut | maintenance, maintenance | bulk, bulk => true
  | _, _ => false
  end.

(** The strict comparison [a < b] of two numbers. *)
Definition Qltb (a b : Q) : bool := negb (Qle_bool b a).

(** *** calculations.ts *)

Module Calculations.

(** [Record<Phase, number>], an object with the three keys in the order
    in which the literal [{ cut: 0, maintenance: 0, bulk: 0 }] lists them. *)
Record Scores := mkScores {
  s_cut : Q;
  s_maintenance : Q;
  s_bulk : Q
}.

Definition addCut (v : Q) (s : Scores) : Scores :=
  mkScores (s_cut s + v)%Q (s_maintenance s) (s_bulk s).
Definition addMaintenance (v : Q) (s : Scores) : Scores :=
  mkScores (s_cut s) (s_maintenance s + v)%Q (s_bulk s).
Definition addBulk (v : Q) (s : Scores) : Scores :=
  mkScores (s_cut s) (s_maintenance s) (s_bulk s + v)%Q.

Definition score (s : Scores) (p : Phase) : Q :=
  match p with
  | cut => s_cut s
  | maintenance => s_maintenance s
  | bulk => s_bulk s
  end.

(** The two scoring blocks of [suggestPhase] (the statements between the
    declaration of [scores] and the comment "Find highest scoring phase"). *)
Definition scoreCalorieBalance (avgDailySurplus : Q) (scores : Scores) : Scores :=
  if Qltb avgDailySurplus (-300) then addCut 1 scores
  else if Qltb 300 avgDailySurplus then addBulk 1 scores
  else
    let scores := addMaintenance 1 scores in
    if Qltb avgDailySurplus (-200) then addCut (1 # 2) scores
    else if Qltb 200 avgDailySurplus then addBulk (1 # 2) scores
    else scores.

Definition scoreWeightTrend (avgWeeklyWeightChange : Q) (scores : Scores) : Scores :=
  if Qltb avgWeeklyWeightChange (- (1 # 2)) then addCut 1 scores
  else if Qltb (1 # 2) avgWeeklyWeightChange then addBulk 1 scores
  else
    let scores := addMaintenance 1 scores in
    if Qltb avgWeeklyWeightChange (- (3 # 10)) then addCut (1 # 2) scores
    else if Qltb (3 # 10) avgWeeklyWeightChange then addBulk (1 # 2) scores
    else scores.

Definition phaseScores (avgDailySurplus avgWeeklyWeightChange : Q) : Scores :=
  scoreWeightTrend avgWeeklyWeightChange
    (scoreCalorieBalance avgDailySurplus (mkScores 0 0 0)).

(** [Object.entries(scores)]: own string keys in insertion order. *)
Definition entries (s : Scores) : list (Phase * Q) :=
  [(cut, s_cut s); (maintenance, s_maintenance s); (bulk, s_bulk s)].

(** [Array.prototype.sort(compareFn)]. The sort is stable (ECMAScript 2019):
    [a] goes before [b] when [compareFn(a, b) < 0], after it when
    [compareFn(a, b) > 0], and two elements that compare equal keep their
    order. Insertion from the right end computes that arrangement. *)
Fixpoint sort_insert {A} (compareFn : A -> A -> Q) (x : A) (l : list A) : list A :=
  match l with
  | [] => [x]
  | y :: l' =>
      if Qle_bool (compareFn x y) 0 then x :: y :: l'
      else y :: sort_insert compareFn x l'
  end.

Fixpoint sort {A} (compareFn : A -> A -> Q) (l : list A) : list A :=
  match l with
  | [] => []
  | x :: l' => sort_insert compareFn x (sort compareFn l')
  end.

Definition calorieDesc (calorieBalance : Q) : string :=
  if Qltb calorieBalance (-200) then "deficit"
  else if Qltb 200 calorieBalance then "surplus" else "balanced".

Definition weightDesc (weightTrend : Q) : string :=
  if Qltb weightTrend (- (3 # 10)) then "losing"
  else if Qltb (3 # 10) weightTrend then "gaining" else "maintaining".

(** [function generateReasoning] *)
Definition generateReasoning (phase : Phase) (calorieBalance weightTrend : Q) : string :=
  let c := calorieDesc calorieBalance in
  let w := weightDesc weightTrend in
  match phase with
  | cut => "In a calorie " ++ c ++ ", " ++ w ++ " weight. Suggests cutting phase."
  | maintenance => "Calories " ++ c ++ ", weight " ++ w ++ ". Suggests maintenance."
  | bulk => "In a calorie " ++ c ++ ", " ++ w ++ " weight. Suggests bulking phase."
  end%string.

(** [interface PhaseSuggestion] *)
Record PhaseSuggestion := mkPhaseSuggestion {
  suggestedPhase : Phase;
  confidence : Q;
  reasoning : string;
  calorieBalance : Q;
  weightTrend : Q
}.

(** [export function suggestPhase]. The array [entries] always has three
    elements, so [entries[0]] is defined; the default below is never used. *)
Definition suggestPhase (avgDailySurplus avgWeeklyWeightChange : Q) : PhaseSuggestion :=
  let scores := phaseScores avgDailySurplus avgWeeklyWeightChange in
  let entries := sort (fun a b => (snd b - snd a)%Q) (entries scores) in
  let entries0 := hd (cut, 0%Q) entries in
  let suggestedPhase := fst entries0 in
  let maxScore := snd entries0 in
  let confidence := (maxScore / 2)%Q in
  let reasoning := generateReasoning suggestedPhase avgDailySurplus avgWeeklyWeightChange in
  {| suggestedPhase := suggestedPhase;
     confidence := confidence;
     reasoning := reasoning;
     calorieBalance := avgDailySurplus;
     weightTrend := avgWeeklyWeightChange |}.

(** The fixed order cut, maintenance, bulk. *)
Definition rank (p : Phase) : nat :=
  match p with cut => 0 | maintenance => 1 | bulk => 2 end%nat.

End Calculations.

(** *** PhaseDetector.swift *)

Module PhaseDetector.

(** [var scores: [Phase: Double]], a dictionary. Its contents are a total
    map on the three keys; the order in which a dictionary is traversed is
    not fixed by the language, so it is a parameter of the functions that
    traverse it. *)
Definition Scores := Phase -> Q.

Definition add (k : Phase) (v : Q) (s : Scores) : Scores :=
  fun p => if Phase_eqb p k then (s p + v)%Q else s p.

Definition initial : Scores := fun _ => 0%Q.

Definition scoreCalorieBalance (avgDailySurplus : Q) (scores : Scores) : Scores :=
  if Qltb avgDailySurplus (-300) then add cut 1 scores
  else if Qltb 300 avgDailySurplus then add bulk 1 scores
  else
    let scores := add maintenance 1 scores in
    if Qltb avgDailySurplus (-200) then add cut (1 # 2) scores
    else if Qltb 200 avgDailySurplus then add bulk (1 # 2) scores
    else scores.

Definition scoreWeightTrend (avgWeeklyWeightChange : Q) (scores : Scores) : Scores :=
  if Qltb avgWeeklyWeightChange (- (1 # 2)) then add cut 1 scores
  else if Qltb (1 # 2) avgWeeklyWeightChange then add bulk 1 scores
  else
    let scores := add maintenance 1 scores in
    if Qltb avgWeeklyWeightChange (- (3 # 10)) then add cut (1 # 2) scores
    else if Qltb (3 # 10) avgWeeklyWeightChange then add bulk (1 # 2) scores
    else scores.

Definition phaseScores (avgDailySurplus avgWeeklyWeightChange : Q) : Scores :=
  scoreWeightTrend avgWeeklyWeightChange
    (scoreCalorieBalance avgDailySurplus initial).

(** [sorted(by: areInIncreasingOrder)], which keeps the order of elements
    that the predicate does not order. *)
Fixpoint sorted_insert {A} (areInIncreasingOrder : A -> A -> bool) (x : A) (l : list A)
    : list A :=
  match l with
  | [] => [x]
  | y :: l' =>
      if areInIncreasingOrder y x then y :: sorted_insert areInIncreasingOrder x l'
      else x :: y :: l'
  end.

Fixpoint sorted {A} (areInIncreasingOrder : A -> A -> bool) (l : list A) : list A :=
  match l with
  | [] => []
  | x :: l' => sorted_insert areInIncreasingOrder x (sorted areInIncreasingOrder l')
  end.

(** [struct PhaseSuggestion] *)
Record PhaseSuggestion := mkPhaseSuggestion {
  suggestedPhase : Phase;
  confidence : Q;
  reasoning : string;
  calorieBalance : Q;
  weightTrend : Q
}.

(** [private static func generateReasoning] *)
Definition generateReasoning (phase : Phase) (calorieBalance weightTrend : Q) : string :=
  let calorieDesc :=
    (if Qltb calorieBalance (-200) then "deficit"
     else if Qltb 200 calorieBalance then "surplus" else "balanced")%string in
  let weightDesc :=
    (if Qltb weightTrend (- (3 # 10)) then "losing"
     else if Qltb (3 # 10) weightTrend then "gaining" else "maintaining")%string in
  match phase with
  | cut =>
      "In a calorie " ++ calorieDesc ++ ", " ++ weightDesc
        ++ " weight. Suggests cutting phase."
  | maintenance =>
      "Calories " ++ calorieDesc ++ ", weight " ++ weightDesc
        ++ ". Suggests maintenance."
  | bulk =>
      "In a calorie " ++ calorieDesc ++ ", " ++ weightDesc
        ++ " weight. Suggests bulking phase."
  end%string.

(** [static func suggestPhase]; [keys] is the order in which the dictionary
    [scores] is traversed. *)
Definition suggestPhase (keys : list Phase) (avgDailySurplus avgWeeklyWeightChange : Q)
    : PhaseSuggestion :=
  let scores := phaseScores avgDailySurplus avgWeeklyWeightChange in
  let sortedScores :=
    sorted (fun a b => Qltb (snd b) (snd a)) (map (fun k => (k, scores k)) keys) in
  let suggestedPhase :=
    match sortedScores with e :: _ => fst e | [] => maintenance end in
  let maxScore :=
    match sortedScores with e :: _ => snd e | [] => 0%Q end in
  let confidence := (maxScore / 2)%Q in
  let reasoning := generateReasoning suggestedPhase avgDailySurplus avgWeeklyWeightChange in
  {| suggestedPhase := suggestedPhase;
     confidence := confidence;
     reasoning := reasoning;
     calorieBalance := avgDailySurplus;
     weightTrend := avgWeeklyWeightChange |}.

(** The six orders in which the three keys can be traversed. *)
Definition traversals : list (list Phase) :=
  [ [cut; maintenance; bulk]; [cut; bulk; maintenance];
    [maintenance; cut; bulk]; [maintenance; bulk; cut];
    [bulk; cut; maintenance]; [bulk; maintenance; cut] ].

(** [static func isPhaseAligned] *)
Definition isPhaseAligned (keys : list Phase) (actualPhase : Phase)
    (avgDailySurplus avgWeeklyWeightChange : Q) : bool :=
  let suggestion := suggestPhase keys avgDailySurplus avgWeeklyWeightChange in
  Phase_eqb (suggestedPhase suggestion) actualPhase
  && Qltb (1 # 2) (confidence suggestion).

End PhaseDetector.

(** ** JavaScript values used by the worker *)

Module JS.

Local Open Scope string_scope.

(** A [number] is a value of binary64, and the arithmetic operators are
    those of the format. *)
Abbreviation jsnum := Binary64.double.
Abbreviation Num := Binary64.Num.
Abbreviation PosInfinity := Binary64.PosInfinity.
Abbreviation NegInfinity := Binary64.NegInfinity.
Abbreviation NaN := Binary64.NaN.
Abbreviation signedInfinity := Binary64.signedInfinity.
Abbreviation isZero := Binary64.isZero.
Abbreviation add := Binary64.add.
Abbreviation sub := Binary64.sub.
Abbreviation mul := Binary64.mul.
Abbreviation div := Binary64.div.
Abbreviation leb := Binary64.leb.
Abbreviation ltb := Binary64.ltb.
Abbreviation abs := Binary64.abs.

(** Truthiness of a nullable number: [null], [undefined] and [0] are falsy. *)
Definition truthyZ (v : option Z) : bool :=
  match v with Some n => negb (n =? 0)%Z | None => false end.

Definition truthyQ (v : option Q) : bool :=
  match v with Some q => negb (isZero q) | None => false end.

(** Truthiness of a nullable string: the empty string is falsy. *)
Definition truthyS (v : option string) : bool :=
  match v with Some "" => false | Some _ => true | None => false end.

(** [ToNumber] of a nullable integer operand: [null] converts to [0]. *)
Definition toNumber (v : option Z) : jsnum :=
  match v with Some n => Num (inject_Z n) | None => Num 0 end.


(** [l.reduce((a, b) => a + b, 0) / l.length] *)
Definition mean (l : list Q) : jsnum :=
  div (fold_left (fun a b => add a (Num b)) l (Num 0))
      (Num (inject_Z (Z.of_nat (List.length l)))).

(** The decimal digits of an integer, as [String(n)] prints them. *)
Definition string_of_Z (n : Z) : string :=
  DecimalString.NilZero.string_of_int (Z.to_int n).

Fixpoint repeat (s : string) (n : nat) : string :=
  match n with
  | O => ""
  | S n' => s ++ repeat s n'
  end.

(** [String.prototype.substring] on the two sides of a position. *)
Definition takeS (n : nat) (s : string) : string := substring 0 n s.
Definition dropS (n : nat) (s : string) : string := substring n (String.length s - n) s.

(** [Number.prototype.toFixed(f)] of a finite value: the integer [n] nearest
    to [x * 10^f], the larger one of two equally near, printed with [f]
    digits after the point; a negative [x] is printed as ["-"] followed by
    the digits of [-x]. *)
Definition toFixedQ (f : nat) (x : Q) : string :=
  let negative := Qltb x 0 in
  let ax := if negative then Qopp x else x in
  let n := Qfloor (ax * inject_Z (10 ^ Z.of_nat f) + (1 # 2)) in
  let m := string_of_Z n in
  let m := repeat "0" (S f - String.length m) ++ m in
  let k := (String.length m - f)%nat in
  (if negative then "-" else "")
  ++ takeS k m
  ++ (match f with O => "" | _ => "." ++ dropS k m end).

(** [v] converts to the value [z]: the number nearest to it is [z]. *)
Definition convertsTo (v z : Z) : bool :=
  match Binary64.round (inject_Z v) with
  | Num q => Qeq_bool q (inject_Z z)
  | _ => false
  end.

(** The digits [s] and the exponent [n] with which [Number::toString] prints
    a large integer value [z]: the shortest [s], not a multiple of a power of
    ten beyond what the digits count, such that [s * 10^(n - k)] converts to
    [z], where [k] is the number of digits of [s]; of two such [s] the nearer
    to [z], the even one when they are equally near. [n] starts as the
    number of digits of [z] and [k] as 1. *)
Fixpoint shortestDigits (fuel : nat) (k : Z) (z n : Z) : Z * Z :=
  match fuel with
  | O => (z, n)
  | S fuel' =>
      let unit := (10 ^ (n - k))%Z in
      let lo := (z / unit)%Z in
      let hi := (lo + 1)%Z in
      let viaLo := convertsTo (lo * unit) z in
      let viaHi := convertsTo (hi * unit) z in
      let carried := if (hi =? 10 ^ k)%Z then ((10 ^ (k - 1))%Z, (n + 1)%Z) else (hi, n) in
      if viaLo && viaHi then
        match (z - lo * unit ?= hi * unit - z)%Z with
        | Lt => (lo, n)
        | Gt => carried
        | Eq => if Z.even lo then (lo, n) else carried
        end
      else if viaLo then (lo, n)
      else if viaHi then carried
      else shortestDigits fuel' (k + 1)%Z z n
  end.

(** [Number::toString] of an integer value of magnitude [10^21] or more:
    the digits, a point after the first of several, and the exponent. *)
Definition toExponential (z : Z) : string :=
  let magnitude := Z.abs z in
  let n := Z.of_nat (String.length (string_of_Z magnitude)) in
  let (s, n) := shortestDigits 17 1 magnitude n in
  let digits := string_of_Z s in
  (if (z <? 0)%Z then "-" else "")
  ++ takeS 1 digits
  ++ (if (String.length digits <=? 1)%nat then "" else "." ++ dropS 1 digits)
  ++ "e+" ++ string_of_Z (n - 1).

(** [Number.prototype.toFixed(f)]: a value of magnitude [10^21] or more, an
    infinity and [NaN] are printed as [String] prints them. *)
Definition toFixed (f : nat) (x : jsnum) : string :=
  match x with
  | Num q =>
      if Qle_bool (inject_Z (10 ^ 21)) (Qabs q) then toExponential (Qfloor q)
      else toFixedQ f q
  | PosInfinity => "Infinity"
  | NegInfinity => "-Infinity"
  | NaN => "NaN"
  end.

(** Digits in groups of three, from the right, separated by commas. *)
Fixpoint group3 (fuel : nat) (digits : string) : string :=
  match fuel with
  | O => digits
  | S fuel' =>
      if (String.length digits <=? 3)%nat then digits
      else
        let k := (String.length digits - 3)%nat in
        group3 fuel' (takeS k digits) ++ "," ++ dropS k digits
  end.

(** [Number.prototype.toLocaleString()] of an integer in the worker's
    default locale (en-US). *)
Definition toLocaleString (n : Z) : string :=
  let digits := string_of_Z (Z.abs n) in
  (if (n <? 0)%Z then "-" else "") ++ group3 (String.length digits) digits.

(** Template-literal conversion of nullable values: [null] prints as
    ["null"]. *)
Definition showZ (v : option Z) : string :=
  match v with Some n => string_of_Z n | None => "null" end.

Definition showS (v : option string) : string :=
  match v with Some s => s | None => "null" end.

Definition isSpace (c : ascii) : bool :=
  match c with
  | " "%char | "009"%char | "010"%char | "011"%char | "012"%char | "013"%char => true
  | _ => false
  end.

Fixpoint trimStart (s : string) : string :=
  match s with
  | String c s' => if isSpace c then trimStart s' else s
  | EmptyString => EmptyString
  end.

Fixpoint trimEnd (s : string) : string :=
  match s with
  | EmptyString => EmptyString
  | String c s' =>
      match trimEnd s' with
      | EmptyString => if isSpace c then EmptyString else String c EmptyString
      | t => String c t
      end
  end.

(** [String.prototype.trim] (ASCII white space). *)
Definition trim (s : string) : string := trimEnd (trimStart s).

Definition upper (c : ascii) : ascii :=
  let n := nat_of_ascii c in
  if ((97 <=? n) && (n <=? 122))%nat then ascii_of_nat (n - 32) else c.

(** [String.prototype.toUpperCase] (ASCII letters). *)
Fixpoint toUpperCase (s : string) : string :=
  match s with
  | EmptyString => EmptyString
  | String c s' => String (upper c) (toUpperCase s')
  end.

(** [s.split(' ')] *)
Fixpoint splitSpace (s : string) : list string :=
  match s with
  | EmptyString => [EmptyString]
  | String c s' =>
      if Ascii.eqb c " " then EmptyString :: splitSpace s'
      else
        match splitSpace s' with
        | h :: t => String c h :: t
        | [] => [String c EmptyString]
        end
  end.

(** Relational operators on strings compare character codes,
    left to right. *)
Definition leS (a b : string) : bool := String.leb a b.
Definition geS (a b : string) : bool := String.leb b a.

End JS.

(** ** The [Date] of the runtime

    A [Date] holds a time value, the milliseconds since the start of 1970 in
    UTC, or is invalid. The worker runs in UTC. *)

Module JSDate.

Local Open Scope string_scope.

Definition msPerDay : Z := 86400000.

(** [Day(t)] and [TimeWithinDay(t)] *)
Definition Day (t : Z) : Z := (t / msPerDay)%Z.
Definition TimeWithinDay (t : Z) : Z := (t mod msPerDay)%Z.

(** The number of a day of the Gregorian calendar; day 0 is 1 January 1970.
    The year is counted from March, so that the leap day is its last. *)
Definition daysFromCivil (year month day : Z) : Z :=
  (let y := if month <=? 2 then year - 1 else year in
   let era := y / 400 in
   let yearOfEra := y - era * 400 in
   let monthFromMarch := if 2 <? month then month - 3 else month + 9 in
   let dayOfYear := (153 * monthFromMarch + 2) / 5 + day - 1 in
   let dayOfEra := yearOfEra * 365 + yearOfEra / 4 - yearOfEra / 100 + dayOfYear in
   era * 146097 + dayOfEra - 719468)%Z.

(** The year, the month (1 to 12) and the day of the month of a day. *)
Definition civilFromDays (days : Z) : Z * Z * Z :=
  (let z := days + 719468 in
   let era := z / 146097 in
   let dayOfEra := z - era * 146097 in
   let yearOfEra :=
     (dayOfEra - dayOfEra / 1460 + dayOfEra / 36524 - dayOfEra / 146096) / 365 in
   let dayOfYear := dayOfEra - (365 * yearOfEra + yearOfEra / 4 - yearOfEra / 100) in
   let monthFromMarch := (5 * dayOfYear + 2) / 153 in
   let day := dayOfYear - (153 * monthFromMarch + 2) / 5 + 1 in
   let month := if monthFromMarch <? 10 then monthFromMarch + 3 else monthFromMarch - 9 in
   let year := yearOfEra + era * 400 in
   (if month <=? 2 then year + 1 else year, month, day))%Z.

(** [TimeClip]: a time value lies within 100 million days of the epoch. *)
Definition timeClip (t : Z) : option Z :=
  if (Z.abs t <=? 8640000000000000)%Z then Some t else None.

(** The number that a field of decimal digits denotes. *)
Definition field (text : string) (start length : nat) : option Z :=
  let digits := substring start length text in
  if (String.length digits =? length)%nat then
    match DecimalString.NilEmpty.uint_of_string digits with
    | Some n => Some (Z.of_uint n)
    | None => None
    end
  else None.

Definition charIs (text : string) (position : nat) (c : ascii) : bool :=
  match String.get position text with
  | Some c' => Ascii.eqb c' c
  | None => false
  end.

(** The day that the first ten characters [YYYY-MM-DD] name, when they name
    a day of the calendar. *)
Definition dayOf (text : string) : option Z :=
  match field text 0 4, field text 5 2, field text 8 2 with
  | Some year, Some month, Some day =>
      let days := daysFromCivil year month day in
      if charIs text 4 "-" && charIs text 7 "-"
         && (1 <=? month)%Z && (month <=? 12)%Z && (1 <=? day)%Z
         && (let '(y, m, d) := civilFromDays days in
             (y =? year)%Z && (m =? month)%Z && (d =? day)%Z)
      then Some days else None
  | _, _, _ => None
  end.

(** The milliseconds into the day that the characters [THH:mm:ss] after
    the date name. *)
Definition timeOf (text : string) : option Z :=
  match field text 11 2, field text 14 2, field text 17 2 with
  | Some hours, Some minutes, Some seconds =>
      if charIs text 10 "T" && charIs text 13 ":" && charIs text 16 ":"
         && (hours <=? 23)%Z && (minutes <=? 59)%Z && (seconds <=? 59)%Z
      then Some (hours * 3600000 + minutes * 60000 + seconds * 1000)%Z else None
  | _, _, _ => None
  end.

(** The time value of a text in one of three forms of the date-time format
    of the language: [YYYY-MM-DD], [YYYY-MM-DDTHH:mm:ssZ] and
    [YYYY-MM-DDTHH:mm:ss.sssZ], each in UTC. *)
Definition parseFormat (text : string) : option Z :=
  match String.length text with
  | 10%nat =>
      match dayOf text with
      | Some days => Some (days * msPerDay)%Z
      | None => None
      end
  | 20%nat =>
      match dayOf text, timeOf text with
      | Some days, Some time =>
          if charIs text 19 "Z" then Some (days * msPerDay + time)%Z else None
      | _, _ => None
      end
  | 24%nat =>
      match dayOf text, timeOf text, field text 20 3 with
      | Some days, Some time, Some milliseconds =>
          if charIs text 19 "." && charIs text 23 "Z"
          then Some (days * msPerDay + time + milliseconds)%Z else None
      | _, _, _ => None
      end
  | _ => None
  end.

(** [new Date(text)]: the time value, or [None] for an invalid date. What
    a text outside the three forms above is parsed to is left to the
    runtime, [parseOther]. *)
Definition ofString (parseOther : string -> option Z) (text : string) : option Z :=
  match parseFormat text with
  | Some t => timeClip t
  | None =>
      match parseOther text with
      | Some t => timeClip t
      | None => None
      end
  end.

(** A number printed with at least [width] digits. *)
Definition padded (width : nat) (n : Z) : string :=
  let digits := JS.string_of_Z n in
  JS.repeat "0" (width - String.length digits) ++ digits.

(** [toISOString] of a time value: [YYYY-MM-DDTHH:mm:ss.sssZ], a year
    outside 0 to 9999 with its sign and six digits. *)
Definition toISOString (t : Z) : string :=
  let '(year, month, day) := civilFromDays (Day t) in
  let time := TimeWithinDay t in
  (if (0 <=? year)%Z && (year <=? 9999)%Z then padded 4 year
   else (if (year <? 0)%Z then "-" else "+") ++ padded 6 (Z.abs year))
  ++ "-" ++ padded 2 month ++ "-" ++ padded 2 day
  ++ "T" ++ padded 2 (time / 3600000)
  ++ ":" ++ padded 2 ((time / 60000) mod 60)
  ++ ":" ++ padded 2 ((time / 1000) mod 60)
  ++ "." ++ padded 3 (time mod 1000) ++ "Z".

End JSDate.

(** ** Week boundaries on the server (utils/date-helpers.ts)

    A [Date] is its time value, the milliseconds since the epoch. The worker
    runs in UTC, so the local calendar fields are those of UTC, and changing
    the day of the month by [n] moves the time value by [n] days. *)

Module DateUtils.

Definition msPerDay : Z := 86400000.



(** [d.setDate(d.getDate() + n)] *)
Definition shiftDate (t n : Z) : Z := t + n * msPerDay.






End DateUtils.

(** ** The store and its queries (schema.sql, queries.ts) *)

Module Queries.

Local Open Scope string_scope.

(** A row of table [weeks]. Every column but [id], [start_date] and
    [end_date] is nullable. *)
Record WeekRecord := mkWeekRecord {
  id : string;
  start_date : string;
  end_date : string;
  target_calories : option Z;
  target_protein : option Z;
  target_steps : option Z;
  target_cardio : option Z;
  phase : option string;
  total_steps : option Z;
  total_calories : option Z;
  total_protein : option Z;
  total_cardio_calories : option Z;
  average_weight : option Q;
  week_over_week_weight_change : option Q;
  body_fat_percentage : option Q;
  body_fat_change : option Q;
  muscle_mass_percentage : option Q;
  muscle_mass_change : option Q;
  is_complete : option Z;
  completed_at : option string;
  created_at : string;
  updated_at : string
}.

(** [Partial<WeekRecord>], the argument of [createWeek]: every property may
    be missing. [None] stands for a property that is [undefined] or [null]. *)
Record WeekInput := mkWeekInput {
  in_id : option string;
  in_start_date : option string;
  in_end_date : option string;
  in_target_calories : option Z;
  in_target_protein : option Z;
  in_target_steps : option Z;
  in_target_cardio : option Z;
  in_phase : option string;
  in_total_steps : option Z;
  in_total_calories : option Z;
  in_total_protein : option Z;
  in_total_cardio_calories : option Z;
  in_average_weight : option Q;
  in_week_over_week_weight_change : option Q;
  in_body_fat_percentage : option Q;
  in_body_fat_change : option Q;
  in_muscle_mass_percentage : option Q;
  in_muscle_mass_change : option Q;
  in_is_complete : option Z;
  in_completed_at : option string
}.

(** A row of table [weight_readings]. *)
Record WeightReading := mkWeightReading {
  r_id : string;
  r_date : string;
  r_weight : Q;
  r_body_fat_percentage : option Q;
  r_muscle_mass_percentage : option Q;
  r_source : option string;
  r_created_at : string
}.

(** The tables, each in insertion (rowid) order. *)
Record D1Database := mkD1Database {
  weeks : list WeekRecord;
  weight_readings : list WeightReading
}.

(** A statement either runs or is refused by the store; [message] names the
    reason of the refusal, in fewer words than the runtime's text. *)
Inductive D1Result (A : Type) :=
| D1Ok (a : A)
| D1Error (message : string).
Arguments D1Ok {A} a.
Arguments D1Error {A} message.

(** [ORDER BY key ASC] and [ORDER BY key DESC] on a text column; rows with
    equal keys stay in rowid order. *)
Fixpoint orderInsert {A} (precedes : A -> A -> bool) (x : A) (l : list A) : list A :=
  match l with
  | [] => [x]
  | y :: l' =>
      if precedes y x then y :: orderInsert precedes x l'
      else x :: y :: l'
  end.

Fixpoint orderBy {A} (precedes : A -> A -> bool) (l : list A) : list A :=
  match l with
  | [] => []
  | x :: l' => orderInsert precedes x (orderBy precedes l')
  end.

Definition strictlyBefore (a b : string) : bool := negb (String.leb b a).

Definition orderByAsc {A} (key : A -> string) : list A -> list A :=
  orderBy (fun y x => strictlyBefore (key y) (key x)).

Definition orderByDesc {A} (key : A -> string) : list A -> list A :=
  orderBy (fun y x => strictlyBefore (key x) (key y)).

(** [LIMIT limit OFFSET offset]; a negative limit means no limit and a
    negative offset means none. *)
Definition limitOffset {A} (limit offset : Z) (l : list A) : list A :=
  let l := skipn (Z.to_nat offset) l in
  if (limit <? 0)%Z then l else firstn (Z.to_nat limit) l.

(** View [current_week] *)
Definition current_week (db : D1Database) : list WeekRecord :=
  firstn 1
    (orderByDesc start_date
       (filter (fun w => match is_complete w with Some 0%Z => true | _ => false end)
          (weeks db))).

(** View [completed_weeks] *)
Definition completed_weeks (db : D1Database) : list WeekRecord :=
  orderByDesc start_date
    (filter (fun w => match is_complete w with Some 1%Z => true | _ => false end)
       (weeks db)).

(** [getWeekByStartDate] *)
Definition getWeekByStartDate (db : D1Database) (startDate : string) : option WeekRecord :=
  find (fun w => String.eqb (start_date w) startDate) (weeks db).

(** [getCurrentWeek] *)
Definition getCurrentWeek (db : D1Database) : option WeekRecord :=
  hd_error (current_week db).

(** [getWeeks] *)
Definition getWeeks (db : D1Database) (limit offset : Z) : list WeekRecord :=
  limitOffset limit offset (completed_weeks db).

(** [a || b] on the bound values of [createWeek]. *)
Definition orZ (v : option Z) (default : option Z) : option Z :=
  if JS.truthyZ v then v else default.
Definition orQ (v : option Q) (default : option Q) : option Q :=
  if JS.truthyQ v then v else default.
Definition orS (v : option string) (default : option string) : option string :=
  if JS.truthyS v then v else default.

(** [createWeek]; [now] is [new Date().toISOString()]. The statement is
    refused when one of the three values bound as they are is [undefined]
    (or, for the two dates, [null]) and when the primary key is already
    present. The identifier of a stored week is a text: the route that calls
    the function sets it, and a row whose identifier is [null], which the
    table would take, is not among the rows described here. *)
Definition createWeek (now : string) (db : D1Database) (week : WeekInput)
    : D1Result D1Database :=
  match in_id week, in_start_date week, in_end_date week with
  | Some wid, Some sd, Some ed =>
      if existsb (fun w => String.eqb (id w) wid) (weeks db) then
        D1Error "UNIQUE constraint failed: weeks.id"
      else
        let row :=
          {| id := wid;
             start_date := sd;
             end_date := ed;
             target_calories := orZ (in_target_calories week) (Some 0%Z);
             target_protein := orZ (in_target_protein week) (Some 0%Z);
             target_steps := orZ (in_target_steps week) (Some 0%Z);
             target_cardio := orZ (in_target_cardio week) (Some 0%Z);
             phase := orS (in_phase week) (Some "maintenance");
             total_steps := orZ (in_total_steps week) None;
             total_calories := orZ (in_total_calories week) None;
             total_protein := orZ (in_total_protein week) None;
             total_cardio_calories := orZ (in_total_cardio_calories week) None;
             average_weight := orQ (in_average_weight week) None;
             week_over_week_weight_change :=
               orQ (in_week_over_week_weight_change week) None;
             body_fat_percentage := orQ (in_body_fat_percentage week) None;
             body_fat_change := orQ (in_body_fat_change week) None;
             muscle_mass_percentage := orQ (in_muscle_mass_percentage week) None;
             muscle_mass_change := orQ (in_muscle_mass_change week) None;
             is_complete := orZ (in_is_complete week) (Some 0%Z);
             completed_at := orS (in_completed_at week) None;
             created_at := now;
             updated_at := now |} in
        D1Ok {| weeks := weeks db ++ [row];
                weight_readings := weight_readings db |}
  | _, _, _ => D1Error "D1_TYPE_ERROR: Type 'undefined' not supported"
  end.

(** [getWeightReadings] *)
Definition getWeightReadings (db : D1Database) (startDate endDate : string)
    : list WeightReading :=
  orderByAsc r_date
    (filter (fun r => String.leb startDate (r_date r) && String.leb (r_date r) endDate)
       (weight_readings db)).

End Queries.

(** ** The analysis tools (tools/*.ts) *)

Module Tools.

Import Queries.
Local Open Scope string_scope.

Definition nl : string := String "010" EmptyString.

(** An element of [content] and the object a tool returns. *)
Record TextContent := mkTextContent {
  type : string;
  text : string
}.

Record ToolResult := mkToolResult {
  content : list TextContent
}.

Definition textResult (s : string) : ToolResult :=
  {| content := [ {| type := "text"; text := s |} ] |}.

(** A tool returns its result or throws. *)
Inductive Outcome (A : Type) :=
| Returned (a : A)
| Thrown (message : string).
Arguments Returned {A} a.
Arguments Thrown {A} message.

Definition bind {A B} (m : Outcome A) (k : A -> Outcome B) : Outcome B :=
  match m with
  | Returned a => k a
  | Thrown e => Thrown e
  end.

Notation "x <- m ;; k" := (bind m (fun x => k))
  (at level 61, m at next level, right associativity).

(** [week.target_steps.toLocaleString()]: a method call on [null] throws
    a [TypeError]; [Thrown] carries its [message]. *)
Definition targetStepsText (w : WeekRecord) : Outcome string :=
  match target_steps w with
  | Some n => Returned (JS.toLocaleString n)
  | None => Thrown "Cannot read properties of null (reading 'toLocaleString')"
  end.

(** [(actual / target) * 100] *)
Definition adherence (actual target : option Z) : JS.jsnum :=
  JS.mul (JS.div (JS.toNumber actual) (JS.toNumber target)) (JS.Num 100).

(** [${actual || 'N/A'}] *)
Definition orNA (actual : option Z) : string :=
  if JS.truthyZ actual then JS.showZ actual else "N/A".

(** [${actual ? `(${((actual / target) * 100).toFixed(1)}%)` : ''}] *)
Definition adherenceNote (actual target : option Z) : string :=
  if JS.truthyZ actual then "(" ++ JS.toFixed 1 (adherence actual target) ++ "%)"
  else "".

(** [${x >= 0 ? '+' : ''}${x.toFixed(f)}] *)
Definition signed (f : nat) (x : JS.jsnum) : string :=
  (if JS.leb (JS.Num 0) x then "+" else "") ++ JS.toFixed f x.

(** The four lines under ACTUALS of the week summary. *)
Definition caloriesLine (week : WeekRecord) : string :=
  "- Calories: " ++ orNA (total_calories week) ++ " kcal "
  ++ adherenceNote (total_calories week) (target_calories week).

Definition proteinLine (week : WeekRecord) : string :=
  "- Protein: " ++ orNA (total_protein week) ++ "g "
  ++ adherenceNote (total_protein week) (target_protein week).

Definition stepsLine (week : WeekRecord) : string :=
  "- Steps: "
  ++ match total_steps week with
     | Some n => JS.toLocaleString n
     | None => "N/A"
     end
  ++ " " ++ adherenceNote (total_steps week) (target_steps week).

Definition cardioLine (week : WeekRecord) : string :=
  "- Cardio: " ++ orNA (total_cardio_calories week) ++ " kcal "
  ++ adherenceNote (total_cardio_calories week) (target_cardio week).

(** [${v ? `${v.toFixed(1)}unit` : 'N/A'}] *)
Definition fixedOrNA (v : option Q) (unit : string) : string :=
  match v with
  | Some q => if JS.isZero q then "N/A" else JS.toFixedQ 1 q ++ unit
  | None => "N/A"
  end.

(** [${v ? ` (${v >= 0 ? '+' : ''}${v.toFixed(1)}%)` : ''}] *)
Definition changeNote (v : option Q) : string :=
  match v with
  | Some q => if JS.isZero q then "" else " (" ++ signed 1 (JS.Num q) ++ "%)"
  | None => ""
  end.

Definition wowLine (week : WeekRecord) : string :=
  "- Week-over-Week Change: "
  ++ match week_over_week_weight_change week with
     | Some q => if JS.isZero q then "N/A" else signed 1 (JS.Num q) ++ " lbs"
     | None => "N/A"
     end.

Definition statusLine (week : WeekRecord) : string :=
  "Status: "
  ++ (if JS.truthyZ (is_complete week)
      then "Completed on " ++ JS.showS (completed_at week)
      else "In Progress").

(** The template literal of [executeWeekSummary], before [trim()]. *)
Definition summaryTemplate (startDate : string) (week : WeekRecord) (targetSteps : string)
    : string :=
  nl ++ "Week Summary: " ++ startDate ++ nl
  ++ "Phase: " ++ JS.showS (phase week) ++ nl
  ++ nl
  ++ "TARGETS:" ++ nl
  ++ "- Calories: " ++ JS.showZ (target_calories week) ++ " kcal" ++ nl
  ++ "- Protein: " ++ JS.showZ (target_protein week) ++ "g" ++ nl
  ++ "- Steps: " ++ targetSteps ++ nl
  ++ "- Cardio: " ++ JS.showZ (target_cardio week) ++ " kcal" ++ nl
  ++ nl
  ++ "ACTUALS:" ++ nl
  ++ caloriesLine week ++ nl
  ++ proteinLine week ++ nl
  ++ stepsLine week ++ nl
  ++ cardioLine week ++ nl
  ++ nl
  ++ "BODY COMPOSITION:" ++ nl
  ++ "- Average Weight: " ++ fixedOrNA (average_weight week) " lbs" ++ nl
  ++ wowLine week ++ nl
  ++ "- Body Fat: " ++ fixedOrNA (body_fat_percentage week) "%"
       ++ changeNote (body_fat_change week) ++ nl
  ++ "- Muscle Mass: " ++ fixedOrNA (muscle_mass_percentage week) "%"
       ++ changeNote (muscle_mass_change week) ++ nl
  ++ nl
  ++ statusLine week ++ nl.

(** Argument of [executeWeekSummary] *)
Record WeekSummaryArgs := mkWeekSummaryArgs {
  ws_startDate : string
}.

(** [executeWeekSummary] *)
Definition executeWeekSummary (db : D1Database) (args : WeekSummaryArgs)
    : Outcome ToolResult :=
  match getWeekByStartDate db (ws_startDate args) with
  | None =>
      Returned (textResult ("No week found starting on " ++ ws_startDate args))
  | Some week =>
      targetSteps <- targetStepsText week ;;
      let summary := JS.trim (summaryTemplate (ws_startDate args) week targetSteps) in
      Returned (textResult summary)
  end.

(** [${n?.toLocaleString() || '0'}] and [${n || '0'}] of the current-week
    report. *)
Definition localeOrZero (actual : option Z) : string :=
  match actual with
  | Some n => JS.toLocaleString n
  | None => "0"
  end.

Definition orZero (actual : option Z) : string :=
  if JS.truthyZ actual then JS.showZ actual else "0".

(** [${actual ? ((actual / target) * 100).toFixed(1) : '0'}] *)
Definition progress (actual target : option Z) : string :=
  if JS.truthyZ actual then JS.toFixed 1 (adherence actual target) else "0".

(** [Math.floor((Date.now() - new Date(start).getTime()) / 86400000) + 1],
    printed; [startTime] is [getTime()] of the parsed start date, [None] when
    the text is not a date ([NaN]). *)
Definition daysIntoWeek (now : Z) (startTime : option Z) : string :=
  match startTime with
  | Some t => JS.string_of_Z ((now - t) / 86400000 + 1)
  | None => "NaN"
  end.

Definition currentMetrics (week : WeekRecord) : string :=
  match average_weight week with
  | None => ""
  | Some aw =>
      if JS.isZero aw then ""
      else
        "CURRENT METRICS:" ++ nl
        ++ "7-day avg weight: " ++ JS.toFixedQ 1 aw ++ " lbs" ++ nl
        ++ match week_over_week_weight_change week with
           | Some q =>
               if JS.isZero q then ""
               else "Week-over-week: " ++ signed 1 (JS.Num q) ++ " lbs" ++ nl
           | None => ""
           end
        ++ (if JS.truthyQ (body_fat_percentage week) then
              "Body fat: " ++ fixedOrNA (body_fat_percentage week) "%"
              ++ changeNote (body_fat_change week) ++ nl
            else "")
        ++ (if JS.truthyQ (muscle_mass_percentage week) then
              "Muscle mass: " ++ fixedOrNA (muscle_mass_percentage week) "%"
              ++ changeNote (muscle_mass_change week) ++ nl
            else "")
  end.

(** [executeCurrentWeek]; [now] is [Date.now()] and [getTime] the runtime's
    [new Date(text).getTime()]. *)
Definition executeCurrentWeek (now : Z) (getTime : string -> option Z) (db : D1Database)
    : Outcome ToolResult :=
  match getCurrentWeek db with
  | None =>
      Returned
        (textResult "No current week in progress. Start a new week to track metrics.")
  | Some week =>
      targetSteps <- targetStepsText week ;;
      let text :=
        "Current Week (Day " ++ daysIntoWeek now (getTime (start_date week))
          ++ " of 7)" ++ nl
        ++ start_date week ++ " - " ++ end_date week ++ nl
        ++ "Phase: " ++ JS.showS (phase week) ++ nl ++ nl
        ++ "PROGRESS:" ++ nl
        ++ "Steps: " ++ localeOrZero (total_steps week) ++ " / " ++ targetSteps
          ++ " (" ++ progress (total_steps week) (target_steps week) ++ "%)" ++ nl
        ++ "Calories: " ++ orZero (total_calories week) ++ " / "
          ++ JS.showZ (target_calories week)
          ++ " (" ++ progress (total_calories week) (target_calories week) ++ "%)" ++ nl
        ++ "Protein: " ++ orZero (total_protein week) ++ "g / "
          ++ JS.showZ (target_protein week) ++ "g"
          ++ " (" ++ progress (total_protein week) (target_protein week) ++ "%)" ++ nl
        ++ "Cardio: " ++ orZero (total_cardio_calories week) ++ " / "
          ++ JS.showZ (target_cardio week) ++ " kcal"
          ++ " (" ++ progress (total_cardio_calories week) (target_cardio week) ++ "%)"
          ++ nl ++ nl
        ++ currentMetrics week in
      Returned (textResult text)
  end.

(** Argument of [executeWeeklyHistory] *)
Record WeeklyHistoryArgs := mkWeeklyHistoryArgs {
  wh_limit : option Z;
  wh_offset : option Z
}.

Definition orDefault (v : option Z) (default : Z) : Z :=
  match v with
  | Some n => if (n =? 0)%Z then default else n
  | None => default
  end.

(** The lines under the comment "Adherence calculation" of
    [executeWeeklyHistory]. *)
Definition historyAdherence (week : WeekRecord) : string :=
  if JS.truthyZ (total_calories week) && JS.truthyZ (total_protein week)
     && JS.truthyZ (total_steps week)
  then
    let calAdherence := adherence (total_calories week) (target_calories week) in
    let proteinAdherence := adherence (total_protein week) (target_protein week) in
    let stepsAdherence := adherence (total_steps week) (target_steps week) in
    let avgAdherence :=
      JS.div (JS.add (JS.add calAdherence proteinAdherence) stepsAdherence)
             (JS.Num 3) in
    "Adherence: " ++ JS.toFixed 1 avgAdherence ++ "%" ++ nl
  else "".

(** The body of the [forEach] callback of [executeWeeklyHistory]. *)
Definition historyEntry (offset : Z) (index : nat) (week : WeekRecord) : Outcome string :=
  targetSteps <- targetStepsText week ;;
  Returned
    ("WEEK " ++ JS.string_of_Z (offset + Z.of_nat index + 1) ++ ": "
       ++ start_date week ++ " (" ++ JS.showS (phase week) ++ ")" ++ nl
     ++ "Targets: " ++ JS.showZ (target_calories week) ++ " kcal | "
       ++ JS.showZ (target_protein week) ++ "g protein | "
       ++ targetSteps ++ " steps" ++ nl
     ++ "Actuals: " ++ orNA (total_calories week) ++ " kcal | "
       ++ orNA (total_protein week) ++ "g protein | "
       ++ match total_steps week with
          | Some n => JS.toLocaleString n
          | None => "N/A"
          end ++ " steps" ++ nl
     ++ "Weight: "
       ++ match average_weight week with
          | Some q => JS.toFixedQ 1 q
          | None => "N/A"
          end ++ " lbs"
     ++ match week_over_week_weight_change week with
        | Some q => if JS.isZero q then "" else " (" ++ signed 1 (JS.Num q) ++ " lbs)"
        | None => ""
        end
     ++ nl
     ++ historyAdherence week
     ++ nl).

Fixpoint historyEntries (offset : Z) (index : nat) (weeks : list WeekRecord)
    : Outcome string :=
  match weeks with
  | [] => Returned ""
  | week :: rest =>
      entry <- historyEntry offset index week ;;
      more <- historyEntries offset (S index) rest ;;
      Returned (entry ++ more)
  end.

(** [executeWeeklyHistory] *)
Definition executeWeeklyHistory (db : D1Database) (args : WeeklyHistoryArgs)
    : Outcome ToolResult :=
  let limit := orDefault (wh_limit args) 10 in
  let offset := orDefault (wh_offset args) 0 in
  let weeks := getWeeks db limit offset in
  match weeks with
  | [] => Returned (textResult "No completed weeks found")
  | _ :: _ =>
      entries <- historyEntries offset 0 weeks ;;
      Returned
        (textResult
           ("Weekly History (showing "
              ++ JS.string_of_Z (Z.of_nat (List.length weeks)) ++ " weeks)"
              ++ nl ++ nl ++ entries))
  end.

(** Argument of the three tools that take a date range. *)
Record RangeArgs := mkRangeArgs {
  startDate : string;
  endDate : string
}.

(** [Math.min(...l)] and [Math.max(...l)] of a list with first element [x]. *)
Definition minQ (x : Q) (l : list Q) : Q :=
  fold_left (fun m y => if Qltb y m then y else m) l x.
Definition maxQ (x : Q) (l : list Q) : Q :=
  fold_left (fun m y => if Qltb m y then y else m) l x.

(** A line of the READINGS list of the weight trend. *)
Definition readingLine (r : WeightReading) : string :=
  r_date r ++ ": " ++ JS.toFixedQ 1 (r_weight r) ++ " lbs"
  ++ (if JS.truthyQ (r_body_fat_percentage r)
      then " | BF: " ++ fixedOrNA (r_body_fat_percentage r) "%" else "")
  ++ (if JS.truthyQ (r_muscle_mass_percentage r)
      then " | MM: " ++ fixedOrNA (r_muscle_mass_percentage r) "%" else "")
  ++ nl.

(** [executeWeightTrend] *)
Definition executeWeightTrend (db : D1Database) (args : RangeArgs) : Outcome ToolResult :=
  let readings := getWeightReadings db (startDate args) (endDate args) in
  match readings with
  | [] =>
      Returned
        (textResult
           ("No weight readings found between " ++ startDate args
              ++ " and " ++ endDate args))
  | first :: _ =>
      let weights := map r_weight readings in
      let avgWeight := JS.mean weights in
      let minWeight := minQ (r_weight first) weights in
      let maxWeight := maxQ (r_weight first) weights in
      let totalChange := JS.sub (JS.Num (last weights 0%Q)) (JS.Num (r_weight first)) in
      Returned
        (textResult
           ("Weight Trend Analysis (" ++ startDate args ++ " to " ++ endDate args ++ ")"
              ++ nl ++ nl
            ++ "SUMMARY:" ++ nl
            ++ "- Total readings: "
              ++ JS.string_of_Z (Z.of_nat (List.length readings)) ++ nl
            ++ "- Average weight: " ++ JS.toFixed 1 avgWeight ++ " lbs" ++ nl
            ++ "- Min weight: " ++ JS.toFixedQ 1 minWeight ++ " lbs" ++ nl
            ++ "- Max weight: " ++ JS.toFixedQ 1 maxWeight ++ " lbs" ++ nl
            ++ "- Total change: " ++ signed 1 totalChange ++ " lbs" ++ nl ++ nl
            ++ "READINGS:" ++ nl
            ++ String.concat "" (map readingLine readings)))
  end.

Definition isSome {A} (v : option A) : bool :=
  match v with Some _ => true | None => false end.

Definition somes {A} (l : list (option A)) : list A :=
  flat_map (fun v => match v with Some a => [a] | None => [] end) l.

(** One of the two statistics blocks of [executeBodyComposition]; [values]
    are the non-null percentages, in order. *)
Definition compositionBlock (title : string) (values : list Q) : string :=
  match values with
  | [] => ""
  | first :: _ =>
      title ++ ":" ++ nl
      ++ "- Readings: " ++ JS.string_of_Z (Z.of_nat (List.length values)) ++ nl
      ++ "- Average: " ++ JS.toFixed 1 (JS.mean values) ++ "%" ++ nl
      ++ "- Range: " ++ JS.toFixedQ 1 (minQ first values) ++ "% - "
        ++ JS.toFixedQ 1 (maxQ first values) ++ "%" ++ nl
      ++ "- Change: " ++ signed 1 (JS.sub (JS.Num (last values 0%Q)) (JS.Num first))
        ++ "%" ++ nl ++ nl
  end.

Definition compositionLine (r : WeightReading) : string :=
  r_date r ++ ": "
  ++ (if JS.truthyQ (r_body_fat_percentage r)
      then "BF " ++ fixedOrNA (r_body_fat_percentage r) "%" else "")
  ++ (if JS.truthyQ (r_muscle_mass_percentage r)
      then (if JS.truthyQ (r_body_fat_percentage r) then " | " else "")
           ++ "MM " ++ fixedOrNA (r_muscle_mass_percentage r) "%"
      else "")
  ++ nl.

(** [executeBodyComposition] *)
Definition executeBodyComposition (db : D1Database) (args : RangeArgs)
    : Outcome ToolResult :=
  let readings := getWeightReadings db (startDate args) (endDate args) in
  let compReadings :=
    filter (fun r => isSome (r_body_fat_percentage r)
                     || isSome (r_muscle_mass_percentage r)) readings in
  match compReadings with
  | [] =>
      Returned
        (textResult
           ("No body composition data found between " ++ startDate args
              ++ " and " ++ endDate args))
  | _ :: _ =>
      let bodyFats := somes (map r_body_fat_percentage compReadings) in
      let muscleMasses := somes (map r_muscle_mass_percentage compReadings) in
      Returned
        (textResult
           ("Body Composition Trend (" ++ startDate args ++ " to " ++ endDate args ++ ")"
              ++ nl ++ nl
            ++ compositionBlock "BODY FAT PERCENTAGE" bodyFats
            ++ compositionBlock "MUSCLE MASS PERCENTAGE" muscleMasses
            ++ "DETAILED READINGS:" ++ nl
            ++ String.concat "" (map compositionLine compReadings)))
  end.

Definition orZeroQ (v : option Q) : Q :=
  match v with Some q => q | None => 0%Q end.

(** The names that the object [{}] inherits from [Object.prototype]. Read
    on [phaseGroups], each of them gives a function, and [__proto__] gives
    the prototype itself: a value that is not falsy and has no method
    [push]. *)
Definition inheritedNames : list string :=
  [ "constructor"; "__proto__"; "hasOwnProperty"; "isPrototypeOf";
    "propertyIsEnumerable"; "toLocaleString"; "toString"; "valueOf";
    "__defineGetter__"; "__defineSetter__"; "__lookupGetter__"; "__lookupSetter__" ].

Definition inherited (key : string) : bool := existsb (String.eqb key) inheritedNames.

(** The own properties of [phaseGroups], in the order of their creation:
    the weeks filed under a key, a new key at the end. *)
Fixpoint groupPush (key : string) (week : WeekRecord)
    (groups : list (string * list WeekRecord)) : list (string * list WeekRecord) :=
  match groups with
  | [] => [(key, [week])]
  | (k, ws) :: rest =>
      if String.eqb k key then (k, (ws ++ [week])%list) :: rest
      else (k, ws) :: groupPush key week rest
  end.

(** The body of the first [forEach]:
    [if (!phaseGroups[week.phase]) phaseGroups[week.phase] = [];
     phaseGroups[week.phase].push(week)]. A [null] phase is the key ["null"].
    Under an inherited name the object already holds a value, no array is
    stored, and the call of [push] throws a [TypeError]. *)
Definition fileWeek (groups : list (string * list WeekRecord)) (week : WeekRecord)
    : Outcome (list (string * list WeekRecord)) :=
  let key := JS.showS (phase week) in
  if inherited key then Thrown "phaseGroups[week.phase].push is not a function"
  else Returned (groupPush key week groups).

Fixpoint fileWeeks (weeks : list WeekRecord) (groups : list (string * list WeekRecord))
    : Outcome (list (string * list WeekRecord)) :=
  match weeks with
  | [] => Returned groups
  | week :: rest =>
      groups <- fileWeek groups week ;;
      fileWeeks rest groups
  end.

(** [phaseGroups] after the first [forEach]. *)
Definition phaseGroups (weeks : list WeekRecord)
    : Outcome (list (string * list WeekRecord)) :=
  fileWeeks weeks [].

(** An array index: the decimal text, without leading zeros, of an integer
    from 0 to 2^32 - 2. *)
Definition arrayIndex (key : string) : option Z :=
  match DecimalString.NilEmpty.uint_of_string key with
  | Some digits =>
      let n := Z.of_uint digits in
      if String.eqb (JS.string_of_Z n) key && (n <=? 4294967294)%Z then Some n else None
  | None => None
  end.

Definition isArrayIndex {A} (entry : string * A) : bool :=
  match arrayIndex (fst entry) with Some _ => true | None => false end.

Definition indexOf {A} (entry : string * A) : Z :=
  match arrayIndex (fst entry) with Some n => n | None => 0%Z end.

(** [Object.entries]: the properties whose keys are array indices in
    ascending order of the index, then the others in the order of their
    creation. *)
Definition entries {A} (properties : list (string * A)) : list (string * A) :=
  (orderBy (fun y x => (indexOf y <? indexOf x)%Z) (filter isArrayIndex properties)
   ++ filter (fun entry => negb (isArrayIndex entry)) properties)%list.

(** The filter shared by the per-phase analysis and the recommendation. *)
Definition hasWeightData (w : WeekRecord) : bool :=
  isSome (average_weight w) && isSome (week_over_week_weight_change w).

(** [weeksWithData] *)
Definition hasActuals (w : WeekRecord) : bool :=
  JS.truthyZ (total_calories w) && JS.truthyZ (total_steps w)
  && JS.truthyZ (total_protein w).

(** [list.reduce((sum, w) => sum + (actual(w) / target(w)) * 100, 0) / list.length] *)
Definition averageAdherence (actual target : WeekRecord -> option Z)
    (weeksWithData : list WeekRecord) : JS.jsnum :=
  JS.div
    (fold_left (fun sum w => JS.add sum (adherence (actual w) (target w)))
       weeksWithData (JS.Num 0))
    (JS.Num (inject_Z (Z.of_nat (List.length weeksWithData)))).

Definition avgCalAdherence : list WeekRecord -> JS.jsnum :=
  averageAdherence total_calories target_calories.

Definition avgProteinAdherence : list WeekRecord -> JS.jsnum :=
  averageAdherence total_protein target_protein.

(** The two adherence lines of a phase block. *)
Definition adherenceLines (phaseWeeks : list WeekRecord) : string :=
  let weeksWithData := filter hasActuals phaseWeeks in
  match weeksWithData with
  | [] => ""
  | _ :: _ =>
      "Average calorie adherence: "
        ++ JS.toFixed 1 (avgCalAdherence weeksWithData) ++ "%" ++ nl
      ++ "Average protein adherence: "
        ++ JS.toFixed 1 (avgProteinAdherence weeksWithData) ++ "%" ++ nl
  end.

(** [last.p - first.p], printed, when both percentages are truthy. *)
Definition percentageChange (label : string) (first last : option Q) : string :=
  if JS.truthyQ first && JS.truthyQ last then
    label ++ signed 1 (JS.sub (JS.Num (orZeroQ last)) (JS.Num (orZeroQ first)))
    ++ "%" ++ nl
  else "".

Definition checkMark : string := String "226" (String "156" (String "147" EmptyString)).
Definition warningSign : string := String "226" (String "154" (String "160" EmptyString)).

Definition effectiveness (phase : string) (avgWeightChange : JS.jsnum) : string :=
  if String.eqb phase "cut" && JS.ltb avgWeightChange (JS.Num (- (1 # 2))) then
    checkMark ++ " Effective cut (losing weight)" ++ nl
  else if String.eqb phase "bulk" && JS.ltb (JS.Num (1 # 2)) avgWeightChange then
    checkMark ++ " Effective bulk (gaining weight)" ++ nl
  else if String.eqb phase "maintenance"
          && JS.ltb (JS.abs avgWeightChange) (JS.Num (1 # 2)) then
    checkMark ++ " Effective maintenance (stable weight)" ++ nl
  else warningSign ++ " Phase goals not met" ++ nl.

(** The two lines that head a phase block. *)
Definition phaseHeading (phase : string) (phaseWeeks : list WeekRecord) : string :=
  JS.toUpperCase phase ++ " PHASE ("
    ++ JS.string_of_Z (Z.of_nat (List.length phaseWeeks)) ++ " weeks)" ++ nl
  ++ JS.repeat "=" 40 ++ nl.

(** [validWeeks.reduce((sum, w) => sum + (w.week_over_week_weight_change || 0), 0)
     / validWeeks.length] *)
Definition avgWeightChange (validWeeks : list WeekRecord) : JS.jsnum :=
  JS.mean (map (fun w => orZeroQ (week_over_week_weight_change w)) validWeeks).

(** The lines on weight and body composition of a phase block;
    [validWeeks] starts with [firstWeek]. *)
Definition weightLines (firstWeek : WeekRecord) (validWeeks : list WeekRecord) : string :=
  let lastWeek := last validWeeks firstWeek in
  let totalWeightChange :=
    JS.sub (JS.Num (orZeroQ (average_weight lastWeek)))
           (JS.Num (orZeroQ (average_weight firstWeek))) in
  "Average weekly weight change: " ++ signed 2 (avgWeightChange validWeeks) ++ " lbs" ++ nl
  ++ "Total weight change: " ++ signed 1 totalWeightChange ++ " lbs" ++ nl
  ++ percentageChange "Body fat change: "
       (body_fat_percentage firstWeek) (body_fat_percentage lastWeek)
  ++ percentageChange "Muscle mass change: "
       (muscle_mass_percentage firstWeek) (muscle_mass_percentage lastWeek).

(** The body of the [forEach] over the phase groups. *)
Definition phaseBlock (phase : string) (phaseWeeks : list WeekRecord) : string :=
  phaseHeading phase phaseWeeks
  ++ match filter hasWeightData phaseWeeks with
     | [] => "Insufficient data for analysis" ++ nl
     | (firstWeek :: _) as validWeeks =>
         weightLines firstWeek validWeeks
         ++ adherenceLines phaseWeeks
         ++ nl ++ "Effectiveness: " ++ effectiveness phase (avgWeightChange validWeeks)
     end
  ++ nl.

Definition phaseName (p : Phase) : string :=
  match p with cut => "cut" | maintenance => "maintenance" | bulk => "bulk" end.

(** [weeks.slice(-4)] *)
Definition lastFour {A} (l : list A) : list A :=
  skipn (List.length l - 4) l.

(** [suggestPhase] does nothing with its second argument but compare it
    with its four thresholds, all of them between -1 and 1. A mean that has
    overflowed to an infinity is passed on as a number on the same side of
    every threshold, and [NaN], with which every comparison is false, as 0,
    with which every comparison of the function is false as well. *)
Definition forComparison (x : JS.jsnum) : Q :=
  match x with
  | JS.Num q => q
  | JS.PosInfinity => 1
  | JS.NegInfinity => -1
  | JS.NaN => 0
  end.

(** The recommendation at the end of the phase analysis. *)
Definition recommendation (weeks : list WeekRecord) : string :=
  let recentWeeks := lastFour weeks in
  if (2 <=? List.length recentWeeks)%nat then
    let validRecent := filter hasWeightData recentWeeks in
    if (2 <=? List.length validRecent)%nat then
      let avgWeeklyChange := avgWeightChange validRecent in
      let suggestion := Calculations.suggestPhase 200 (forComparison avgWeeklyChange) in
      "RECOMMENDATION:" ++ nl
      ++ "Based on recent trends, suggested phase: "
        ++ JS.toUpperCase (phaseName (Calculations.suggestedPhase suggestion)) ++ nl
      ++ "Reasoning: " ++ Calculations.reasoning suggestion ++ nl
      ++ "Confidence: "
        ++ JS.toFixed 0 (JS.mul (JS.Num (Calculations.confidence suggestion)) (JS.Num 100))
        ++ "%" ++ nl
    else ""
  else "".

(** [executePhaseAnalysis] *)
Definition executePhaseAnalysis (db : D1Database) (args : RangeArgs) : Outcome ToolResult :=
  let allWeeks := getWeeks db 100 0 in
  let weeks :=
    filter (fun w => JS.geS (start_date w) (startDate args)
                     && JS.leS (start_date w) (endDate args)) allWeeks in
  match weeks with
  | [] =>
      Returned
        (textResult
           ("No weeks found between " ++ startDate args ++ " and " ++ endDate args))
  | _ :: _ =>
      phaseGroups <- phaseGroups weeks ;;
      Returned
        (textResult
           ("Phase Analysis (" ++ startDate args ++ " to " ++ endDate args ++ ")"
              ++ nl ++ nl
            ++ "Total weeks analyzed: "
              ++ JS.string_of_Z (Z.of_nat (List.length weeks)) ++ nl ++ nl
            ++ String.concat ""
                 (map (fun g => phaseBlock (fst g) (snd g)) (entries phaseGroups))
            ++ recommendation weeks))
  end.

(** ** The tool endpoint (index.ts) *)

(** The call a [tools/call] request names, with the arguments of that
    tool, each of them present and a text or a number as the tool declares
    it; [UnknownTool] is any other name. *)
Inductive ToolCall :=
| get_week_summary (args : WeekSummaryArgs)
| get_weight_trend (args : RangeArgs)
| get_weekly_history (args : WeeklyHistoryArgs)
| analyze_phases (args : RangeArgs)
| get_body_composition (args : RangeArgs)
| get_current_week
| UnknownTool (toolName : string).

(** The parsed request body. *)
Inductive McpRequest :=
| tools_list
| tools_call (call : ToolCall)
| other_method.

(** What [c.json(value, status)] sends. *)
Inductive JsonValue :=
| ToolList (names : list string)
| ToolOutput (result : ToolResult)
| ErrorObject (error : string) (details : option string).

Record Response := mkResponse {
  status : Z;
  body : JsonValue
}.

(** [c.json(value)] answers with status 200. *)
Definition json (value : JsonValue) : Response := {| status := 200; body := value |}.
Definition jsonStatus (value : JsonValue) (status : Z) : Response :=
  {| status := status; body := value |}.

(** The [switch] of the handler. *)
Definition runTool (now : Z) (getTime : string -> option Z) (db : D1Database)
    (call : ToolCall) : Outcome ToolResult + string :=
  match call with
  | get_week_summary args => inl (executeWeekSummary db args)
  | get_weight_trend args => inl (executeWeightTrend db args)
  | get_weekly_history args => inl (executeWeeklyHistory db args)
  | analyze_phases args => inl (executePhaseAnalysis db args)
  | get_body_composition args => inl (executeBodyComposition db args)
  | get_current_week => inl (executeCurrentWeek now getTime db)
  | UnknownTool toolName => inr toolName
  end.

(** The handler of [POST /mcp], after the bearer-token check. *)
Definition mcpHandler (now : Z) (getTime : string -> option Z) (db : D1Database)
    (request : McpRequest) : Response :=
  match request with
  | tools_list =>
      json (ToolList ["get_week_summary"; "get_weight_trend"; "get_weekly_history";
                      "analyze_phases"; "get_body_composition"; "get_current_week"])
  | tools_call call =>
      match runTool now getTime db call with
      | inr toolName =>
          jsonStatus (ErrorObject ("Unknown tool: " ++ toolName) None) 400
      | inl (Returned result) => json (ToolOutput result)
      | inl (Thrown message) =>
          jsonStatus (ErrorObject "Tool execution failed" (Some message)) 500
      end
  | other_method => jsonStatus (ErrorObject "Unsupported MCP method" None) 400
  end.

(** The "no data" conditions of the six tools: no matching week, no
    completed week, no reading in the range. *)
Inductive NoData (db : D1Database) : ToolCall -> Prop :=
| no_current_week :
    getCurrentWeek db = None ->
    NoData db get_current_week
| no_week_on_start_date (args : WeekSummaryArgs) :
    getWeekByStartDate db (ws_startDate args) = None ->
    NoData db (get_week_summary args)
| no_completed_weeks (args : WeeklyHistoryArgs) :
    getWeeks db (orDefault (wh_limit args) 10) (orDefault (wh_offset args) 0) = [] ->
    NoData db (get_weekly_history args)
| no_readings_in_range (args : RangeArgs) :
    getWeightReadings db (startDate args) (endDate args) = [] ->
    NoData db (get_weight_trend args)
| no_weeks_in_range (args : RangeArgs) :
    (forall w, In w (getWeeks db 100 0) ->
               JS.geS (start_date w) (startDate args)
               && JS.leS (start_date w) (endDate args) = false) ->
    NoData db (analyze_phases args)
| no_composition_in_range (args : RangeArgs) :
    (forall r, In r (getWeightReadings db (startDate args) (endDate args)) ->
               r_body_fat_percentage r = None /\ r_muscle_mass_percentage r = None) ->
    NoData db (get_body_composition args).


End Tools.

(** ** The bearer-token check (auth.ts) *)

Module Auth.

Local Open Scope string_scope.

(** [interface Env]; a binding that is not configured is [None]. *)
Record Env := mkEnv {
  API_KEY : option string
}.

Inductive Method := GET | POST | PUT | DELETE | OPTIONS.

(** What the middleware and the router read of a request: the method, the
    path as its segments (["/api/weeks"] is [["api"; "weeks"]]) and the
    [Authorization] header. *)
Record Request := mkRequest {
  method : Method;
  path : list string;
  authorization : option string
}.

(** A middleware answers with an error object and a status, or calls
    [next()]. *)
Inductive MiddlewareResult :=
| Respond (status : Z) (error : string)
| CallNext.

(** [export async function authMiddleware] *)
Definition authMiddleware (env : Env) (req : Request) : MiddlewareResult :=
  let authHeader := authorization req in
  if negb (JS.truthyS authHeader) then
    Respond 401 "Missing Authorization header"
  else
    let parts := JS.splitSpace (JS.showS authHeader) in
    let scheme := nth_error parts 0 in
    let token := nth_error parts 1 in
    if negb (match scheme with Some s => String.eqb s "Bearer" | None => false end)
       || negb (JS.truthyS token)
    then Respond 401 "Invalid Authorization header format. Use: Bearer <token>"
    else
      let apiKey := API_KEY env in
      if negb (JS.truthyS apiKey) then
        Respond 500 "Server configuration error: API_KEY not set"
      else if negb (String.eqb (JS.showS token) (JS.showS apiKey)) then
        Respond 403 "Invalid API key"
      else CallNext.

(** [export function isAuthenticated] *)
Definition isAuthenticated (env : Env) (req : Request) : bool :=
  let authHeader := authorization req in
  if negb (JS.truthyS authHeader) then false
  else
    let parts := JS.splitSpace (JS.showS authHeader) in
    let scheme := nth_error parts 0 in
    let token := nth_error parts 1 in
    if negb (match scheme with Some s => String.eqb s "Bearer" | None => false end)
       || negb (JS.truthyS token)
    then false
    else
      match token, API_KEY env with
      | Some t, Some k => String.eqb t k
      | _, _ => false
      end.

End Auth.

(** ** The application (index.ts, api/routes.ts)

    The worker registers its handlers with the Hono router. The router keeps
    them in the order of registration; for a request it runs, in that order,
    the handlers whose method and path pattern match. A middleware passes on
    by calling [next()]; a handler that answers without calling it ends the
    chain, and the handlers registered after it do not run (Hono, "Routing
    priority": handlers and middleware are executed in registration order,
    and middleware that is to run for a handler is written above it). *)

Module App.

Import Auth.
Local Open Scope string_scope.

(** A segment of a path pattern: a literal, a [:name] parameter or [*]. *)
Inductive Segment := lit (s : string) | param | wildcard.

Fixpoint matchPath (pattern : list Segment) (path : list string) : bool :=
  match pattern, path with
  | [], [] => true
  | [wildcard], _ => true
  | lit s :: pattern', x :: path' => String.eqb s x && matchPath pattern' path'
  | param :: pattern', x :: path' => negb (String.eqb x "") && matchPath pattern' path'
  | wildcard :: pattern', _ :: path' => matchPath pattern' path'
  | _, _ => false
  end.

Inductive Handler :=
| cors
| auth
| endpoint (name : string).

(** A registration: [None] is [app.use] (every method). *)
Record Route := mkRoute {
  r_method : option Method;
  r_pattern : list Segment;
  r_handler : Handler
}.

Definition Method_eqb (a b : Method) : bool :=
  match a, b with
  | GET, GET | POST, POST | PUT, PUT | DELETE, DELETE | OPTIONS, OPTIONS => true
  | _, _ => false
  end.

(** The routes of [api/routes.ts], in the order of the file. *)
Definition apiRoutes : list Route :=
  [ mkRoute (Some GET) [lit "health"] (endpoint "GET /api/health");
    mkRoute (Some GET) [lit "current-week"] (endpoint "GET /api/current-week");
    mkRoute (Some GET) [lit "weeks"; param] (endpoint "GET /api/weeks/:startDate");
    mkRoute (Some GET) [lit "weeks"] (endpoint "GET /api/weeks");
    mkRoute (Some POST) [lit "weeks"] (endpoint "POST /api/weeks");
    mkRoute (Some PUT) [lit "weeks"; param; lit "targets"]
      (endpoint "PUT /api/weeks/:id/targets");
    mkRoute (Some POST) [lit "weight"] (endpoint "POST /api/weight");
    mkRoute (Some GET) [lit "weight"] (endpoint "GET /api/weight");
    mkRoute (Some GET) [lit "weight"; lit "average"] (endpoint "GET /api/weight/average");
    mkRoute (Some POST) [lit "daily-metrics"] (endpoint "POST /api/daily-metrics");
    mkRoute (Some GET) [lit "daily-metrics"] (endpoint "GET /api/daily-metrics");
    mkRoute (Some GET) [lit "body-composition"] (endpoint "GET /api/body-composition") ].

(** [app.route(prefix, sub)]: the routes of [sub] are registered, at the
    time of the call, under the prefix. *)
Definition mount (prefix : string) (sub : list Route) : list Route :=
  map (fun r => mkRoute (r_method r) (lit prefix :: r_pattern r) (r_handler r)) sub.

(** The registrations of [index.ts], in the order of the file. *)
Definition app : list Route :=
  [ mkRoute None [wildcard] cors;
    mkRoute (Some GET) [] (endpoint "GET /") ]
  ++ mount "api" apiRoutes
  ++ [ mkRoute None [lit "api"; wildcard] auth;
       mkRoute (Some POST) [lit "mcp"] auth;
       mkRoute (Some POST) [lit "mcp"] (endpoint "POST /mcp") ].

Definition matches (req : Request) (r : Route) : bool :=
  match r_method r with
  | None => true
  | Some m => Method_eqb m (method req)
  end
  && matchPath (r_pattern r) (path req).

(** How a request ends: refused by a middleware, answered by the CORS
    middleware (a preflight), handed to an endpoint, or not found. *)
Inductive Dispatch :=
| Refused (status : Z) (error : string)
| Preflight
| Reached (name : string)
| NotFound.

(** The composed chain of the matching handlers. *)
Fixpoint compose (env : Env) (req : Request) (handlers : list Handler) : Dispatch :=
  match handlers with
  | [] => NotFound
  | cors :: rest =>
      match method req with
      | OPTIONS => Preflight
      | _ => compose env req rest
      end
  | auth :: rest =>
      match authMiddleware env req with
      | Respond status error => Refused status error
      | CallNext => compose env req rest
      end
  | endpoint name :: _ => Reached name
  end.

Definition dispatch (routes : list Route) (env : Env) (req : Request) : Dispatch :=
  compose env req (map r_handler (filter (matches req) routes)).

End App.


(** ** The remaining statements of queries.ts *)

Module Statements.

Import Queries.
Local Open Scope string_scope.

(** The [targets] argument of [updateWeekTargets]. *)
Record Targets := mkTargets {
  new_target_calories : Z;
  new_target_protein : Z;
  new_target_steps : Z;
  new_target_cardio : Z;
  new_phase : string
}.

(** The row an [UPDATE weeks SET target_calories = ?, ... WHERE id = ?]
    leaves in the place of [w]. *)
Definition withTargets (now : string) (targets : Targets) (w : WeekRecord) : WeekRecord :=
  {| id := id w;
     start_date := start_date w;
     end_date := end_date w;
     target_calories := Some (new_target_calories targets);
     target_protein := Some (new_target_protein targets);
     target_steps := Some (new_target_steps targets);
     target_cardio := Some (new_target_cardio targets);
     phase := Some (new_phase targets);
     total_steps := total_steps w;
     total_calories := total_calories w;
     total_protein := total_protein w;
     total_cardio_calories := total_cardio_calories w;
     average_weight := average_weight w;
     week_over_week_weight_change := week_over_week_weight_change w;
     body_fat_percentage := body_fat_percentage w;
     body_fat_change := body_fat_change w;
     muscle_mass_percentage := muscle_mass_percentage w;
     muscle_mass_change := muscle_mass_change w;
     is_complete := is_complete w;
     completed_at := completed_at w;
     created_at := created_at w;
     updated_at := now |}.

(** [updateWeekTargets]; [now] is [new Date().toISOString()]. *)
Definition updateWeekTargets (now : string) (db : D1Database) (weekId : string)
    (targets : Targets) : D1Database :=
  {| weeks :=
       map (fun w => if String.eqb (id w) weekId then withTargets now targets w else w)
         (weeks db);
     weight_readings := weight_readings db |}.

(** [Partial<WeightReading>], the argument of [createWeightReading]. *)
Record WeightReadingInput := mkWeightReadingInput {
  in_r_id : option string;
  in_r_date : option string;
  in_r_weight : option Q;
  in_r_body_fat_percentage : option Q;
  in_r_muscle_mass_percentage : option Q;
  in_r_source : option string
}.

(** [createWeightReading]. The identifier, the date and the weight are
    bound as they are: the statement is refused when one of them is missing
    and when the identifier is already present. *)
Definition createWeightReading (now : string) (db : D1Database)
    (reading : WeightReadingInput) : D1Result D1Database :=
  match in_r_id reading, in_r_date reading, in_r_weight reading with
  | Some rid, Some date, Some weight =>
      if existsb (fun r => String.eqb (r_id r) rid) (weight_readings db) then
        D1Error "UNIQUE constraint failed: weight_readings.id"
      else
        let row :=
          {| r_id := rid;
             r_date := date;
             r_weight := weight;
             r_body_fat_percentage := orQ (in_r_body_fat_percentage reading) None;
             r_muscle_mass_percentage := orQ (in_r_muscle_mass_percentage reading) None;
             r_source := orS (in_r_source reading) (Some "API");
             r_created_at := now |} in
        D1Ok {| weeks := weeks db;
                weight_readings := (weight_readings db ++ [row])%list |}
  | _, _, _ => D1Error "D1_TYPE_ERROR: Type 'undefined' not supported"
  end.

(** A row of table [daily_metrics]; the date is unique in the table. *)
Record DailyMetrics := mkDailyMetrics {
  d_id : string;
  d_date : string;
  d_steps : option Z;
  d_calories : option Z;
  d_protein : option Z;
  d_cardio_calories : option Z;
  d_weight : option Q;
  d_seven_day_average_weight : option Q;
  d_created_at : string
}.

(** [Partial<DailyMetrics>], the argument of [createDailyMetrics]. *)
Record DailyMetricsInput := mkDailyMetricsInput {
  in_d_id : option string;
  in_d_date : option string;
  in_d_steps : option Z;
  in_d_calories : option Z;
  in_d_protein : option Z;
  in_d_cardio_calories : option Z;
  in_d_weight : option Q;
  in_d_seven_day_average_weight : option Q
}.

(** [createDailyMetrics], on the rows of table [daily_metrics] in rowid
    order. [INSERT OR REPLACE] deletes the rows that hold the new primary key
    or the new date and then inserts the new row. *)
Definition createDailyMetrics (now : string) (table : list DailyMetrics)
    (metrics : DailyMetricsInput) : D1Result (list DailyMetrics) :=
  match in_d_id metrics, in_d_date metrics with
  | Some mid, Some date =>
      let row :=
        {| d_id := mid;
           d_date := date;
           d_steps := orZ (in_d_steps metrics) (Some 0%Z);
           d_calories := orZ (in_d_calories metrics) (Some 0%Z);
           d_protein := orZ (in_d_protein metrics) (Some 0%Z);
           d_cardio_calories := orZ (in_d_cardio_calories metrics) (Some 0%Z);
           d_weight := orQ (in_d_weight metrics) None;
           d_seven_day_average_weight :=
             orQ (in_d_seven_day_average_weight metrics) None;
           d_created_at := now |} in
      D1Ok
        (filter (fun r => negb (String.eqb (d_id r) mid || String.eqb (d_date r) date))
           table ++ [row])%list
  | _, _ => D1Error "D1_TYPE_ERROR: Type 'undefined' not supported"
  end.

(** The value [calculateRollingAverage] resolves to. *)
Record RollingAverage := mkRollingAverage {
  average : option JS.jsnum;
  confidence : JS.jsnum;
  readingCount : Z
}.

(** The part of [calculateRollingAverage] that follows the query:
    [readings] is what [getWeightReadings] returned. *)
Definition averageOf (readings : list WeightReading) (windowDays : Z) : RollingAverage :=
  let length := Z.of_nat (List.length readings) in
  if (length <? 3)%Z then
    {| average := None; confidence := JS.Num 0; readingCount := length |}
  else
    let sum := fold_left (fun acc r => JS.add acc (JS.Num (r_weight r))) readings (JS.Num 0) in
    let average := JS.div sum (JS.Num (inject_Z length)) in
    let confidence := JS.div (JS.Num (inject_Z length)) (JS.Num (inject_Z windowDays)) in
    {| average := Some average; confidence := confidence; readingCount := length |}.

(** [calculateRollingAverage]. The window length is an integer or, as
    [None], a number that is not finite ([NaN], an infinity): the default 7
    and what [parseInt] gives the one caller.
    [windowStart.setDate(windowStart.getDate() - windowDays + 1)] moves the
    date by whole days; an invalid date stays invalid, a day that is not
    finite and a move out of the range of time values make the date invalid,
    and [toISOString] of an invalid date throws a [RangeError], whose
    message [Thrown] carries. The integers for which the function returns
    are small enough for the arithmetic on days and on time values to be
    exact. The number [-0], which [parseInt] gives for the text "-0", is
    taken as the integer 0; the two differ in the sign of the infinite
    confidence that a window length of zero gives. *)
Definition calculateRollingAverage (parseOther : string -> option Z) (db : D1Database)
    (targetDate : string) (windowDays : option Z) : Tools.Outcome RollingAverage :=
  let date := JSDate.ofString parseOther targetDate in
  match date, windowDays with
  | Some date, Some days =>
      match JSDate.timeClip (DateUtils.shiftDate date (- days + 1)) with
      | Some windowStart =>
          let readings := getWeightReadings db (JSDate.toISOString windowStart) targetDate in
          Tools.Returned (averageOf readings days)
      | None => Tools.Thrown "Invalid time value"
      end
  | _, _ => Tools.Thrown "Invalid time value"
  end.

(** [getDailyMetrics] *)
Definition getDailyMetrics (table : list DailyMetrics) (startDate endDate : string)
    : list DailyMetrics :=
  orderByAsc d_date
    (filter (fun r => String.leb startDate (d_date r) && String.leb (d_date r) endDate)
       table).

End Statements.

(** ** Metabolic rate (calculations.ts) *)

Module Metabolic.

Local Open Scope Q_scope.

Inductive Sex := male | female.

(** [Math.round]: the nearest integer, the larger one of two equally near. *)
Definition round (x : Q) : Z := Qfloor (x + (1 # 2)).

(** [export function calculateBMR] *)
Definition calculateBMR (weightKg heightCm age : Q) (sex : Sex) : Z :=
  let bmr := 10 * weightKg + (25 # 4) * heightCm - 5 * age in
  let bmr :=
    match sex with
    | male => bmr + 5
    | female => bmr - 161
    end in
  round bmr.

End Metabolic.

(** ** Calorie balance on the client (CalorieBalanceCalculator.swift) *)

Module CalorieBalanceCalculator.

Inductive Sex := male | female.

(** [struct UserProfile] *)
Record UserProfile := mkUserProfile {
  weightKg : Q;
  heightCm : Q;
  age : Z;
  sex : Sex
}.



(** [Double.rounded()]: the nearest integer, the one away from zero of two
    equally near. *)
Definition rounded (x : Q) : Z :=
  if Qltb x 0 then - Qfloor (- x + (1 # 2))%Q else Qfloor (x + (1 # 2))%Q.

(** [static func calculateBMR(profile:)] *)
Definition calculateBMR (profile : UserProfile) : Z :=
  let bmr :=
    match sex profile with
    | male =>
        (10 * weightKg profile + (25 # 4) * heightCm profile
         - 5 * inject_Z (age profile) + 5)%Q
    | female =>
        (10 * weightKg profile + (25 # 4) * heightCm profile
         - 5 * inject_Z (age profile) - 161)%Q
    end in
  rounded bmr.


End CalorieBalanceCalculator.

(** ** The order of rows by a text column *)

Module TextOrder.

(** Two rows in the order of [ORDER BY key ASC], and of [ORDER BY key DESC]:
    the keys compare as text, character code by character code. *)
Definition ascending {A} (key : A -> string) (a b : A) : Prop :=
  String.leb (key a) (key b) = true.

Definition descending {A} (key : A -> string) (a b : A) : Prop :=
  String.leb (key b) (key a) = true.

End TextOrder.

(** ** An invariant of the table of weeks *)

Module Invariants.


(** Every stored week has a step target. *)
Definition stepTargetsSet (db : Queries.D1Database) : Prop :=
  forall w, In w (Queries.weeks db) -> Queries.target_steps w <> None.

End Invariants.

(** ** Sample data *)

Module Samples.

Definition day : Z := WeightAverageCalculator.secondsPerDay.

Definition reading (date : Z) (weight : Q) : WeightAverageCalculator.WeightReading Q :=
  WeightAverageCalculator.mkWeightReading "" date weight None None "Apple Health".

(** The same readings with the weights as the [Double]s nearest to them. *)
Definition inDoubles (rs : list (WeightAverageCalculator.WeightReading Q))
    : list (WeightAverageCalculator.WeightReading Binary64.double) :=
  map (fun r =>
         WeightAverageCalculator.mkWeightReading
           (WeightAverageCalculator.id r) (WeightAverageCalculator.date r)
           (Binary64.round (WeightAverageCalculator.weight r)) None None
           (WeightAverageCalculator.source r))
      rs.

(** Three readings on three consecutive days, the last on the target date. *)
Definition target : Z := 20 * day.

Definition threeDays : list (WeightAverageCalculator.WeightReading Q) :=
  [ reading (18 * day) 182; reading (19 * day) (363 # 2); reading (20 * day) 181 ].


(** A reading every morning and every evening of four days. *)
Definition twiceADay : list (WeightAverageCalculator.WeightReading Q) :=
  [ reading (17 * day - 43200) 182; reading (17 * day) 183;
    reading (18 * day - 43200) 182; reading (18 * day) 183;
    reading (19 * day - 43200) 181; reading (19 * day) 182;
    reading (20 * day - 43200) 181; reading (20 * day) 182 ].

(** Readings at eight in the morning of days 14, 19 and 20, and a target at
    eight in the evening of day 20. *)
Definition mornings : list (WeightAverageCalculator.WeightReading Q) :=
  [ reading (14 * day + 28800) 182; reading (19 * day + 28800) (363 # 2);
    reading (20 * day + 28800) 181 ].

Definition evening : Z := 20 * day + 72000.

(** The calendar of a time zone that sets its clocks forward by an hour at
    the instant [change]: the day of the change lasts 23 hours. A wall-clock
    time inside the skipped hour is taken as the instant of the change. *)
Definition springForward (change : Z) : WeightAverageCalculator.Calendar :=
  {| WeightAverageCalculator.date_byAdding_day := fun value to =>
       let wallClock := if to <? change then to else to + 3600 in
       let moved := wallClock + value * day in
       Some (if moved <? change + 3600 then Z.min moved change else moved - 3600) |}.






(** A completed week: 10234 of 14000 kcal eaten, no steps recorded. *)
Definition week : Queries.WeekRecord :=
  {| Queries.id := "w1";
     Queries.start_date := "2024-01-07";
     Queries.end_date := "2024-01-13";
     Queries.target_calories := Some 14000;
     Queries.target_protein := Some 1000;
     Queries.target_steps := Some 70000;
     Queries.target_cardio := Some 2000;
     Queries.phase := Some "cut"%string;
     Queries.total_steps := Some 0;
     Queries.total_calories := Some 10234;
     Queries.total_protein := Some 900;
     Queries.total_cardio_calories := None;
     Queries.average_weight := Some (363 # 2);
     Queries.week_over_week_weight_change := Some (- (6 # 5))%Q;
     Queries.body_fat_percentage := None;
     Queries.body_fat_change := None;
     Queries.muscle_mass_percentage := None;
     Queries.muscle_mass_change := None;
     Queries.is_complete := Some 1;
     Queries.completed_at := Some "2024-01-14T00:00:00Z"%string;
     Queries.created_at := "2024-01-07T00:00:00Z";
     Queries.updated_at := "2024-01-14T00:00:00Z" |}.

(** The same week with the calorie target set to zero and steps walked. *)
Definition weekZeroTarget : Queries.WeekRecord :=
  {| Queries.id := "w2";
     Queries.start_date := "2024-01-14";
     Queries.end_date := "2024-01-20";
     Queries.target_calories := Some 0;
     Queries.target_protein := Some 1000;
     Queries.target_steps := Some 70000;
     Queries.target_cardio := Some 2000;
     Queries.phase := Some "cut"%string;
     Queries.total_steps := Some 65000;
     Queries.total_calories := Some 10234;
     Queries.total_protein := Some 900;
     Queries.total_cardio_calories := None;
     Queries.average_weight := Some (363 # 2);
     Queries.week_over_week_weight_change := Some (- (6 # 5))%Q;
     Queries.body_fat_percentage := None;
     Queries.body_fat_change := None;
     Queries.muscle_mass_percentage := None;
     Queries.muscle_mass_change := None;
     Queries.is_complete := Some 1;
     Queries.completed_at := Some "2024-01-21T00:00:00Z"%string;
     Queries.created_at := "2024-01-14T00:00:00Z";
     Queries.updated_at := "2024-01-21T00:00:00Z" |}.


(** A week without its average weight. *)
Definition withoutWeight (w : Queries.WeekRecord) : Queries.WeekRecord :=
  {| Queries.id := Queries.id w;
     Queries.start_date := Queries.start_date w;
     Queries.end_date := Queries.end_date w;
     Queries.target_calories := Queries.target_calories w;
     Queries.target_protein := Queries.target_protein w;
     Queries.target_steps := Queries.target_steps w;
     Queries.target_cardio := Queries.target_cardio w;
     Queries.phase := Queries.phase w;
     Queries.total_steps := Queries.total_steps w;
     Queries.total_calories := Queries.total_calories w;
     Queries.total_protein := Queries.total_protein w;
     Queries.total_cardio_calories := Queries.total_cardio_calories w;
     Queries.average_weight := None;
     Queries.week_over_week_weight_change := Queries.week_over_week_weight_change w;
     Queries.body_fat_percentage := Queries.body_fat_percentage w;
     Queries.body_fat_change := Queries.body_fat_change w;
     Queries.muscle_mass_percentage := Queries.muscle_mass_percentage w;
     Queries.muscle_mass_change := Queries.muscle_mass_change w;
     Queries.is_complete := Queries.is_complete w;
     Queries.completed_at := Queries.completed_at w;
     Queries.created_at := Queries.created_at w;
     Queries.updated_at := Queries.updated_at w |}.

(** A stored week whose step target has been set to null. *)
Definition weekNullStepTarget : Queries.WeekRecord :=
  {| Queries.id := "w4";
     Queries.start_date := "2024-02-04";
     Queries.end_date := "2024-02-10";
     Queries.target_calories := Some 14000;
     Queries.target_protein := Some 1000;
     Queries.target_steps := None;
     Queries.target_cardio := Some 2000;
     Queries.phase := Some "cut"%string;
     Queries.total_steps := None;
     Queries.total_calories := None;
     Queries.total_protein := None;
     Queries.total_cardio_calories := None;
     Queries.average_weight := None;
     Queries.week_over_week_weight_change := None;
     Queries.body_fat_percentage := None;
     Queries.body_fat_change := None;
     Queries.muscle_mass_percentage := None;
     Queries.muscle_mass_change := None;
     Queries.is_complete := Some 0;
     Queries.completed_at := None;
     Queries.created_at := "2024-02-04T00:00:00Z";
     Queries.updated_at := "2024-02-05T00:00:00Z" |}.

Definition emptyDb : Queries.D1Database :=
  {| Queries.weeks := []; Queries.weight_readings := [] |}.

(** A week saved before any activity has been recorded: targets and phase
    set, every total 0. *)
Definition newWeek : Queries.WeekInput :=
  {| Queries.in_id := Some "w3"%string;
     Queries.in_start_date := Some "2024-01-21"%string;
     Queries.in_end_date := Some "2024-01-27"%string;
     Queries.in_target_calories := Some 14000;
     Queries.in_target_protein := Some 1000;
     Queries.in_target_steps := Some 70000;
     Queries.in_target_cardio := Some 2000;
     Queries.in_phase := Some "bulk"%string;
     Queries.in_total_steps := Some 0;
     Queries.in_total_calories := Some 0;
     Queries.in_total_protein := Some 0;
     Queries.in_total_cardio_calories := Some 0;
     Queries.in_average_weight := None;
     Queries.in_week_over_week_weight_change := None;
     Queries.in_body_fat_percentage := None;
     Queries.in_body_fat_change := None;
     Queries.in_muscle_mass_percentage := None;
     Queries.in_muscle_mass_change := None;
     Queries.in_is_complete := Some 0;
     Queries.in_completed_at := None |}.

Definition now : string := "2024-01-21T09:00:00.000Z".

Definition env : Auth.Env := {| Auth.API_KEY := Some "secret"%string |}.

(** [GET /api/weeks] without an [Authorization] header. *)
Definition anonymousGetWeeks : Auth.Request :=
  {| Auth.method := Auth.GET;
     Auth.path := ["api"; "weeks"]%string;
     Auth.authorization := None |}.

(** [POST /mcp] without an [Authorization] header. *)
Definition anonymousPostMcp : Auth.Request :=
  {| Auth.method := Auth.POST;
     Auth.path := ["mcp"]%string;
     Auth.authorization := None |}.

End Samples.

(** ** Sample data for the statements and the paging *)

Module MoreSamples.

(** Two completed weeks. *)
Definition twoWeeks : Queries.D1Database :=
  {| Queries.weeks := [Samples.week; Samples.weekZeroTarget];
     Queries.weight_readings := [] |}.

Definition newTargets : Statements.Targets :=
  {| Statements.new_target_calories := 15000;
     Statements.new_target_protein := 1100;
     Statements.new_target_steps := 80000;
     Statements.new_target_cardio := 2500;
     Statements.new_phase := "bulk" |}.

(** A reading as the client posts it. *)
Definition morningReading : Statements.WeightReadingInput :=
  {| Statements.in_r_id := Some "r1"%string;
     Statements.in_r_date := Some "2024-01-09T07:30:00Z"%string;
     Statements.in_r_weight := Some (363 # 2);
     Statements.in_r_body_fat_percentage := Some (18 # 1);
     Statements.in_r_muscle_mass_percentage := None;
     Statements.in_r_source := None |}.

(** A store that already holds a reading under the identifier r1. *)
Definition storedReading : Queries.WeightReading :=
  {| Queries.r_id := "r1";
     Queries.r_date := "2024-01-08T07:10:00Z";
     Queries.r_weight := 182;
     Queries.r_body_fat_percentage := None;
     Queries.r_muscle_mass_percentage := None;
     Queries.r_source := Some "API"%string;
     Queries.r_created_at := "2024-01-08T07:11:00.000Z" |}.

Definition oneReading : Queries.D1Database :=
  {| Queries.weeks := []; Queries.weight_readings := [storedReading] |}.

(** The metrics of a day. *)
Definition tuesday : Statements.DailyMetricsInput :=
  {| Statements.in_d_id := Some "d1"%string;
     Statements.in_d_date := Some "2024-01-09"%string;
     Statements.in_d_steps := Some 10412;
     Statements.in_d_calories := Some 2150;
     Statements.in_d_protein := Some 160;
     Statements.in_d_cardio_calories := None;
     Statements.in_d_weight := Some (363 # 2);
     Statements.in_d_seven_day_average_weight := None |}.

(** A week posted under the identifier of a stored week. *)
Definition sameIdentifier : Queries.WeekInput :=
  {| Queries.in_id := Some "w1"%string;
     Queries.in_start_date := Some "2024-03-03"%string;
     Queries.in_end_date := Some "2024-03-09"%string;
     Queries.in_target_calories := Some 14000;
     Queries.in_target_protein := Some 1000;
     Queries.in_target_steps := Some 70000;
     Queries.in_target_cardio := Some 2000;
     Queries.in_phase := Some "cut"%string;
     Queries.in_total_steps := None;
     Queries.in_total_calories := None;
     Queries.in_total_protein := None;
     Queries.in_total_cardio_calories := None;
     Queries.in_average_weight := None;
     Queries.in_week_over_week_weight_change := None;
     Queries.in_body_fat_percentage := None;
     Queries.in_body_fat_change := None;
     Queries.in_muscle_mass_percentage := None;
     Queries.in_muscle_mass_change := None;
     Queries.in_is_complete := None;
     Queries.in_completed_at := None |}.

(** A completed week posted with the phase "constructor". *)
Definition oddPhase : Queries.WeekInput :=
  {| Queries.in_id := Some "w9"%string;
     Queries.in_start_date := Some "2024-03-10"%string;
     Queries.in_end_date := Some "2024-03-16"%string;
     Queries.in_target_calories := Some 14000;
     Queries.in_target_protein := Some 1000;
     Queries.in_target_steps := Some 70000;
     Queries.in_target_cardio := Some 2000;
     Queries.in_phase := Some "constructor"%string;
     Queries.in_total_steps := None;
     Queries.in_total_calories := None;
     Queries.in_total_protein := None;
     Queries.in_total_cardio_calories := None;
     Queries.in_average_weight := None;
     Queries.in_week_over_week_weight_change := None;
     Queries.in_body_fat_percentage := None;
     Queries.in_body_fat_change := None;
     Queries.in_muscle_mass_percentage := None;
     Queries.in_muscle_mass_change := None;
     Queries.in_is_complete := Some 1;
     Queries.in_completed_at := Some "2024-03-17T00:00:00Z"%string |}.

(** A man of 80 kg, 180 cm and 30 years. *)
Definition profile : CalorieBalanceCalculator.UserProfile :=
  {| CalorieBalanceCalculator.weightKg := 80;
     CalorieBalanceCalculator.heightCm := 180;
     CalorieBalanceCalculator.age := 30;
     CalorieBalanceCalculator.sex := CalorieBalanceCalculator.male |}.

End MoreSamples.

(** * Properties *)

(** ** Rolling weight average *)

Section RollingAverage.

Import WeightAverageCalculator.

Context {Double : Type} `{Number.Arithmetic Double}.

Variable calendar : Calendar.
Variable readings : list (WeightReading Double).
Variables targetDate windowDays windowStart : Z.

Hypothesis start_of_window :
  date_byAdding_day calendar (- windowDays + 1) targetDate = Some windowStart.

(** The function written over the readings of the window. *)
Lemma calculate7DayAverage_unfold :
  calculate7DayAverage calendar readings targetDate windowDays =
  let window := filter (inRange windowStart targetDate) readings in
  let count := Z.of_nat (length window) in
  if negb (3 <=? count) then
    {| average := None; confidence := Number.ofQ 0;
       readingCount := count; isValid := false |}
  else
    {| average := Some (Number.div (sumWeights window) (Number.ofInt count));
       confidence := Number.div (Number.ofInt count) (Number.ofInt windowDays);
       readingCount := count; isValid := true |}.
Proof.
  unfold calculate7DayAverage, startOfWindow. rewrite start_of_window. reflexivity.
Qed.

End RollingAverage.

(** The sum the function takes is the sum of the weights in the order of
    the list. *)
Lemma sumWeights_sum {Double : Type} `{Number.Arithmetic Double}
    (rs : list (WeightAverageCalculator.WeightReading Double)) :
  WeightAverageCalculator.sumWeights rs
  = Number.sum (map WeightAverageCalculator.weight rs).
Proof.
  unfold WeightAverageCalculator.sumWeights, Number.sum.
  generalize (Number.ofQ 0).
  induction rs as [| r rs IH]; intros acc; simpl; [reflexivity | apply IH].
Qed.

Lemma average_is_mean {Double : Type} `{Number.Arithmetic Double}
    (rs : list (WeightAverageCalculator.WeightReading Double)) :
  Number.div (WeightAverageCalculator.sumWeights rs)
    (Number.ofInt (Z.of_nat (length rs)))
  = Number.mean (map WeightAverageCalculator.weight rs).
Proof.
  unfold Number.mean. rewrite sumWeights_sum, length_map. reflexivity.
Qed.

Lemma fixedOffset_movesForward :
  WeightAverageCalculator.movesForward WeightAverageCalculator.fixedOffset.
Proof.
  intros value to Hv. eexists. split; [reflexivity |].
  unfold WeightAverageCalculator.secondsPerDay. lia.
Qed.

(** *** The server's rolling average (queries.ts) *)

Lemma orderInsert_length {A} (precedes : A -> A -> bool) (x : A) (l : list A) :
  length (Queries.orderInsert precedes x l) = S (length l).
Proof.
  induction l as [| y l IH]; simpl; [reflexivity |].
  destruct (precedes y x); simpl; [rewrite IH |]; reflexivity.
Qed.

Lemma orderBy_length {A} (precedes : A -> A -> bool) (l : list A) :
  length (Queries.orderBy precedes l) = length l.
Proof.
  induction l as [| x l IH]; simpl; [reflexivity |].
  rewrite orderInsert_length, IH. reflexivity.
Qed.


Lemma fold_weights_map (rs : list Queries.WeightReading) (acc : JS.jsnum) :
  fold_left (fun a r => JS.add a (JS.Num (Queries.r_weight r))) rs acc
  = fold_left (fun a b => JS.add a (JS.Num b)) (map Queries.r_weight rs) acc.
Proof.
  revert acc. induction rs as [| r rs IH]; intros acc; simpl; [reflexivity | apply IH].
Qed.

(** The result for fewer than three readings, and for three and more. *)
Lemma averageOf_below_three (rs : list Queries.WeightReading) (days : Z) :
  Z.of_nat (length rs) < 3 ->
  Statements.averageOf rs days
  = {| Statements.average := None;
       Statements.confidence := JS.Num 0;
       Statements.readingCount := Z.of_nat (length rs) |}.
Proof.
  intros H. unfold Statements.averageOf. cbv zeta.
  apply Z.ltb_lt in H. rewrite H. reflexivity.
Qed.

Lemma averageOf_from_three (rs : list Queries.WeightReading) (days : Z) :
  3 <= Z.of_nat (length rs) ->
  Statements.averageOf rs days
  = {| Statements.average := Some (JS.mean (map Queries.r_weight rs));
       Statements.confidence :=
         JS.div (JS.Num (inject_Z (Z.of_nat (length rs)))) (JS.Num (inject_Z days));
       Statements.readingCount := Z.of_nat (length rs) |}.
Proof.
  intros H. unfold Statements.averageOf. cbv zeta.
  apply Z.ltb_ge in H. rewrite H.
  unfold JS.mean. rewrite fold_weights_map, length_map. reflexivity.
Qed.

(** For a target date that is a date and a whole number of days, the
    function queries the readings from the text of the instant [days - 1]
    days before the target date to the text of the target date. *)
Lemma calculateRollingAverage_returns (parseOther : string -> option Z)
    (db : Queries.D1Database) (targetDate : string) (days date windowStart : Z) :
  JSDate.ofString parseOther targetDate = Some date ->
  JSDate.timeClip (date - (days - 1) * JSDate.msPerDay) = Some windowStart ->
  Statements.calculateRollingAverage parseOther db targetDate (Some days)
  = Tools.Returned
      (Statements.averageOf
         (Queries.getWeightReadings db (JSDate.toISOString windowStart) targetDate) days).
Proof.
  intros Hdate Hstart. unfold Statements.calculateRollingAverage. cbv zeta.
  rewrite Hdate.
  replace (DateUtils.shiftDate date (- days + 1))
    with (date - (days - 1) * JSDate.msPerDay)
    by (unfold DateUtils.shiftDate, DateUtils.msPerDay, JSDate.msPerDay; ring).
  rewrite Hstart. reflexivity.
Qed.







(** On the client the window starts at the time of day of the target date:
    of three readings taken at eight in the morning of 14, 19 and 20
    January, the first is not counted at eight in the evening of the 20th. *)
Example client_window_starts_at_time_of_day :
  WeightAverageCalculator.date_byAdding_day WeightAverageCalculator.fixedOffset
    (- 7 + 1) Samples.evening = Some (14 * Samples.day + 72000)
  /\ WeightAverageCalculator.calculate7DayAverage WeightAverageCalculator.fixedOffset
       (Samples.inDoubles Samples.mornings) Samples.evening 7
     = {| WeightAverageCalculator.average := None;
          WeightAverageCalculator.confidence := Binary64.Num 0;
          WeightAverageCalculator.readingCount := 2;
          WeightAverageCalculator.isValid := false |}.
Proof. vm_compute. split; reflexivity. Qed.

(** Where the calendar gives no date, the window is the one instant of the
    target date. *)
Example window_without_start :
  let noDate := WeightAverageCalculator.mkCalendar (fun _ _ => None) in
  WeightAverageCalculator.startOfWindow noDate Samples.target 7 = Samples.target
  /\ WeightAverageCalculator.readingCount
       (WeightAverageCalculator.calculate7DayAverage noDate
          (Samples.inDoubles Samples.threeDays) Samples.target 7) = 1.
Proof. vm_compute. split; reflexivity. Qed.

(** Where the clocks are set forward during the week, the window is an hour
    shorter than six times 24 hours, and a reading of that hour is left
    out. *)
Example window_across_a_clock_change :
  WeightAverageCalculator.date_byAdding_day (Samples.springForward (17 * Samples.day))
    (- 7 + 1) Samples.target = Some (14 * Samples.day + 3600)
  /\ WeightAverageCalculator.readingCount
       (WeightAverageCalculator.calculate7DayAverage WeightAverageCalculator.fixedOffset
          (Samples.reading (14 * Samples.day + 1800) 183 :: Samples.threeDays)
          Samples.target 7) = 4
  /\ WeightAverageCalculator.readingCount
       (WeightAverageCalculator.calculate7DayAverage
          (Samples.springForward (17 * Samples.day))
          (Samples.reading (14 * Samples.day + 1800) 183 :: Samples.threeDays)
          Samples.target 7) = 3.
Proof. vm_compute. repeat split; reflexivity. Qed.

(** The scenario of the specification: 182.0, 181.5 and 181.0 on three
    consecutive days give the average 181.5 with confidence 3/7, the
    [Double] nearest to it. *)
Example rolling_average_scenario :
  WeightAverageCalculator.calculate7DayAverage WeightAverageCalculator.fixedOffset
    (Samples.inDoubles Samples.threeDays) Samples.target 7
  = {| WeightAverageCalculator.average := Some (Binary64.Num (363 # 2));
       WeightAverageCalculator.confidence := Binary64.round (3 # 7);
       WeightAverageCalculator.readingCount := 3;
       WeightAverageCalculator.isValid := true |}.
Proof. vm_compute. reflexivity. Qed.

(** In the arithmetic of [Double] the mean is the rounded quotient of the
    rounded sum: 0.1, 0.2 and 0.3 give a sum above 0.6 and a mean above
    0.2. *)
Example mean_of_doubles_is_rounded :
  let tenths := map Binary64.round [1 # 10; 2 # 10; 3 # 10] in
  Number.mean tenths = Binary64.Num (7205759403792795 # 36028797018963968)
  /\ Binary64.ltb (Binary64.round (2 # 10)) (Number.mean tenths) = true.
Proof. vm_compute. split; reflexivity. Qed.

(** For a valid result the confidence is the number of readings divided by
    the window length. *)
Lemma rolling_average_confidence_exact :
  forall (Double : Type) (arithmetic : Number.Arithmetic Double)
         (calendar : WeightAverageCalculator.Calendar)
         (readings : list (WeightAverageCalculator.WeightReading Double))
         (targetDate windowDays : Z),
    let result :=
      WeightAverageCalculator.calculate7DayAverage
        calendar readings targetDate windowDays in
    WeightAverageCalculator.isValid result = true ->
    WeightAverageCalculator.confidence result
    = Number.div (Number.ofInt (WeightAverageCalculator.readingCount result))
        (Number.ofInt windowDays).
Proof.
  intros Double arithmetic calendar readings targetDate windowDays result. subst result.
  unfold WeightAverageCalculator.calculate7DayAverage. cbv zeta.
  destruct (negb (3 <=? _)); simpl; [discriminate | reflexivity].
Qed.

(** X8. The confidence lies within [0, 1] as long as the window holds no more
    readings than it has days. *)
Lemma rolling_average_confidence_unit_interval :
  forall (calendar : WeightAverageCalculator.Calendar)
         (readings : list (WeightAverageCalculator.WeightReading Q))
         (targetDate windowDays : Z),
    let result :=
      WeightAverageCalculator.calculate7DayAverage
        calendar readings targetDate windowDays in
    WeightAverageCalculator.readingCount result <= windowDays ->
    (0 <= WeightAverageCalculator.confidence result)%Q
    /\ (WeightAverageCalculator.confidence result <= 1)%Q.
Proof.
  intros calendar readings targetDate windowDays result. subst result.
  unfold WeightAverageCalculator.calculate7DayAverage. cbv zeta.
  destruct (negb (3 <=? _)) eqn:E; simpl.
  - intros _. split; [apply Qle_refl | discriminate].
  - intros Hle. apply negb_false_iff, Z.leb_le in E.
    set (n := Z.of_nat _) in *.
    assert (Hw : 0 < windowDays) by lia.
    assert (HwQ : (0 < inject_Z windowDays)%Q)
      by (change 0%Q with (inject_Z 0); rewrite <- Zlt_Qlt; exact Hw).
    unfold Number.ofInt. simpl. split.
    + apply Qle_shift_div_l; [exact HwQ |].
      rewrite Qmult_0_l. change 0%Q with (inject_Z 0). rewrite <- Zle_Qle. lia.
    + apply Qle_shift_div_r; [exact HwQ |].
      rewrite Qmult_1_l. rewrite <- Zle_Qle. exact Hle.
Qed.

(** C3. Eight readings taken over four days of a seven-day window give the
    confidence 8/7, above 1. *)
Theorem rolling_average_confidence_above_one :
  let result :=
    WeightAverageCalculator.calculate7DayAverage WeightAverageCalculator.fixedOffset
      Samples.twiceADay Samples.target 7 in
  WeightAverageCalculator.isValid result = true
  /\ WeightAverageCalculator.readingCount result = 8
  /\ WeightAverageCalculator.confidence result == 8 # 7
  /\ (1 < WeightAverageCalculator.confidence result)%Q.
Proof.
  vm_compute. repeat split; reflexivity.
Qed.

(** The same in the arithmetic of [Double]: the confidence is the [Double]
    nearest to 8/7, which is above 1. *)
Example rolling_average_confidence_above_one_rounded :
  let result :=
    WeightAverageCalculator.calculate7DayAverage WeightAverageCalculator.fixedOffset
      (Samples.inDoubles Samples.twiceADay) Samples.target 7 in
  WeightAverageCalculator.confidence result = Binary64.round (8 # 7)
  /\ Binary64.ltb (Binary64.Num 1) (WeightAverageCalculator.confidence result) = true.
Proof. vm_compute. split; reflexivity. Qed.

(** X9. The server's function throws exactly when the target date is no date,
    the window length is not finite, or the start of the window lies outside
    the range of time values. Otherwise it reports the number of the readings
    of the query and, from three on, the confidence [count / windowDays] of
    the language's division; for a window length of zero the confidence is
    an infinity. *)
Lemma server_rolling_average :
  forall (parseOther : string -> option Z) (db : Queries.D1Database)
         (targetDate : string) (windowDays : option Z),
    let start :=
      match JSDate.ofString parseOther targetDate, windowDays with
      | Some date, Some days =>
          JSDate.timeClip (date - (days - 1) * JSDate.msPerDay)
      | _, _ => None
      end in
    match start with
    | None =>
        Statements.calculateRollingAverage parseOther db targetDate windowDays
        = Tools.Thrown "Invalid time value"
    | Some windowStart =>
        exists result days,
          windowDays = Some days
          /\ Statements.calculateRollingAverage parseOther db targetDate windowDays
             = Tools.Returned result
          /\ let count :=
               Z.of_nat
                 (length
                    (Queries.getWeightReadings db (JSDate.toISOString windowStart)
                       targetDate)) in
             Statements.readingCount result = count
             /\ (3 <= count ->
                 (days <> 0 ->
                  Statements.confidence result
                  = JS.div (JS.Num (inject_Z count)) (JS.Num (inject_Z days)))
                 /\ (days = 0 ->
                     Statements.confidence result = JS.PosInfinity
                     \/ Statements.confidence result = JS.NegInfinity))
    end.
Proof.
  intros parseOther db targetDate windowDays start. subst start.
  destruct (JSDate.ofString parseOther targetDate) as [date |] eqn:Hdate;
    [| unfold Statements.calculateRollingAverage; rewrite Hdate; reflexivity].
  destruct windowDays as [days |];
    [| unfold Statements.calculateRollingAverage; rewrite Hdate; reflexivity].
  destruct (JSDate.timeClip _) as [windowStart |] eqn:Hstart.
  - rewrite (calculateRollingAverage_returns _ _ _ _ _ _ Hdate Hstart).
    eexists. exists days. split; [reflexivity |]. split; [reflexivity |].
    cbv zeta.
    set (rs := Queries.getWeightReadings db (JSDate.toISOString windowStart) targetDate).
    destruct (Z.lt_ge_cases (Z.of_nat (length rs)) 3) as [Hlt | Hge].
    + rewrite (averageOf_below_three _ _ Hlt). simpl. split; [reflexivity | lia].
    + rewrite (averageOf_from_three _ _ Hge). simpl. split; [reflexivity |].
      intros _. split; [reflexivity |].
      intros ->. left. unfold Binary64.div.
      replace (Binary64.isZero (inject_Z 0)) with true by reflexivity.
      assert (Hn : Binary64.isZero (inject_Z (Z.of_nat (length rs))) = false).
      { unfold Binary64.isZero. apply not_true_is_false. intros H.
        apply Qeq_bool_iff in H. unfold Qeq in H. simpl in H. lia. }
      rewrite Hn.
      replace (Binary64.negative (inject_Z (Z.of_nat (length rs)))) with false;
        [reflexivity |].
      symmetry. unfold Binary64.negative. apply negb_false_iff.
      unfold Qle_bool. simpl. apply Z.leb_le. lia.
  - unfold Statements.calculateRollingAverage. rewrite Hdate.
    replace (DateUtils.shiftDate date (- days + 1))
      with (date - (days - 1) * JSDate.msPerDay)
      by (unfold DateUtils.shiftDate, DateUtils.msPerDay, JSDate.msPerDay; ring).
    rewrite Hstart. reflexivity.
Qed.

(** ** Phase suggestion *)

(** Splits the goal along the comparisons the scoring makes on its two
    arguments; every branch is then a closed computation. *)
Ltac split_comparisons :=
  repeat match goal with
         | |- context [if Qltb ?a ?b then _ else _] =>
             destruct (Qltb a b); cbv beta iota
         end.

Ltac closed_case :=
  vm_compute;
  first [ reflexivity
        | discriminate
        | intros; first [ discriminate | lia ] ].

(** C4, as the code has it. On the server the suggested phase has the
    highest combined score, and among the phases that share the highest
    score it is the first in the order cut, maintenance, bulk. On the client
    the suggested phase has the highest combined score in whichever order
    the dictionary of scores is traversed, and every phase that has the
    highest score is the one suggested under some order of traversal. *)
Theorem suggestPhase_highest_score_first_in_order :
  forall avgDailySurplus avgWeeklyWeightChange : Q,
    (let scores := Calculations.phaseScores avgDailySurplus avgWeeklyWeightChange in
     let winner :=
       Calculations.suggestedPhase
         (Calculations.suggestPhase avgDailySurplus avgWeeklyWeightChange) in
     (forall p, Calculations.score scores p <= Calculations.score scores winner)%Q
     /\ (forall p,
           Calculations.score scores p == Calculations.score scores winner ->
           (Calculations.rank winner <= Calculations.rank p)%nat))
    /\ (let scores := PhaseDetector.phaseScores avgDailySurplus avgWeeklyWeightChange in
        let winner keys :=
          PhaseDetector.suggestedPhase
            (PhaseDetector.suggestPhase keys avgDailySurplus avgWeeklyWeightChange) in
        (forall keys, In keys PhaseDetector.traversals ->
           forall p, (scores p <= scores (winner keys))%Q)
        /\ (forall p, (forall p', scores p' <= scores p)%Q ->
              exists keys, In keys PhaseDetector.traversals /\ winner keys = p)).
Proof.
  intros s w. split.
  - unfold Calculations.suggestPhase. cbv zeta.
    cbn [Calculations.suggestedPhase Calculations.confidence].
    unfold Calculations.phaseScores,
      Calculations.scoreWeightTrend, Calculations.scoreCalorieBalance.
    cbv zeta.
    split_comparisons; split; intros p; destruct p; closed_case.
  - unfold PhaseDetector.suggestPhase. cbv zeta.
    cbn [PhaseDetector.suggestedPhase PhaseDetector.confidence].
    unfold PhaseDetector.phaseScores,
      PhaseDetector.scoreWeightTrend, PhaseDetector.scoreCalorieBalance.
    cbv zeta. split.
    + intros keys Hkeys. unfold PhaseDetector.traversals in Hkeys. simpl in Hkeys.
      repeat (destruct Hkeys as [<- | Hkeys]); [ .. | contradiction ];
        split_comparisons; intros p; destruct p; closed_case.
    + split_comparisons; intros p Hmax;
        (destruct p;
         [ exists [cut; maintenance; bulk]
         | exists [maintenance; cut; bulk]
         | exists [bulk; cut; maintenance] ];
         (split; [unfold PhaseDetector.traversals; simpl; tauto |]);
         first
           [ vm_compute; reflexivity
           | exfalso; apply (Hmax cut); vm_compute; reflexivity
           | exfalso; apply (Hmax maintenance); vm_compute; reflexivity
           | exfalso; apply (Hmax bulk); vm_compute; reflexivity ]).
Qed.

(** C4 as stated fails on the client. A deficit of 400 with a gain of one
    pound gives one point to cut and one to bulk, the highest score; where
    the dictionary is traversed with bulk before cut, bulk is suggested,
    which is not the first of the two in the order cut, maintenance,
    bulk. *)
Lemma swift_tie_not_in_fixed_order :
  let scores := PhaseDetector.phaseScores (-400) 1 in
  In [bulk; maintenance; cut] PhaseDetector.traversals
  /\ scores cut == scores bulk
  /\ (forall p, scores p <= scores cut)%Q
  /\ PhaseDetector.suggestedPhase
       (PhaseDetector.suggestPhase [bulk; maintenance; cut] (-400) 1) = bulk.
Proof.
  split; [unfold PhaseDetector.traversals; simpl; tauto |].
  split; [vm_compute; reflexivity |].
  split; [intros p; destruct p; vm_compute; discriminate | vm_compute; reflexivity].
Qed.

(** C5. The confidence is the winning score divided by 2; the winning score
    lies between 1 and 2 and the confidence between 1/2 and 1. *)
Theorem suggestPhase_confidence_half_to_one :
  forall avgDailySurplus avgWeeklyWeightChange : Q,
    let scores := Calculations.phaseScores avgDailySurplus avgWeeklyWeightChange in
    let suggestion := Calculations.suggestPhase avgDailySurplus avgWeeklyWeightChange in
    let winning := Calculations.score scores (Calculations.suggestedPhase suggestion) in
    Calculations.confidence suggestion = (winning / 2)%Q
    /\ (1 <= winning)%Q /\ (winning <= 2)%Q
    /\ (1 # 2 <= Calculations.confidence suggestion)%Q
    /\ (Calculations.confidence suggestion <= 1)%Q.
Proof.
  intros s w.
  unfold Calculations.suggestPhase. cbv zeta.
  cbn [Calculations.suggestedPhase Calculations.confidence].
  unfold Calculations.phaseScores,
    Calculations.scoreWeightTrend, Calculations.scoreCalorieBalance.
  cbv zeta.
  split_comparisons; repeat split; closed_case.
Qed.

(** The scenarios of the specification. *)
Example suggestPhase_scenarios :
  Calculations.suggestedPhase (Calculations.suggestPhase 400 1) = bulk
  /\ Calculations.suggestedPhase (Calculations.suggestPhase (-400) (-1)) = cut
  /\ Calculations.suggestedPhase (Calculations.suggestPhase 0 0) = maintenance
  /\ Calculations.confidence (Calculations.suggestPhase 0 0) == 1.
Proof.
  vm_compute. repeat split; reflexivity.
Qed.

(** A tie for the highest score: a deficit of 400 with a gain of one pound
    gives one point to cut and one to bulk, and cut is suggested. *)
Example suggestPhase_tie_goes_to_cut :
  let scores := Calculations.phaseScores (-400) 1 in
  Calculations.score scores cut == Calculations.score scores bulk
  /\ Calculations.suggestedPhase (Calculations.suggestPhase (-400) 1) = cut.
Proof.
  vm_compute. split; reflexivity.
Qed.

(** X12. The two implementations give every phase the same score. *)
Lemma phaseScores_agree :
  forall (avgDailySurplus avgWeeklyWeightChange : Q) (p : Phase),
    PhaseDetector.phaseScores avgDailySurplus avgWeeklyWeightChange p
    = Calculations.score
        (Calculations.phaseScores avgDailySurplus avgWeeklyWeightChange) p.
Proof.
  intros s w p.
  unfold PhaseDetector.phaseScores, PhaseDetector.scoreWeightTrend,
    PhaseDetector.scoreCalorieBalance, Calculations.phaseScores,
    Calculations.scoreWeightTrend, Calculations.scoreCalorieBalance.
  cbv zeta.
  split_comparisons; destruct p; reflexivity.
Qed.

(** X10. On the client the suggestion has the highest score and the confidence is
    that score halved, in whichever order the dictionary is traversed. *)
Lemma swift_suggestPhase_highest_score :
  forall (keys : list Phase) (avgDailySurplus avgWeeklyWeightChange : Q),
    In keys PhaseDetector.traversals ->
    let scores := PhaseDetector.phaseScores avgDailySurplus avgWeeklyWeightChange in
    let suggestion :=
      PhaseDetector.suggestPhase keys avgDailySurplus avgWeeklyWeightChange in
    (forall p, scores p <= scores (PhaseDetector.suggestedPhase suggestion))%Q
    /\ PhaseDetector.confidence suggestion
       = (scores (PhaseDetector.suggestedPhase suggestion) / 2)%Q
    /\ (1 # 2 <= PhaseDetector.confidence suggestion)%Q
    /\ (PhaseDetector.confidence suggestion <= 1)%Q.
Proof.
  intros keys s w Hkeys.
  unfold PhaseDetector.suggestPhase. cbv zeta.
  cbn [PhaseDetector.suggestedPhase PhaseDetector.confidence].
  unfold PhaseDetector.phaseScores,
    PhaseDetector.scoreWeightTrend, PhaseDetector.scoreCalorieBalance.
  cbv zeta.
  unfold PhaseDetector.traversals in Hkeys. simpl in Hkeys.
  repeat (destruct Hkeys as [<- | Hkeys]); [ .. | contradiction ];
    split_comparisons;
    (split; [intros p; destruct p; closed_case | repeat split; closed_case]).
Qed.

(** On the client a tie is decided by the traversal order of the
    dictionary: with bulk traversed before cut, the tie between cut and bulk
    goes to bulk. *)
Example swift_tie_follows_traversal :
  PhaseDetector.suggestedPhase
    (PhaseDetector.suggestPhase [cut; maintenance; bulk] (-400) 1) = cut
  /\ PhaseDetector.suggestedPhase
       (PhaseDetector.suggestPhase [bulk; maintenance; cut] (-400) 1) = bulk.
Proof.
  vm_compute. split; reflexivity.
Qed.


(** ** Adherence in the reports *)







(** The weeks a phase averages are those whose calorie, step and protein
    totals are all present and not zero. *)
Lemma hasActuals_iff (w : Queries.WeekRecord) :
  Tools.hasActuals w = true
  <-> JS.truthyZ (Queries.total_calories w) = true
      /\ JS.truthyZ (Queries.total_steps w) = true
      /\ JS.truthyZ (Queries.total_protein w) = true.
Proof.
  unfold Tools.hasActuals. rewrite !andb_true_iff. tauto.
Qed.




(** The scenario of the specification: 10234 of 14000 kcal is shown
    as 73.1%. *)
Example adherence_scenario :
  Tools.caloriesLine Samples.week = "- Calories: 10234 kcal (73.1%)"%string.
Proof. vm_compute. reflexivity. Qed.

(** The percentage is that of the rounded quotient: 4025 of 14000 is the
    number 28.749999999999996 and is shown as 28.7%, where the quotient of
    the integers, 28.75, would be shown as 28.8%. *)
Example adherence_of_rounded_quotient :
  Tools.adherence (Some 4025) (Some 14000)
  = JS.Num (8092405580431359 # 281474976710656)
  /\ Tools.adherenceNote (Some 4025) (Some 14000) = "(28.7%)"%string
  /\ JS.toFixedQ 1 ((4025 # 14000) * 100)%Q = "28.8"%string.
Proof. vm_compute. repeat split; reflexivity. Qed.

(** In the phase analysis the adherence of a phase is left out when none of
    its weeks has weight data, whatever its totals. *)
Example phase_without_weight_data :
  let week := Samples.withoutWeight Samples.weekZeroTarget in
  Tools.hasActuals week = true
  /\ Tools.adherenceLines [week] <> ""%string
  /\ Tools.phaseBlock "cut" [week]
     = ("CUT PHASE (1 weeks)" ++ Tools.nl
        ++ "========================================" ++ Tools.nl
        ++ "Insufficient data for analysis" ++ Tools.nl ++ Tools.nl)%string.
Proof.
  vm_compute. split; [reflexivity |]. split; [discriminate | reflexivity].
Qed.




(** ** The tool endpoint *)

Lemma filter_all_false {A} (f : A -> bool) (l : list A) :
  (forall x, In x l -> f x = false) -> filter f l = [].
Proof.
  induction l as [| x l IH]; intros H; simpl; [reflexivity |].
  rewrite (H x) by (left; reflexivity).
  apply IH. intros y Hy. apply H. right. exact Hy.
Qed.



(** Every tool meets its "no data" condition on an empty store. *)
Example empty_store_has_no_data :
  forall (range : Tools.RangeArgs) (page : Tools.WeeklyHistoryArgs)
         (start : Tools.WeekSummaryArgs),
    Tools.NoData Samples.emptyDb Tools.get_current_week
    /\ Tools.NoData Samples.emptyDb (Tools.get_week_summary start)
    /\ Tools.NoData Samples.emptyDb (Tools.get_weekly_history page)
    /\ Tools.NoData Samples.emptyDb (Tools.get_weight_trend range)
    /\ Tools.NoData Samples.emptyDb (Tools.analyze_phases range)
    /\ Tools.NoData Samples.emptyDb (Tools.get_body_composition range).
Proof.
  intros range page start. repeat split; constructor.
  - reflexivity.
  - reflexivity.
  - unfold Queries.getWeeks, Queries.limitOffset. simpl.
    rewrite skipn_nil. destruct (_ <? 0); [reflexivity | apply firstn_nil].
  - reflexivity.
  - intros w [].
  - intros r [].
Qed.

(** Outside the "no data" conditions a tool can fail: a week that is found
    but whose step target is null makes the summary throw, and the endpoint
    answers 500. *)
Example week_summary_null_step_target :
  Tools.mcpHandler 0 (fun _ => None)
    {| Queries.weeks := [Samples.weekNullStepTarget]; Queries.weight_readings := [] |}
    (Tools.tools_call (Tools.get_week_summary (Tools.mkWeekSummaryArgs "2024-02-04")))
  = {| Tools.status := 500;
       Tools.body :=
         Tools.ErrorObject "Tool execution failed"
           (Some "Cannot read properties of null (reading 'toLocaleString')"%string)
    |}.
Proof. vm_compute. reflexivity. Qed.

(** ** Storing a week and reading it back *)

Lemma orZ_default (v : option Z) :
  Queries.orZ v (Some 0) = Some (match v with Some n => n | None => 0 end).
Proof.
  destruct v as [n |]; [| reflexivity].
  unfold Queries.orZ. simpl. destruct (Z.eqb_spec n 0) as [-> | _]; reflexivity.
Qed.

Lemma orZ_null (v : option Z) :
  Queries.orZ v None = match v with Some 0 => None | _ => v end.
Proof.
  destruct v as [n |]; [| reflexivity].
  unfold Queries.orZ. simpl. destruct n; reflexivity.
Qed.

Lemma orS_maintenance (v : option string) :
  Queries.orS v (Some "maintenance"%string)
  = Some (match v with
          | None | Some EmptyString => "maintenance"%string
          | Some p => p
          end).
Proof.
  destruct v as [[| c p] |]; reflexivity.
Qed.

Lemma find_app_fresh {A} (f : A -> bool) (l : list A) (x : A) :
  (forall y, In y l -> f y = false) -> f x = true -> find f (l ++ [x]) = Some x.
Proof.
  induction l as [| y l IH]; intros Hl Hx; simpl.
  - rewrite Hx. reflexivity.
  - rewrite (Hl y) by (left; reflexivity).
    apply IH; [| exact Hx]. intros z Hz. apply Hl. right. exact Hz.
Qed.

Lemma existsb_all_false {A} (f : A -> bool) (l : list A) :
  (forall y, In y l -> f y = false) -> existsb f l = false.
Proof.
  induction l as [| y l IH]; intros Hl; simpl; [reflexivity |].
  rewrite (Hl y) by (left; reflexivity). simpl.
  apply IH. intros z Hz. apply Hl. right. exact Hz.
Qed.

(** C9, as the code has it. A week with identifier, start and end date, a
    new identifier and a start date not yet stored is inserted, and reading
    it back by its start date returns: each target as given, or 0 when it was
    missing; the phase as given, or maintenance when it was missing or empty;
    each actual total as given, except that a total of 0 comes back as
    null. *)
Theorem createWeek_read_back :
  forall (now : string) (db : Queries.D1Database) (week : Queries.WeekInput)
         (wid sd ed : string),
    Queries.in_id week = Some wid ->
    Queries.in_start_date week = Some sd ->
    Queries.in_end_date week = Some ed ->
    (forall w, In w (Queries.weeks db) -> Queries.id w <> wid) ->
    (forall w, In w (Queries.weeks db) -> Queries.start_date w <> sd) ->
    exists db' row,
      Queries.createWeek now db week = Queries.D1Ok db'
      /\ Queries.getWeekByStartDate db' sd = Some row
      /\ Queries.target_calories row
         = Some (match Queries.in_target_calories week with Some n => n | None => 0 end)
      /\ Queries.target_protein row
         = Some (match Queries.in_target_protein week with Some n => n | None => 0 end)
      /\ Queries.target_steps row
         = Some (match Queries.in_target_steps week with Some n => n | None => 0 end)
      /\ Queries.target_cardio row
         = Some (match Queries.in_target_cardio week with Some n => n | None => 0 end)
      /\ Queries.phase row
         = Some (match Queries.in_phase week with
                 | None | Some EmptyString => "maintenance"%string
                 | Some p => p
                 end)
      /\ Queries.total_steps row
         = match Queries.in_total_steps week with Some 0 => None | v => v end
      /\ Queries.total_calories row
         = match Queries.in_total_calories week with Some 0 => None | v => v end
      /\ Queries.total_protein row
         = match Queries.in_total_protein week with Some 0 => None | v => v end
      /\ Queries.total_cardio_calories row
         = match Queries.in_total_cardio_calories week with Some 0 => None | v => v end.
Proof.
  intros now db week wid sd ed Hid Hsd Hed Hfresh Hstart.
  unfold Queries.createWeek. rewrite Hid, Hsd, Hed.
  rewrite existsb_all_false.
  2:{ intros w Hw. apply String.eqb_neq. apply Hfresh. exact Hw. }
  eexists. eexists. split; [reflexivity |].
  split.
  { unfold Queries.getWeekByStartDate. simpl.
    apply find_app_fresh.
    - intros w Hw. apply String.eqb_neq. apply Hstart. exact Hw.
    - simpl. apply String.eqb_refl. }
  simpl. rewrite !orZ_default, !orZ_null, orS_maintenance.
  repeat split; try reflexivity.
  - destruct (Queries.in_total_steps week) as [[| p | p] |]; reflexivity.
  - destruct (Queries.in_total_calories week) as [[| p | p] |]; reflexivity.
  - destruct (Queries.in_total_protein week) as [[| p | p] |]; reflexivity.
  - destruct (Queries.in_total_cardio_calories week) as [[| p | p] |]; reflexivity.
Qed.

Lemma createWeek_read_back_witness :
  exists db' row,
    Queries.createWeek Samples.now Samples.emptyDb Samples.newWeek = Queries.D1Ok db'
    /\ Queries.getWeekByStartDate db' "2024-01-21" = Some row
    /\ Queries.target_calories row = Some 14000
    /\ Queries.phase row = Some "bulk"%string
    /\ Queries.total_steps row = None.
Proof.
  destruct (createWeek_read_back Samples.now Samples.emptyDb Samples.newWeek
              "w3" "2024-01-21" "2024-01-27" eq_refl eq_refl eq_refl)
    as (db' & row & Hc & Hr & Htc & _ & _ & _ & Hp & Hts & _).
  - intros w [].
  - intros w [].
  - exists db', row. repeat split; assumption.
Defined.

(** C9 as stated fails: a new week whose totals are still 0 is read back
    with every total null. *)
Lemma createWeek_zero_total_read_back_as_null :
  Queries.in_total_steps Samples.newWeek = Some 0
  /\ exists db' row,
       Queries.createWeek Samples.now Samples.emptyDb Samples.newWeek = Queries.D1Ok db'
       /\ Queries.getWeekByStartDate db' "2024-01-21" = Some row
       /\ Queries.total_steps row = None
       /\ Queries.total_steps row <> Queries.in_total_steps Samples.newWeek.
Proof.
  split; [reflexivity |].
  eexists. eexists. split; [reflexivity |].
  split; [reflexivity |].
  split; [reflexivity | discriminate].
Qed.

(** ** The bearer-token check and the routes *)

Ltac refuted := simpl; let H := fresh in intros H; discriminate H.

(** Without an [Authorization] header the middleware answers 401. *)
Lemma authMiddleware_missing_header (env : Auth.Env) (req : Auth.Request) :
  Auth.authorization req = None ->
  Auth.authMiddleware env req = Auth.Respond 401 "Missing Authorization header".
Proof.
  intros H. unfold Auth.authMiddleware. rewrite H. reflexivity.
Qed.

(** The middleware refuses with 401, 403 or 500 only. *)
Lemma authMiddleware_statuses (env : Auth.Env) (req : Auth.Request)
    (status : Z) (error : string) :
  Auth.authMiddleware env req = Auth.Respond status error ->
  status = 401 \/ status = 403 \/ status = 500.
Proof.
  unfold Auth.authMiddleware.
  repeat match goal with
         | |- context [if ?b then _ else _] => destruct b
         end;
    intros H; inversion H; auto.
Qed.

(** X3. The middleware passes a request on exactly when the header reads
    "Bearer", a space and a non-empty token, and the token is the configured
    key. *)
Lemma authMiddleware_passes_iff (env : Auth.Env) (req : Auth.Request) :
  Auth.authMiddleware env req = Auth.CallNext
  <-> exists header token,
        Auth.authorization req = Some header
        /\ nth_error (JS.splitSpace header) 0 = Some "Bearer"%string
        /\ nth_error (JS.splitSpace header) 1 = Some token
        /\ token <> ""%string
        /\ Auth.API_KEY env = Some token.
Proof.
  unfold Auth.authMiddleware. split.
  - destruct (Auth.authorization req) as [header |]; [| refuted].
    destruct (JS.truthyS (Some header)); [| refuted].
    cbn [JS.showS negb].
    destruct (JS.splitSpace header) as [| scheme [| tok parts]] eqn:Hparts;
      cbn [nth_error JS.truthyS negb]; rewrite ?orb_true_r; try refuted.
    destruct (String.eqb_spec scheme "Bearer") as [-> |]; [| refuted].
    destruct tok as [| c tok]; [refuted |].
    destruct (Auth.API_KEY env) as [[| k key] |]; try refuted.
    cbn [JS.truthyS JS.showS negb orb].
    destruct (String.eqb_spec (String c tok) (String k key)) as [<- |];
      [| refuted].
    intros _. exists header, (String c tok). rewrite Hparts.
    repeat split; congruence.
  - intros (header & token & Hh & Hs & Ht & Hne & Hk).
    rewrite Hh.
    assert (Hheader : JS.truthyS (Some header) = true).
    { destruct header; [simpl in Hs; discriminate | reflexivity]. }
    rewrite Hheader. cbn [JS.showS negb].
    rewrite Hs, Ht, Hk. rewrite String.eqb_refl.
    destruct token as [| c token]; [congruence |].
    cbn [JS.truthyS JS.showS negb orb]. rewrite String.eqb_refl. reflexivity.
Qed.

Ltac evaluate_routes :=
  cbv [filter App.matches App.app App.mount App.apiRoutes map List.app
       App.r_method App.r_pattern App.r_handler Auth.method Auth.path
       App.Method_eqb App.matchPath String.eqb Ascii.eqb Bool.eqb andb negb
       App.dispatch App.compose].

(** X2. The tool endpoint registers the check in front of its handler: a request
    to it reaches the handler only if the check passes it on. *)
Lemma mcp_endpoint_is_guarded (env : Auth.Env) (header : option string) :
  let req := {| Auth.method := Auth.POST; Auth.path := ["mcp"%string];
                Auth.authorization := header |} in
  App.dispatch App.app env req
  = match Auth.authMiddleware env req with
    | Auth.Respond status error => App.Refused status error
    | Auth.CallNext => App.Reached "POST /mcp"
    end.
Proof.
  intros req. subst req. evaluate_routes. reflexivity.
Qed.

Ltac path_of_match H :=
  repeat match type of H with
         | (_ && _)%bool = true =>
             let H1 := fresh in
             apply andb_true_iff in H; destruct H as [H1 H];
             try (apply String.eqb_eq in H1; subst)
         end.

(** X1. Every route of the HTTP API is registered before the check of
    ["/api/*"]: whichever header a request carries, a handler of the API
    answers it and the check, which follows in the chain, does not run. *)
Lemma api_routes_answer_before_check :
  forall (env : Auth.Env) (req : Auth.Request) (r : App.Route),
    In r (App.mount "api" App.apiRoutes) ->
    App.matches req r = true ->
    exists name, App.dispatch App.app env req = App.Reached name.
Proof.
  intros env [m p header] r Hin Hmatch.
  unfold App.mount, App.apiRoutes in Hin. simpl in Hin.
  unfold App.matches in Hmatch.
  repeat (destruct Hin as [<- | Hin]); try contradiction;
    (destruct m; try discriminate Hmatch);
    (destruct p as [| s1 [| s2 [| s3 [| s4 [| s5 p]]]]];
     cbn [App.r_method App.r_pattern App.Method_eqb App.matchPath
          Auth.method Auth.path andb] in Hmatch;
     rewrite ?andb_false_r in Hmatch;
     try discriminate Hmatch);
    path_of_match Hmatch; try discriminate Hmatch.
  all: repeat match goal with
           | H : negb (String.eqb ?x "") = true |- _ =>
               destruct x; [discriminate H | clear H]
           end.
  all: eexists; evaluate_routes; reflexivity.
Qed.

(** C7. A request for [GET /api/weeks] that carries no [Authorization]
    header is answered by the handler of the route: the check, which would
    refuse it with 401, is registered after the routes and is not run. The
    same request to the tool endpoint is refused. *)
Theorem api_request_without_token_reaches_handler :
  Auth.authMiddleware Samples.env Samples.anonymousGetWeeks
  = Auth.Respond 401 "Missing Authorization header"
  /\ App.dispatch App.app Samples.env Samples.anonymousGetWeeks
     = App.Reached "GET /api/weeks"
  /\ App.dispatch App.app Samples.env Samples.anonymousPostMcp
     = App.Refused 401 "Missing Authorization header".
Proof.
  repeat split; vm_compute; reflexivity.
Qed.

(** * Further properties *)

(** ** The order of text values *)

Lemma ascii_compare_trans (a b c : ascii) :
  Ascii.compare a b <> Gt -> Ascii.compare b c <> Gt -> Ascii.compare a c <> Gt.
Proof.
  unfold Ascii.compare. rewrite !N.compare_le_iff. intros H1 H2. lia.
Qed.

Lemma ascii_compare_eq (a b : ascii) : Ascii.compare a b = Eq -> a = b.
Proof.
  unfold Ascii.compare. intros H. apply N.compare_eq in H.
  rewrite <- (ascii_N_embedding a), <- (ascii_N_embedding b), H. reflexivity.
Qed.

Lemma ascii_compare_lt_trans (a b c : ascii) :
  Ascii.compare a b = Lt -> Ascii.compare b c <> Gt -> Ascii.compare a c = Lt.
Proof.
  unfold Ascii.compare. rewrite N.compare_le_iff, !N.compare_lt_iff. lia.
Qed.

Lemma ascii_compare_le_lt_trans (a b c : ascii) :
  Ascii.compare a b <> Gt -> Ascii.compare b c = Lt -> Ascii.compare a c = Lt.
Proof.
  unfold Ascii.compare. rewrite N.compare_le_iff, !N.compare_lt_iff. lia.
Qed.

Lemma string_compare_trans (s1 s2 s3 : string) :
  String.compare s1 s2 <> Gt -> String.compare s2 s3 <> Gt ->
  String.compare s1 s3 <> Gt.
Proof.
  revert s2 s3. induction s1 as [| a s1 IH]; intros [| b s2] [| c s3]; simpl;
    try congruence.
  destruct (Ascii.compare a b) eqn:Eab; [| | congruence];
    destruct (Ascii.compare b c) eqn:Ebc; try congruence; intros H1 H2.
  - apply ascii_compare_eq in Eab, Ebc. subst.
    replace (Ascii.compare c c) with Eq; [eapply IH; eassumption |].
    symmetry. unfold Ascii.compare. apply N.compare_refl.
  - apply ascii_compare_eq in Eab. subst. rewrite Ebc. discriminate.
  - apply ascii_compare_eq in Ebc. subst. rewrite Eab. discriminate.
  - rewrite (ascii_compare_lt_trans a b c); [discriminate | assumption |].
    rewrite Ebc. discriminate.
Qed.

Lemma leb_trans (s1 s2 s3 : string) :
  String.leb s1 s2 = true -> String.leb s2 s3 = true -> String.leb s1 s3 = true.
Proof.
  unfold String.leb. intros H1 H2.
  pose proof (string_compare_trans s1 s2 s3) as H.
  destruct (String.compare s1 s2); try discriminate;
    destruct (String.compare s2 s3); try discriminate;
    destruct (String.compare s1 s3); try reflexivity;
    exfalso; apply H; congruence.
Qed.

Lemma leb_refl (s : string) : String.leb s s = true.
Proof.
  destruct (String.leb_total s s); assumption.
Qed.

Lemma strictlyBefore_false (a b : string) :
  Queries.strictlyBefore a b = false -> String.leb b a = true.
Proof.
  unfold Queries.strictlyBefore. intros H. apply negb_false_iff in H. exact H.
Qed.

Lemma strictlyBefore_true (a b : string) :
  Queries.strictlyBefore a b = true -> String.leb a b = true.
Proof.
  unfold Queries.strictlyBefore. intros H. apply negb_true_iff in H.
  destruct (String.leb_total a b) as [Hab | Hba]; [exact Hab | congruence].
Qed.

(** ** The rows a sorted query returns *)

Section OrderBy.

Context {A : Type}.
Variable key : A -> string.

Lemma orderInsert_perm (precedes : A -> A -> bool) (x : A) (l : list A) :
  Permutation (Queries.orderInsert precedes x l) (x :: l).
Proof.
  induction l as [| y l IH]; simpl; [reflexivity |].
  destruct (precedes y x); [| reflexivity].
  rewrite IH. apply perm_swap.
Qed.

Lemma orderBy_perm (precedes : A -> A -> bool) (l : list A) :
  Permutation (Queries.orderBy precedes l) l.
Proof.
  induction l as [| x l IH]; simpl; [reflexivity |].
  rewrite orderInsert_perm. constructor. exact IH.
Qed.

Lemma orderInsert_asc (x : A) (l : list A) :
  Sorted (TextOrder.ascending key) l ->
  Sorted (TextOrder.ascending key)
    (Queries.orderInsert (fun y x => Queries.strictlyBefore (key y) (key x)) x l).
Proof.
  induction l as [| y l IH]; intros Hs; simpl.
  - repeat constructor.
  - destruct (Queries.strictlyBefore (key y) (key x)) eqn:E.
    + inversion Hs as [| ? ? Hl Hhd]; subst. constructor; [apply IH; exact Hl |].
      destruct l as [| z l]; simpl.
      * constructor. apply strictlyBefore_true. exact E.
      * destruct (Queries.strictlyBefore (key z) (key x)).
        -- constructor. inversion Hhd; assumption.
        -- constructor. apply strictlyBefore_true. exact E.
    + constructor; [exact Hs |]. constructor. apply strictlyBefore_false. exact E.
Qed.

Lemma orderByAsc_sorted (l : list A) :
  Sorted (TextOrder.ascending key) (Queries.orderByAsc key l).
Proof.
  unfold Queries.orderByAsc. induction l as [| x l IH]; simpl.
  - constructor.
  - apply orderInsert_asc. exact IH.
Qed.

Lemma orderInsert_desc (x : A) (l : list A) :
  Sorted (TextOrder.descending key) l ->
  Sorted (TextOrder.descending key)
    (Queries.orderInsert (fun y x => Queries.strictlyBefore (key x) (key y)) x l).
Proof.
  induction l as [| y l IH]; intros Hs; simpl.
  - repeat constructor.
  - destruct (Queries.strictlyBefore (key x) (key y)) eqn:E.
    + inversion Hs as [| ? ? Hl Hhd]; subst. constructor; [apply IH; exact Hl |].
      destruct l as [| z l]; simpl.
      * constructor. apply strictlyBefore_true. exact E.
      * destruct (Queries.strictlyBefore (key x) (key z)).
        -- constructor. inversion Hhd; assumption.
        -- constructor. apply strictlyBefore_true. exact E.
    + constructor; [exact Hs |]. constructor. apply strictlyBefore_false. exact E.
Qed.

Lemma orderByDesc_sorted (l : list A) :
  Sorted (TextOrder.descending key) (Queries.orderByDesc key l).
Proof.
  unfold Queries.orderByDesc. induction l as [| x l IH]; simpl.
  - constructor.
  - apply orderInsert_desc. exact IH.
Qed.

Lemma descending_trans (a b c : A) :
  TextOrder.descending key a b -> TextOrder.descending key b c ->
  TextOrder.descending key a c.
Proof.
  unfold TextOrder.descending. intros H1 H2. eapply leb_trans; eassumption.
Qed.

Lemma sorted_desc_head (x : A) (l : list A) :
  Sorted (TextOrder.descending key) (x :: l) -> forall y, In y l -> TextOrder.descending key x y.
Proof.
  intros Hs. apply Sorted_StronglySorted in Hs.
  - inversion Hs as [| ? ? _ Hall]; subst.
    intros y Hy. rewrite Forall_forall in Hall. apply Hall. exact Hy.
  - intros a b c. apply descending_trans.
Qed.

Lemma sorted_skipn (R : A -> A -> Prop) (n : nat) (l : list A) :
  Sorted R l -> Sorted R (skipn n l).
Proof.
  revert l. induction n as [| n IH]; intros l Hs; [exact Hs |].
  destruct l as [| x l]; [constructor |].
  simpl. apply IH. inversion Hs; assumption.
Qed.

Lemma sorted_firstn (R : A -> A -> Prop) (n : nat) (l : list A) :
  Sorted R l -> Sorted R (firstn n l).
Proof.
  revert n. induction l as [| x l IH]; intros n Hs.
  - rewrite firstn_nil. constructor.
  - destruct n as [| n]; [constructor |].
    simpl. inversion Hs as [| ? ? Hl Hhd]; subst.
    constructor; [apply IH; exact Hl |].
    destruct l as [| y l]; [rewrite firstn_nil; constructor |].
    destruct n; [constructor |]. simpl. constructor. inversion Hhd; assumption.
Qed.

End OrderBy.

(** ** Reading weeks and readings (queries.ts, schema.sql) *)

Lemma in_skipn {A} (n : nat) (l : list A) (x : A) : In x (skipn n l) -> In x l.
Proof.
  intros H. rewrite <- (firstn_skipn n l). apply in_or_app. right. exact H.
Qed.

Lemma in_firstn {A} (n : nat) (l : list A) (x : A) : In x (firstn n l) -> In x l.
Proof.
  intros H. rewrite <- (firstn_skipn n l). apply in_or_app. left. exact H.
Qed.

Lemma limitOffset_incl {A} (limit offset : Z) (l : list A) (x : A) :
  In x (Queries.limitOffset limit offset l) -> In x l.
Proof.
  unfold Queries.limitOffset. intros H.
  destruct (limit <? 0).
  - eapply in_skipn. exact H.
  - eapply in_skipn. eapply in_firstn. exact H.
Qed.

Lemma limitOffset_sorted {A} (R : A -> A -> Prop) (limit offset : Z) (l : list A) :
  Sorted R l -> Sorted R (Queries.limitOffset limit offset l).
Proof.
  unfold Queries.limitOffset. intros H.
  destruct (limit <? 0).
  - apply sorted_skipn. exact H.
  - apply sorted_firstn, sorted_skipn. exact H.
Qed.

(** X13. The list of completed weeks holds stored weeks only, all of them marked
    complete, in the order of their start dates from the latest to the
    earliest, and no more of them than a non-negative limit allows. *)
Theorem getWeeks_complete_latest_first :
  forall (db : Queries.D1Database) (limit offset : Z),
    (forall w, In w (Queries.getWeeks db limit offset) ->
               In w (Queries.weeks db) /\ Queries.is_complete w = Some 1)
    /\ Sorted (TextOrder.descending Queries.start_date) (Queries.getWeeks db limit offset)
    /\ (0 <= limit -> Z.of_nat (length (Queries.getWeeks db limit offset)) <= limit).
Proof.
  intros db limit offset. unfold Queries.getWeeks, Queries.completed_weeks.
  split; [| split].
  - intros w Hw. apply limitOffset_incl in Hw.
    apply (Permutation_in _ (orderBy_perm _ _)) in Hw.
    apply filter_In in Hw. destruct Hw as [Hin Hc]. split; [exact Hin |].
    destruct (Queries.is_complete w) as [[| [p | p |] | p] |]; try discriminate.
    reflexivity.
  - apply limitOffset_sorted. apply orderByDesc_sorted.
  - intros Hl. unfold Queries.limitOffset.
    destruct (Z.ltb_spec limit 0) as [Hneg | _]; [lia |].
    rewrite length_firstn. lia.
Qed.





Lemma getCurrentWeek_stored (db : Queries.D1Database) (w : Queries.WeekRecord) :
  Queries.getCurrentWeek db = Some w -> In w (Queries.weeks db).
Proof.
  unfold Queries.getCurrentWeek, Queries.current_week. intros H.
  destruct (Queries.orderByDesc Queries.start_date _) as [| c rest] eqn:E;
    [discriminate |].
  simpl in H. injection H as <-.
  assert (Hc : In c (Queries.orderByDesc Queries.start_date
                       (filter (fun w => match Queries.is_complete w with
                                         | Some 0 => true | _ => false end)
                          (Queries.weeks db))))
    by (rewrite E; left; reflexivity).
  apply (Permutation_in _ (orderBy_perm _ _)) in Hc.
  apply filter_In in Hc. apply Hc.
Qed.

Lemma getWeeks_stored (db : Queries.D1Database) (limit offset : Z)
    (w : Queries.WeekRecord) :
  In w (Queries.getWeeks db limit offset) -> In w (Queries.weeks db).
Proof.
  unfold Queries.getWeeks, Queries.completed_weeks. intros Hw.
  apply limitOffset_incl in Hw.
  apply (Permutation_in _ (orderBy_perm _ _)) in Hw.
  apply filter_In in Hw. apply Hw.
Qed.

(** X15. The current week is a stored week that is not complete and whose start
    date is the latest among the weeks that are not complete; there is none
    exactly when every stored week is complete. *)
Theorem getCurrentWeek_latest_incomplete :
  forall db : Queries.D1Database,
    match Queries.getCurrentWeek db with
    | Some current =>
        In current (Queries.weeks db)
        /\ Queries.is_complete current = Some 0
        /\ forall w, In w (Queries.weeks db) -> Queries.is_complete w = Some 0 ->
                     String.leb (Queries.start_date w) (Queries.start_date current) = true
    | None =>
        forall w, In w (Queries.weeks db) -> Queries.is_complete w <> Some 0
    end.
Proof.
  intros db. unfold Queries.getCurrentWeek, Queries.current_week.
  set (open := filter _ (Queries.weeks db)).
  assert (Hopen : forall w, In w open <->
                            In w (Queries.weeks db) /\ Queries.is_complete w = Some 0).
  { intros w. unfold open. rewrite filter_In. split; intros [Hin Hc]; split; trivial.
    - destruct (Queries.is_complete w) as [[| p | p] |]; try discriminate. reflexivity.
    - rewrite Hc. reflexivity. }
  pose proof (orderByDesc_sorted Queries.start_date open) as Hsorted.
  pose proof (orderBy_perm
                (fun y x => Queries.strictlyBefore (Queries.start_date x) (Queries.start_date y))
                open) as Hperm.
  fold (Queries.orderByDesc Queries.start_date open) in Hperm.
  destruct (Queries.orderByDesc Queries.start_date open) as [| c rest] eqn:E; simpl.
  - intros w Hin Hc.
    assert (Hw : In w open) by (apply Hopen; split; assumption).
    apply (Permutation_in _ (Permutation_sym Hperm)) in Hw. destruct Hw.
  - assert (Hc : In c open).
    { apply (Permutation_in _ Hperm). left. reflexivity. }
    apply Hopen in Hc. destruct Hc as [Hin Hc]. split; [exact Hin |]. split; [exact Hc |].
    intros w Hw Hwc.
    assert (Hw' : In w (c :: rest)).
    { apply (Permutation_in _ (Permutation_sym Hperm)). apply Hopen. split; assumption. }
    destruct Hw' as [<- | Hrest]; [apply leb_refl |].
    apply (sorted_desc_head Queries.start_date c rest Hsorted w Hrest).
Qed.

Lemma getWeightReadings_in (db : Queries.D1Database) (startDate endDate : string)
    (r : Queries.WeightReading) :
  In r (Queries.getWeightReadings db startDate endDate)
  <-> In r (Queries.weight_readings db)
      /\ String.leb startDate (Queries.r_date r) = true
      /\ String.leb (Queries.r_date r) endDate = true.
Proof.
  unfold Queries.getWeightReadings. split.
  - intros H. apply (Permutation_in _ (orderBy_perm _ _)) in H.
    apply filter_In in H. rewrite andb_true_iff in H. exact H.
  - intros H. apply (Permutation_in _ (Permutation_sym (orderBy_perm _ _))).
    apply filter_In. rewrite andb_true_iff. exact H.
Qed.

(** X16. The readings of a date range are exactly the stored readings whose date
    text lies between the two bounds, each once, in the order of their
    dates. *)
Theorem getWeightReadings_range_sorted :
  forall (db : Queries.D1Database) (startDate endDate : string),
    let readings := Queries.getWeightReadings db startDate endDate in
    Sorted (TextOrder.ascending Queries.r_date) readings
    /\ Permutation readings
         (filter (fun r => String.leb startDate (Queries.r_date r)
                           && String.leb (Queries.r_date r) endDate)
            (Queries.weight_readings db))
    /\ forall r, In r readings <->
                 In r (Queries.weight_readings db)
                 /\ String.leb startDate (Queries.r_date r) = true
                 /\ String.leb (Queries.r_date r) endDate = true.
Proof.
  intros db s e readings. subst readings. unfold Queries.getWeightReadings.
  split; [apply orderByAsc_sorted |].
  split; [apply orderBy_perm |].
  intros r. apply getWeightReadings_in.
Qed.

(** ** Writing weeks, readings and daily metrics (queries.ts) *)

Lemma existsb_false_iff {A} (f : A -> bool) (l : list A) :
  existsb f l = false <-> forall y, In y l -> f y = false.
Proof.
  split.
  - intros H y Hy. destruct (f y) eqn:E; [| reflexivity].
    assert (Ht : existsb f l = true) by (apply existsb_exists; exists y; auto).
    congruence.
  - apply existsb_all_false.
Qed.

(** X17. A week that comes with identifier, start date and end date is
    refused by [createWeek] exactly when its identifier is already stored;
    otherwise one row with that identifier and those dates is added at the
    end of the table, and the readings are left as they are. *)
Theorem createWeek_refused_iff :
  forall (now : string) (db : Queries.D1Database) (week : Queries.WeekInput)
         (wid sd ed : string),
    Queries.in_id week = Some wid ->
    Queries.in_start_date week = Some sd ->
    Queries.in_end_date week = Some ed ->
    ((exists message, Queries.createWeek now db week = Queries.D1Error message)
     <-> exists w, In w (Queries.weeks db) /\ Queries.id w = wid)
    /\ forall db', Queries.createWeek now db week = Queries.D1Ok db' ->
                   exists row,
                     Queries.weeks db' = Queries.weeks db ++ [row]
                     /\ Queries.weight_readings db' = Queries.weight_readings db
                     /\ Queries.id row = wid
                     /\ Queries.start_date row = sd
                     /\ Queries.end_date row = ed.
Proof.
  intros now db week wid sd ed Hid Hsd Hed.
  unfold Queries.createWeek. rewrite Hid, Hsd, Hed.
  destruct (existsb _ (Queries.weeks db)) eqn:E.
  - split; [| intros db' H; discriminate H].
    split; [intros _ | intros _; eexists; reflexivity].
    apply existsb_exists in E. destruct E as (w & Hw & He).
    apply String.eqb_eq in He. exists w. split; assumption.
  - split.
    + split; [intros [m H]; discriminate H |].
      intros (w & Hw & He).
      rewrite existsb_false_iff in E. specialize (E w Hw).
      apply String.eqb_neq in E. congruence.
    + intros db' H. injection H as <-. eexists. simpl. repeat split.
Qed.

Lemma createWeek_refused_iff_witness :
  exists message,
    Queries.createWeek Samples.now MoreSamples.twoWeeks MoreSamples.sameIdentifier
    = Queries.D1Error message.
Proof.
  apply (createWeek_refused_iff Samples.now MoreSamples.twoWeeks
           MoreSamples.sameIdentifier "w1" "2024-03-03" "2024-03-09"
           eq_refl eq_refl eq_refl).
  exists Samples.week. split; [left; reflexivity | reflexivity].
Defined.

Lemma updateWeekTargets_find (now : string) (db : Queries.D1Database)
    (weekId : string) (targets : Statements.Targets) (startDate : string) :
  Queries.getWeekByStartDate
    (Statements.updateWeekTargets now db weekId targets) startDate
  = option_map
      (fun w => if String.eqb (Queries.id w) weekId
                then Statements.withTargets now targets w else w)
      (Queries.getWeekByStartDate db startDate).
Proof.
  unfold Statements.updateWeekTargets, Queries.getWeekByStartDate. simpl.
  induction (Queries.weeks db) as [| w ws IH]; simpl; [reflexivity |].
  assert (Hsd : Queries.start_date
                  (if String.eqb (Queries.id w) weekId
                   then Statements.withTargets now targets w else w)
                = Queries.start_date w)
    by (destruct (String.eqb (Queries.id w) weekId); reflexivity).
  rewrite Hsd.
  destruct (String.eqb (Queries.start_date w) startDate); [reflexivity | exact IH].
Qed.

(** X18. [updateWeekTargets] changes the four targets, the phase and the update
    time of the rows with the given identifier and nothing else: the table
    keeps its rows in place, rows with another identifier are untouched, and
    reading a week by its start date afterwards gives the row that was there
    before, with the new targets if its identifier is the given one. With no
    such identifier the store is unchanged. *)
Theorem updateWeekTargets_read_back :
  forall (now : string) (db : Queries.D1Database) (weekId : string)
         (targets : Statements.Targets),
    let db' := Statements.updateWeekTargets now db weekId targets in
    (forall startDate,
       Queries.getWeekByStartDate db' startDate
       = option_map
           (fun w => if String.eqb (Queries.id w) weekId
                     then Statements.withTargets now targets w else w)
           (Queries.getWeekByStartDate db startDate))
    /\ Queries.weight_readings db' = Queries.weight_readings db
    /\ length (Queries.weeks db') = length (Queries.weeks db)
    /\ ((forall w, In w (Queries.weeks db) -> Queries.id w <> weekId) -> db' = db).
Proof.
  intros now db weekId targets db'. subst db'.
  split; [intros sd; apply updateWeekTargets_find |].
  unfold Statements.updateWeekTargets. simpl.
  split; [reflexivity | split; [apply length_map |]].
  intros Hnone. destruct db as [ws rs]. simpl in *. f_equal.
    induction ws as [| w ws IH]; simpl; [reflexivity |].
    assert (Hw : String.eqb (Queries.id w) weekId = false)
      by (apply String.eqb_neq, Hnone; left; reflexivity).
    rewrite Hw. f_equal. apply IH. intros w' Hin. apply Hnone. right. exact Hin.
Qed.

(** X19. The targets read back after [updateWeekTargets] are the ones given,
    while the totals of the row stay as they were. *)
Theorem updateWeekTargets_sets_targets :
  forall (now : string) (db : Queries.D1Database) (targets : Statements.Targets)
         (w : Queries.WeekRecord),
    Queries.getWeekByStartDate db (Queries.start_date w) = Some w ->
    exists w',
      Queries.getWeekByStartDate
        (Statements.updateWeekTargets now db (Queries.id w) targets)
        (Queries.start_date w) = Some w'
      /\ Queries.target_calories w' = Some (Statements.new_target_calories targets)
      /\ Queries.target_protein w' = Some (Statements.new_target_protein targets)
      /\ Queries.target_steps w' = Some (Statements.new_target_steps targets)
      /\ Queries.target_cardio w' = Some (Statements.new_target_cardio targets)
      /\ Queries.phase w' = Some (Statements.new_phase targets)
      /\ Queries.total_steps w' = Queries.total_steps w
      /\ Queries.total_calories w' = Queries.total_calories w
      /\ Queries.total_protein w' = Queries.total_protein w
      /\ Queries.total_cardio_calories w' = Queries.total_cardio_calories w
      /\ Queries.is_complete w' = Queries.is_complete w.
Proof.
  intros now db targets w Hfound.
  rewrite updateWeekTargets_find, Hfound. simpl. rewrite String.eqb_refl.
  eexists. split; [reflexivity |]. simpl. repeat split.
Qed.

(** X20. A reading that comes with identifier, date and weight is refused by
    [createWeightReading] exactly when its identifier is already stored. *)
Theorem createWeightReading_refused_iff :
  forall (now : string) (db : Queries.D1Database)
         (reading : Statements.WeightReadingInput) (rid date : string) (weight : Q),
    Statements.in_r_id reading = Some rid ->
    Statements.in_r_date reading = Some date ->
    Statements.in_r_weight reading = Some weight ->
    ((exists message,
        Statements.createWeightReading now db reading = Queries.D1Error message)
     <-> exists r, In r (Queries.weight_readings db) /\ Queries.r_id r = rid).
Proof.
  intros now db reading rid date weight Hid Hdate Hweight.
  unfold Statements.createWeightReading. rewrite Hid, Hdate, Hweight.
  destruct (existsb _ (Queries.weight_readings db)) eqn:E.
  - split; [intros _ | intros _; eexists; reflexivity].
    apply existsb_exists in E. destruct E as (r & Hr & He).
    apply String.eqb_eq in He. exists r. split; assumption.
  - split; [intros [m H]; discriminate H |].
    intros (r & Hr & He).
    rewrite existsb_false_iff in E. specialize (E r Hr).
    apply String.eqb_neq in E. congruence.
Qed.

Lemma createWeightReading_refused_iff_witness :
  exists message,
    Statements.createWeightReading Samples.now MoreSamples.oneReading
      MoreSamples.morningReading = Queries.D1Error message.
Proof.
  apply (createWeightReading_refused_iff Samples.now MoreSamples.oneReading
           MoreSamples.morningReading "r1" "2024-01-09T07:30:00Z" (363 # 2)
           eq_refl eq_refl eq_refl).
  exists MoreSamples.storedReading. split; [left; reflexivity | reflexivity].
Defined.

Lemma filter_app_one {A} (f : A -> bool) (l : list A) (x : A) :
  filter f (l ++ [x]) = filter f l ++ (if f x then [x] else []).
Proof.
  rewrite filter_app. reflexivity.
Qed.

(** X21. A reading stored with a new identifier is found by every range query
    whose bounds enclose its date, with the weight as given, and such a query
    returns one reading more than before. *)
Theorem createWeightReading_then_query :
  forall (now : string) (db : Queries.D1Database)
         (reading : Statements.WeightReadingInput)
         (rid date : string) (weight : Q) (startDate endDate : string),
    Statements.in_r_id reading = Some rid ->
    Statements.in_r_date reading = Some date ->
    Statements.in_r_weight reading = Some weight ->
    (forall r, In r (Queries.weight_readings db) -> Queries.r_id r <> rid) ->
    String.leb startDate date = true ->
    String.leb date endDate = true ->
    exists db' row,
      Statements.createWeightReading now db reading = Queries.D1Ok db'
      /\ Queries.weeks db' = Queries.weeks db
      /\ In row (Queries.getWeightReadings db' startDate endDate)
      /\ Queries.r_id row = rid
      /\ Queries.r_date row = date
      /\ Queries.r_weight row = weight
      /\ length (Queries.getWeightReadings db' startDate endDate)
         = S (length (Queries.getWeightReadings db startDate endDate)).
Proof.
  intros now db reading rid date weight s e Hid Hdate Hweight Hfresh Hs He.
  unfold Statements.createWeightReading. rewrite Hid, Hdate, Hweight.
  rewrite existsb_all_false.
  2:{ intros r Hr. apply String.eqb_neq. apply Hfresh. exact Hr. }
  eexists.
  exists {| Queries.r_id := rid;
            Queries.r_date := date;
            Queries.r_weight := weight;
            Queries.r_body_fat_percentage :=
              Queries.orQ (Statements.in_r_body_fat_percentage reading) None;
            Queries.r_muscle_mass_percentage :=
              Queries.orQ (Statements.in_r_muscle_mass_percentage reading) None;
            Queries.r_source :=
              Queries.orS (Statements.in_r_source reading) (Some "API"%string);
            Queries.r_created_at := now |}.
  split; [reflexivity |]. split; [reflexivity |].
  split; [| split; [reflexivity | split; [reflexivity | split; [reflexivity |]]]].
  - apply getWeightReadings_in. simpl. split; [| split; assumption].
    apply in_or_app. right. left. reflexivity.
  - unfold Queries.getWeightReadings, Queries.orderByAsc. rewrite !orderBy_length.
    simpl. rewrite filter_app_one. simpl. rewrite Hs, He. simpl.
    rewrite length_app. simpl. lia.
Qed.

Lemma updateWeekTargets_sets_targets_witness :
  exists w',
    Queries.getWeekByStartDate
      (Statements.updateWeekTargets Samples.now MoreSamples.twoWeeks "w1"
         MoreSamples.newTargets)
      "2024-01-07" = Some w'
    /\ Queries.target_calories w' = Some 15000
    /\ Queries.phase w' = Some "bulk"%string
    /\ Queries.total_calories w' = Some 10234.
Proof.
  destruct (updateWeekTargets_sets_targets Samples.now MoreSamples.twoWeeks
              MoreSamples.newTargets Samples.week eq_refl)
    as (w' & Hr & Hc & _ & _ & _ & Hp & _ & Htc & _).
  exists w'. repeat split; assumption.
Defined.

Lemma createWeightReading_then_query_witness :
  exists db' row,
    Statements.createWeightReading Samples.now Samples.emptyDb MoreSamples.morningReading
    = Queries.D1Ok db'
    /\ In row (Queries.getWeightReadings db' "2024-01-09T00:00:00.000Z"
                 "2024-01-15T00:00:00Z")
    /\ Queries.r_weight row = 363 # 2.
Proof.
  destruct (createWeightReading_then_query Samples.now Samples.emptyDb
              MoreSamples.morningReading "r1" "2024-01-09T07:30:00Z" (363 # 2)
              "2024-01-09T00:00:00.000Z" "2024-01-15T00:00:00Z"
              eq_refl eq_refl eq_refl)
    as (db' & row & Hc & _ & Hin & _ & _ & Hw & _).
  - intros r [].
  - reflexivity.
  - reflexivity.
  - exists db', row. repeat split; assumption.
Defined.

Lemma nodup_map_filter {A B} (g : A -> B) (f : A -> bool) (l : list A) :
  NoDup (map g l) -> NoDup (map g (filter f l)).
Proof.
  induction l as [| x l IH]; simpl; intros H; [constructor |].
  inversion H as [| ? ? Hnotin Hl]; subst.
  destruct (f x); simpl; [| apply IH; exact Hl].
  constructor; [| apply IH; exact Hl].
  intros Hin. apply Hnotin. apply in_map_iff in Hin. destruct Hin as (y & Hy & Hin).
  apply filter_In in Hin. apply in_map_iff. exists y. tauto.
Qed.

Lemma filter_none {A} (f : A -> bool) (l : list A) :
  (forall x, In x l -> f x = false) -> filter f l = [].
Proof.
  apply filter_all_false.
Qed.

Lemma filter_filter_same {A} (f : A -> bool) (l : list A) :
  filter f (filter f l) = filter f l.
Proof.
  induction l as [| x l IH]; simpl; [reflexivity |].
  destruct (f x) eqn:E; simpl; [rewrite E, IH |]; auto.
Qed.

(** X22. After [createDailyMetrics] the table holds exactly one row for the date,
    the new one with the values just given (a missing count stored as 0);
    rows of other dates stay unless they carry the new identifier; and dates
    that were unique stay unique. *)
Theorem createDailyMetrics_one_row_per_date :
  forall (now : string) (table : list Statements.DailyMetrics)
         (metrics : Statements.DailyMetricsInput) (mid date : string),
    Statements.in_d_id metrics = Some mid ->
    Statements.in_d_date metrics = Some date ->
    exists table' row,
      Statements.createDailyMetrics now table metrics = Queries.D1Ok table'
      /\ filter (fun r => String.eqb (Statements.d_date r) date) table' = [row]
      /\ Statements.getDailyMetrics table' date date = [row]
      /\ Statements.d_id row = mid
      /\ Statements.d_steps row
         = Some (match Statements.in_d_steps metrics with Some n => n | None => 0 end)
      /\ Statements.d_calories row
         = Some (match Statements.in_d_calories metrics with Some n => n | None => 0 end)
      /\ Statements.d_protein row
         = Some (match Statements.in_d_protein metrics with Some n => n | None => 0 end)
      /\ Statements.d_cardio_calories row
         = Some (match Statements.in_d_cardio_calories metrics with
                 | Some n => n | None => 0 end)
      /\ (forall r, In r table' <->
                    r = row
                    \/ (In r table /\ Statements.d_id r <> mid
                        /\ Statements.d_date r <> date))
      /\ (NoDup (map Statements.d_date table) ->
          NoDup (map Statements.d_date table')).
Proof.
  intros now table metrics mid date Hid Hdate.
  unfold Statements.createDailyMetrics. rewrite Hid, Hdate.
  set (keep := fun r => negb (String.eqb (Statements.d_id r) mid
                              || String.eqb (Statements.d_date r) date)).
  set (row := {| Statements.d_id := mid; Statements.d_date := date;
                 Statements.d_steps := _ |}).
  assert (Hkept : forall r, In r (filter keep table) -> Statements.d_date r <> date).
  { intros r Hr. apply filter_In in Hr. destruct Hr as [_ Hk]. unfold keep in Hk.
    apply negb_true_iff, orb_false_iff in Hk. apply String.eqb_neq. apply Hk. }
  exists (filter keep table ++ [row]), row.
  split; [reflexivity |].
  split.
  { rewrite filter_app_one. simpl. rewrite String.eqb_refl.
    rewrite filter_none; [reflexivity |].
    intros r Hr. apply String.eqb_neq. apply Hkept. exact Hr. }
  split.
  { unfold Statements.getDailyMetrics, Queries.orderByAsc.
    rewrite filter_app_one. simpl. rewrite leb_refl. simpl.
    rewrite filter_none; [reflexivity |].
    intros r Hr. apply not_true_is_false. intros Hb.
    apply andb_true_iff in Hb. destruct Hb as [H1 H2].
    apply (Hkept r Hr). apply String.leb_antisym; assumption. }
  split; [reflexivity |].
  unfold row. simpl. rewrite !orZ_default.
  repeat (split; [reflexivity |]).
  split.
  - intros r. rewrite in_app_iff, filter_In. unfold keep. simpl.
    rewrite negb_true_iff, orb_false_iff, !String.eqb_neq.
    split; [intros [H | [H | []]] | intros [H | H]]; auto.
  - intros Hnodup. rewrite map_app. simpl.
    apply (Permutation_NoDup (l := date :: map Statements.d_date (filter keep table))).
    + apply Permutation_cons_append.
    + constructor; [| apply nodup_map_filter; exact Hnodup].
      intros Hin. apply in_map_iff in Hin. destruct Hin as (r & Hd & Hr).
      apply (Hkept r Hr). exact Hd.
Qed.

(** X23. Submitting the same daily metrics a second time changes nothing. *)
Theorem createDailyMetrics_idempotent :
  forall (now : string) (table table' : list Statements.DailyMetrics)
         (metrics : Statements.DailyMetricsInput),
    Statements.createDailyMetrics now table metrics = Queries.D1Ok table' ->
    Statements.createDailyMetrics now table' metrics = Queries.D1Ok table'.
Proof.
  intros now table table' metrics.
  unfold Statements.createDailyMetrics.
  destruct (Statements.in_d_id metrics) as [mid |]; [| discriminate].
  destruct (Statements.in_d_date metrics) as [date |]; [| discriminate].
  intros H. injection H as <-. f_equal.
  rewrite filter_app_one, filter_filter_same. simpl.
  rewrite !String.eqb_refl. simpl. rewrite app_nil_r. reflexivity.
Qed.

Lemma createDailyMetrics_one_row_per_date_witness :
  exists table' row,
    Statements.createDailyMetrics Samples.now [] MoreSamples.tuesday = Queries.D1Ok table'
    /\ Statements.getDailyMetrics table' "2024-01-09" "2024-01-09" = [row]
    /\ Statements.d_steps row = Some 10412
    /\ Statements.d_cardio_calories row = Some 0.
Proof.
  destruct (createDailyMetrics_one_row_per_date Samples.now [] MoreSamples.tuesday
              "d1" "2024-01-09" eq_refl eq_refl)
    as (table' & row & Hc & _ & Hg & _ & Hs & _ & _ & Hcc & _).
  exists table', row. repeat split; assumption.
Defined.

Lemma createDailyMetrics_idempotent_witness :
  exists table',
    Statements.createDailyMetrics Samples.now [] MoreSamples.tuesday = Queries.D1Ok table'
    /\ Statements.createDailyMetrics Samples.now table' MoreSamples.tuesday
       = Queries.D1Ok table'.
Proof.
  eexists. split; [reflexivity |].
  apply (createDailyMetrics_idempotent Samples.now [] _ MoreSamples.tuesday).
  reflexivity.
Defined.

(** ** Metabolic rate and calorie balance *)





(** ** Week-over-week change and confidence level on the client *)

(** X7. A valid result comes from a window of at least one day, so the division
    by the window length is a division by a positive number; the calendar is
    one in which a later day is a later instant. *)
Lemma valid_window_positive :
  forall (Double : Type) (arithmetic : Number.Arithmetic Double)
         (calendar : WeightAverageCalculator.Calendar)
         (readings : list (WeightAverageCalculator.WeightReading Double))
         (targetDate windowDays : Z),
    WeightAverageCalculator.movesForward calendar ->
    WeightAverageCalculator.isValid
      (WeightAverageCalculator.calculate7DayAverage calendar readings targetDate windowDays)
    = true ->
    1 <= windowDays.
Proof.
  intros Double arithmetic calendar readings targetDate windowDays Hforward Hvalid.
  destruct (Z.le_gt_cases 1 windowDays) as [Hle | Hgt]; [exact Hle | exfalso].
  destruct (Hforward (- windowDays + 1) targetDate) as (d & Hd & Hlater); [lia |].
  rewrite (calculate7DayAverage_unfold _ _ _ _ _ Hd) in Hvalid. cbv zeta in Hvalid.
  assert (Hempty : filter (WeightAverageCalculator.inRange d targetDate) readings = []).
  { clear Hvalid. induction readings as [| r rs IH]; [reflexivity |].
    simpl. rewrite IH.
    replace (WeightAverageCalculator.inRange d targetDate r) with false; [reflexivity |].
    symmetry. unfold WeightAverageCalculator.inRange.
    apply andb_false_iff.
    destruct (Z.leb_spec d (WeightAverageCalculator.date r)); [right | left; reflexivity].
    apply Z.leb_gt. lia. }
  rewrite Hempty in Hvalid. simpl in Hvalid. discriminate.
Qed.

Lemma valid_window_positive_witness :
  WeightAverageCalculator.isValid
    (WeightAverageCalculator.calculate7DayAverage WeightAverageCalculator.fixedOffset
       (Samples.inDoubles Samples.threeDays) Samples.target 7) = true
  /\ 1 <= 7.
Proof.
  split; [reflexivity |].
  apply (valid_window_positive Binary64.double Number.binary64
           WeightAverageCalculator.fixedOffset
           (Samples.inDoubles Samples.threeDays) Samples.target 7).
  - intros value to Hv. eexists. split; [reflexivity |].
    unfold WeightAverageCalculator.secondsPerDay. lia.
  - reflexivity.
Defined.

Lemma rolling_average_confidence_unit_interval_witness :
  (0 <= WeightAverageCalculator.confidence
          (WeightAverageCalculator.calculate7DayAverage WeightAverageCalculator.fixedOffset
             Samples.threeDays Samples.target 7))%Q
  /\ (WeightAverageCalculator.confidence
        (WeightAverageCalculator.calculate7DayAverage WeightAverageCalculator.fixedOffset
           Samples.threeDays Samples.target 7) <= 1)%Q.
Proof.
  apply (rolling_average_confidence_unit_interval WeightAverageCalculator.fixedOffset
           Samples.threeDays Samples.target 7).
  vm_compute. discriminate.
Defined.

(** X5. Each of the two averages is taken over the seven-day window that ends
    at the instant of its call. The change is the difference of the two
    means when each list holds at least three readings of its window, and
    nil otherwise: when the previous week's readings are all earlier than the
    start of the window that ends now, as readings of a previous week are,
    the result is nil. *)
Theorem calculateWeekOverWeekChange_same_window :
  forall (Double : Type) (arithmetic : Number.Arithmetic Double)
         (calendar : WeightAverageCalculator.Calendar)
         (now later startNow startLater : Z)
         (currentWeekReadings previousWeekReadings :
            list (WeightAverageCalculator.WeightReading Double)),
    WeightAverageCalculator.date_byAdding_day calendar (- 7 + 1) now = Some startNow ->
    WeightAverageCalculator.date_byAdding_day calendar (- 7 + 1) later = Some startLater ->
    let current :=
      filter (fun r => (startNow <=? WeightAverageCalculator.date r)
                       && (WeightAverageCalculator.date r <=? now))
        currentWeekReadings in
    let previous :=
      filter (fun r => (startLater <=? WeightAverageCalculator.date r)
                       && (WeightAverageCalculator.date r <=? later))
        previousWeekReadings in
    let change :=
      WeightAverageCalculator.calculateWeekOverWeekChange
        calendar now later currentWeekReadings previousWeekReadings in
    (3 <= Z.of_nat (length current) -> 3 <= Z.of_nat (length previous) ->
     change
     = Some (Number.sub (Number.mean (map WeightAverageCalculator.weight current))
               (Number.mean (map WeightAverageCalculator.weight previous))))
    /\ (Z.of_nat (length current) < 3 \/ Z.of_nat (length previous) < 3 ->
        change = None)
    /\ ((forall r, In r previousWeekReadings ->
                   WeightAverageCalculator.date r < startLater) ->
        change = None).
Proof.
  intros Double arithmetic calendar now later startNow startLater cur prev
    HstartNow HstartLater current previous change.
  subst change. unfold WeightAverageCalculator.calculateWeekOverWeekChange. cbv zeta.
  rewrite (calculate7DayAverage_unfold calendar cur now 7 startNow HstartNow),
    (calculate7DayAverage_unfold calendar prev later 7 startLater HstartLater).
  cbv zeta.
  change (filter (WeightAverageCalculator.inRange startNow now) cur) with current.
  change (filter (WeightAverageCalculator.inRange startLater later) prev) with previous.
  assert (Hold : (forall r, In r prev -> WeightAverageCalculator.date r < startLater) ->
                 Z.of_nat (length previous) = 0).
  { intros Hold. unfold previous. rewrite filter_all_false; [reflexivity |].
    intros r Hr. specialize (Hold r Hr).
    apply andb_false_iff. left. apply Z.leb_gt. exact Hold. }
  destruct (Z.leb_spec 3 (Z.of_nat (length current))) as [Hc | Hc];
    destruct (Z.leb_spec 3 (Z.of_nat (length previous))) as [Hp | Hp];
    simpl; (split; [| split]); intros; try reflexivity; try lia.
  - rewrite !average_is_mean. reflexivity.
  - specialize (Hold ltac:(assumption)). lia.
Qed.

Lemma calculateWeekOverWeekChange_same_window_witness :
  WeightAverageCalculator.calculateWeekOverWeekChange WeightAverageCalculator.fixedOffset
    Samples.target (Samples.target + 1)
    (Samples.inDoubles Samples.threeDays) (Samples.inDoubles Samples.twiceADay)
  = Some (Binary64.Num (-1 # 2)).
Proof.
  destruct (calculateWeekOverWeekChange_same_window Binary64.double Number.binary64
              WeightAverageCalculator.fixedOffset
              Samples.target (Samples.target + 1)
              (Samples.target - 6 * Samples.day) (Samples.target + 1 - 6 * Samples.day)
              (Samples.inDoubles Samples.threeDays) (Samples.inDoubles Samples.twiceADay)
              eq_refl eq_refl) as (Hchange & _ & _).
  rewrite Hchange; [vm_compute; reflexivity | vm_compute; discriminate
                   | vm_compute; discriminate].
Defined.

(** X6. For the seven-day window the confidence level of an invalid result is
    low, and that of a valid result is never low: it is high from five
    readings on and medium for three or four. *)
Theorem confidenceLevel_of_seven_day_average :
  forall (calendar : WeightAverageCalculator.Calendar)
         (readings : list (WeightAverageCalculator.WeightReading Q)) (targetDate : Z),
    let result :=
      WeightAverageCalculator.calculate7DayAverage calendar readings targetDate 7 in
    WeightAverageCalculator.confidenceLevel result
    = if negb (WeightAverageCalculator.isValid result) then WeightAverageCalculator.low
      else if 5 <=? WeightAverageCalculator.readingCount result
           then WeightAverageCalculator.high
           else WeightAverageCalculator.medium.
Proof.
  intros calendar readings targetDate result. subst result.
  unfold WeightAverageCalculator.calculate7DayAverage. cbv zeta.
  set (n := Z.of_nat _).
  destruct (Z.leb_spec 3 n) as [H3 | H3]; simpl; [| reflexivity].
  unfold WeightAverageCalculator.confidenceLevel. simpl.
  unfold Qle_bool. simpl.
  destruct (Z.leb_spec 5 n) as [H5 | H5].
  - replace (49 <=? n * 1 * 10) with true by (symmetry; apply Z.leb_le; lia).
    reflexivity.
  - replace (49 <=? n * 1 * 10) with false by (symmetry; apply Z.leb_gt; lia).
    replace (28 <=? n * 1 * 10) with true by (symmetry; apply Z.leb_le; lia).
    reflexivity.
Qed.

(** The levels of three, four and five readings in the arithmetic of
    [Double]. *)
Example confidenceLevel_rounded :
  map (fun count =>
         WeightAverageCalculator.confidenceLevel
           {| WeightAverageCalculator.average := None;
              WeightAverageCalculator.confidence :=
                Binary64.div (Binary64.round (inject_Z count)) (Binary64.round 7);
              WeightAverageCalculator.readingCount := count;
              WeightAverageCalculator.isValid := true |})
      [3; 4; 5; 7]
  = [WeightAverageCalculator.medium; WeightAverageCalculator.medium;
     WeightAverageCalculator.high; WeightAverageCalculator.high].
Proof. vm_compute. reflexivity. Qed.

(** ** Phase alignment on the client *)

Lemma swift_suggestPhase_highest_score_witness :
  (1 # 2 <= PhaseDetector.confidence
              (PhaseDetector.suggestPhase [bulk; cut; maintenance] (-400) 1))%Q.
Proof.
  apply (swift_suggestPhase_highest_score [bulk; cut; maintenance] (-400) 1).
  unfold PhaseDetector.traversals. simpl. tauto.
Defined.

(** X11. A phase is aligned with the data exactly when its combined score
    exceeds 1, that is when both signals give it points; this does not
    depend on the order in which the dictionary of scores is traversed. *)
Theorem isPhaseAligned_iff_score_above_one :
  forall (keys : list Phase) (actualPhase : Phase)
         (avgDailySurplus avgWeeklyWeightChange : Q),
    In keys PhaseDetector.traversals ->
    PhaseDetector.isPhaseAligned keys actualPhase avgDailySurplus avgWeeklyWeightChange
    = Qltb 1 (PhaseDetector.phaseScores avgDailySurplus avgWeeklyWeightChange actualPhase).
Proof.
  intros keys p s w Hkeys.
  unfold PhaseDetector.isPhaseAligned, PhaseDetector.suggestPhase. cbv zeta.
  cbn [PhaseDetector.suggestedPhase PhaseDetector.confidence].
  unfold PhaseDetector.phaseScores,
    PhaseDetector.scoreWeightTrend, PhaseDetector.scoreCalorieBalance.
  cbv zeta.
  unfold PhaseDetector.traversals in Hkeys. simpl in Hkeys.
  repeat (destruct Hkeys as [<- | Hkeys]); [ .. | contradiction ];
    split_comparisons; destruct p; vm_compute; reflexivity.
Qed.

Lemma isPhaseAligned_iff_score_above_one_witness :
  PhaseDetector.isPhaseAligned [bulk; cut; maintenance] cut (-400) (-1)
  = Qltb 1 (PhaseDetector.phaseScores (-400) (-1) cut).
Proof.
  apply (isPhaseAligned_iff_score_above_one [bulk; cut; maintenance] cut (-400) (-1)).
  unfold PhaseDetector.traversals. simpl. tauto.
Defined.

(** ** The two forms of the bearer-token check *)

(** X4. [isAuthenticated] holds exactly for the requests that [authMiddleware]
    passes on to the next handler. *)
Theorem isAuthenticated_iff_middleware_passes :
  forall (env : Auth.Env) (req : Auth.Request),
    Auth.isAuthenticated env req = true
    <-> Auth.authMiddleware env req = Auth.CallNext.
Proof.
  intros env req. unfold Auth.isAuthenticated, Auth.authMiddleware.
  destruct (Auth.authorization req) as [header |]; [| split; refuted].
  destruct (JS.truthyS (Some header)); [| split; refuted].
  cbn [JS.showS negb].
  destruct (JS.splitSpace header) as [| scheme [| tok parts]];
    cbn [nth_error JS.truthyS negb]; rewrite ?orb_true_r; try (split; refuted).
  destruct (String.eqb scheme "Bearer"); [| split; refuted].
  destruct tok as [| c tok]; [split; refuted |].
  destruct (Auth.API_KEY env) as [[| k key] |]; try (split; refuted).
  cbn [JS.truthyS JS.showS negb orb].
  destruct (String.eqb (String c tok) (String k key)); split; try refuted; reflexivity.
Qed.

Lemma api_routes_answer_before_check_witness :
  exists name,
    App.dispatch App.app Samples.env Samples.anonymousGetWeeks = App.Reached name.
Proof.
  apply (api_routes_answer_before_check Samples.env Samples.anonymousGetWeeks
           (App.mkRoute (Some Auth.GET) [App.lit "api"; App.lit "weeks"]
              (App.endpoint "GET /api/weeks"))).
  - unfold App.mount, App.apiRoutes. simpl. tauto.
  - reflexivity.
Defined.

(** ** Tools on weeks written by createWeek and updateWeekTargets *)

(** The weeks of a phase analysis are filed unless the phase of one of them
    is a name that the object inherits. *)
Lemma fileWeeks_outcome (weeks : list Queries.WeekRecord)
    (groups : list (string * list Queries.WeekRecord)) :
  if existsb (fun w => Tools.inherited (JS.showS (Queries.phase w))) weeks
  then Tools.fileWeeks weeks groups
       = Tools.Thrown "phaseGroups[week.phase].push is not a function"
  else exists filed, Tools.fileWeeks weeks groups = Tools.Returned filed.
Proof.
  revert groups. induction weeks as [| w ws IH]; intros groups; simpl.
  - eexists; reflexivity.
  - unfold Tools.fileWeek.
    destruct (Tools.inherited (JS.showS (Queries.phase w))); simpl; [reflexivity |].
    apply IH.
Qed.

(** X24. Weeks written by [createWeek] and [updateWeekTargets] always carry a
    step target. On a store in which every week does, the week summary,
    called with a start date, and the current-week report answer with status
    200; the phase analysis, called with its two dates, answers with status
    500 when the phase of one of the weeks it analyses is a name that every
    object inherits, and with status 200 otherwise. *)
Theorem tools_succeed_on_written_weeks :
  forall (now : string) (db : Queries.D1Database),
    Invariants.stepTargetsSet db ->
    (forall week db', Queries.createWeek now db week = Queries.D1Ok db' ->
                      Invariants.stepTargetsSet db')
    /\ (forall weekId targets,
          Invariants.stepTargetsSet (Statements.updateWeekTargets now db weekId targets))
    /\ (forall clock getTime,
          (forall args,
             Tools.status
               (Tools.mcpHandler clock getTime db
                  (Tools.tools_call (Tools.get_week_summary args))) = 200)
          /\ Tools.status
               (Tools.mcpHandler clock getTime db (Tools.tools_call Tools.get_current_week))
             = 200
          /\ (forall args,
                let analysed :=
                  filter (fun w => JS.geS (Queries.start_date w) (Tools.startDate args)
                                   && JS.leS (Queries.start_date w) (Tools.endDate args))
                    (Queries.getWeeks db 100 0) in
                Tools.status
                  (Tools.mcpHandler clock getTime db
                     (Tools.tools_call (Tools.analyze_phases args)))
                = if existsb (fun w => Tools.inherited (JS.showS (Queries.phase w)))
                       analysed
                  then 500 else 200)).
Proof.
  intros now db Hset. split; [| split].
  - intros week db' H. unfold Queries.createWeek in H.
    destruct (Queries.in_id week); [| discriminate].
    destruct (Queries.in_start_date week); [| discriminate].
    destruct (Queries.in_end_date week); [| discriminate].
    destruct (existsb _ _); [discriminate |]. injection H as <-.
    intros w Hw. simpl in Hw. apply in_app_iff in Hw. destruct Hw as [Hw | [<- | []]].
    + apply Hset. exact Hw.
    + simpl. rewrite orZ_default. discriminate.
  - intros weekId targets w Hw. simpl in Hw. apply in_map_iff in Hw.
    destruct Hw as (w0 & <- & Hw0).
    destruct (String.eqb (Queries.id w0) weekId); [discriminate | apply Hset; exact Hw0].
  - intros clock getTime. unfold Tools.mcpHandler, Tools.runTool. split; [| split].
    + intros args. unfold Tools.executeWeekSummary.
      destruct (Queries.getWeekByStartDate db (Tools.ws_startDate args)) as [w |] eqn:E;
        [| reflexivity].
      apply find_some in E. destruct E as [Hw _].
      unfold Tools.targetStepsText.
      destruct (Queries.target_steps w) eqn:Et; [reflexivity |].
      exfalso. apply (Hset w Hw). exact Et.
    + unfold Tools.executeCurrentWeek.
      destruct (Queries.getCurrentWeek db) as [w |] eqn:E; [| reflexivity].
      apply getCurrentWeek_stored in E.
      unfold Tools.targetStepsText.
      destruct (Queries.target_steps w) eqn:Et; [reflexivity |].
      exfalso. apply (Hset w E). exact Et.
    + intros args. unfold Tools.executePhaseAnalysis. cbv zeta.
      destruct (filter _ (Queries.getWeeks db 100 0)) as [| w ws]; [reflexivity |].
      unfold Tools.phaseGroups.
      pose proof (fileWeeks_outcome (w :: ws) []) as Hfiled.
      destruct (existsb _ (w :: ws)).
      * rewrite Hfiled. reflexivity.
      * destruct Hfiled as [filed ->]. reflexivity.
Qed.

Lemma tools_succeed_on_written_weeks_witness :
  Tools.status
    (Tools.mcpHandler 0 (fun _ => None) MoreSamples.twoWeeks
       (Tools.tools_call (Tools.get_week_summary (Tools.mkWeekSummaryArgs "2024-01-07"))))
  = 200
  /\ Tools.status
       (Tools.mcpHandler 0 (fun _ => None) MoreSamples.twoWeeks
          (Tools.tools_call
             (Tools.analyze_phases (Tools.mkRangeArgs "2024-01-01" "2024-01-31"))))
     = 200.
Proof.
  destruct (tools_succeed_on_written_weeks Samples.now MoreSamples.twoWeeks)
    as (_ & _ & H).
  - intros w [<- | [<- | []]]; discriminate.
  - destruct (H 0 (fun _ => None)) as (Hsummary & _ & Hphases). split.
    + apply Hsummary.
    + rewrite Hphases. reflexivity.
Defined.

(** A completed week saved with the phase "constructor" makes the phase
    analysis fail. *)
Example phase_analysis_inherited_name :
  match Queries.createWeek Samples.now Samples.emptyDb MoreSamples.oddPhase with
  | Queries.D1Ok db =>
      Tools.mcpHandler 0 (fun _ => None) db
        (Tools.tools_call
           (Tools.analyze_phases (Tools.mkRangeArgs "2024-01-01" "2024-12-31")))
      = {| Tools.status := 500;
           Tools.body :=
             Tools.ErrorObject "Tool execution failed"
               (Some "phaseGroups[week.phase].push is not a function"%string) |}
  | Queries.D1Error _ => False
  end.
Proof. vm_compute. reflexivity. Qed.

(** The entries of the object of phase groups: a phase whose name is an
    array index comes before the others. *)
Example phase_groups_in_key_order :
  map fst (Tools.entries [("cut"%string, 1); ("10"%string, 2); ("bulk"%string, 3);
                          ("2"%string, 4); ("02"%string, 5)])
  = ["2"; "10"; "cut"; "bulk"; "02"]%string.
Proof. vm_compute. reflexivity. Qed.

(** ** Week boundaries on the server *)




